(** * MedicationReminder: the schedule and adherence engine of [script.js]

    A shallow embedding of the [MedicationApp] class: the medication store,
    the action log, the time grouping behind today's schedule, the
    self-rescheduling notification timers, import and clear-all.

    Conventions of the embedding.
    - A JavaScript string is a [string]; [===] on strings is [String.eqb].
    - An array is a [list]; [push] appends at the end, [filter], [find] and
      [some] are [List.filter], [List.find] and [List.existsb].
    - Every read of the wall clock is an explicit argument. Within one run
      of an event handler all reads return the same [Clock], except in
      [scheduleTarget], which keeps the two reads of its source apart.
    - The time zone of the host is a field of the application state. The
      [Date] methods of the scheduler go through its two operations, as the
      language defines them, and yield [NaN] outside the range of dates.
    - A function that can throw returns an [option]; [None] is the uncaught
      [TypeError], and in every such function it is raised before the first
      mutation of the application state. In the scheduler [None] marks a
      time string outside the modelled fragment of [Number], and in [fire] a
      timer that the host does not run.
    - [addMedication] can throw after it has changed and saved the store; it
      returns a [Run], whose [Thrown] carries the state left behind. A
      closure of the confirm dialog can throw in its last call, the render;
      [confirmYes] then returns the state left behind, the dialog open.
    - DOM output (toasts, focus, CSS classes) is not part of the state; the
      schedule view is the value of [renderTodaysSchedule], the class list
      of the body the value of [applySettings]. *)

From Stdlib Require Import ZArith String Ascii List Bool Lia Permutation Sorted
  DecimalString OrdersEx.
From stdpp Require Import gmap strings list fin_maps.

(** ** Data model *)

(** A medication object as [addMedication] builds it. The field [id] of the
    source is [med_id] here. *)
Record Medication := {
  med_id : string;
  name : string;
  dosage : string;
  timesPerDay : Z;
  times : list string;
  createdAt : string;
  isActive : bool }.

(** A history entry as [recordMedicationAction] builds it. The field [id] of
    the source is [entry_id] here. *)
Record HistoryEntry := {
  entry_id : string;
  medicationId : string;
  medicationName : string;
  action : string;
  scheduledTime : string;
  actualTime : string;
  date : string }.

#[global] Instance Medication_eq_dec : EqDecision Medication.
Proof. solve_decision. Defined.

#[global] Instance HistoryEntry_eq_dec : EqDecision HistoryEntry.
Proof. solve_decision. Defined.

(** The values a settings property can hold. Settings are only read for
    truthiness and for string equality, so the contents of an object or
    array value are not kept. *)
Inductive JSValue :=
| JNull
| JBool (b : bool)
| JNum (n : Z)
| JStr (s : string)
| JObject.

Definition truthy (v : JSValue) : bool :=
  match v with
  | JNull => false
  | JBool b => b
  | JNum n => negb (n =? 0)%Z
  | JStr s => negb (s =? "")%string
  | JObject => true
  end.

(** One read of the wall clock, as the four views of it that the code uses:
    [Date.now()] on the local civil time line (milliseconds),
    [Date.now().toString()], [new Date().toISOString()] and
    [new Date().toDateString()]. *)
Record Clock := {
  now_ms : Z;
  now_id : string;
  now_iso : string;
  now_date : string }.

(** The three blobs the application keeps in [localStorage]; a blob holds
    the value that [JSON.stringify] was given. *)
Inductive Blob :=
| MedicationsBlob (ms : list Medication)
| HistoryBlob (hs : list HistoryEntry)
| SettingsBlob (s : gmap string JSValue).

Definition key_medications : string := "seniorMed_medications".
Definition key_history : string := "seniorMed_history".
Definition key_settings : string := "seniorMed_settings".

(** A pending [setTimeout] callback of [scheduleNotificationForTime]: the
    closure keeps the medication object and the time string; [due] is the
    instant the timer was set for. *)
Record Timer := {
  timer_medication : Medication;
  timer_time : string;
  due : Z }.

(** A fire event: one [Notification] shown by [showMedicationNotification],
    with whether the sound was played and the vibration started. *)
Record Reminder := {
  reminder_medication : Medication;
  reminder_time : string;
  reminder_at : Z;
  sound : bool;
  vibration : bool }.

(** The host's time zone, as the two abstract operations of the language
    that the [Date] methods go through: [LocalTime] takes an instant to the
    local civil time, both in milliseconds, and [UTC] takes a local civil
    time back to an instant (the earlier one where the local time occurs
    twice; where it is skipped, the one that the offset before the
    transition gives). *)
Record Zone := {
  LocalTime : Z -> Z;
  UTC : Z -> Z }.

(** The [onConfirm] closures handed to [showConfirmDialog], one constructor
    per call site. *)
Inductive Callback :=
| DeleteConfirmed (medId : string)
| UndoConfirmed (medId time : string)
| ClearConfirmed.

(** The application: the fields of [MedicationApp], the storage, time zone
    and timer queue of the host, the notifications shown so far and the
    confirm dialog ([confirm_onclick] is [yesBtn.onclick]). *)
Record App := {
  medications : list Medication;
  history : list HistoryEntry;
  settings : gmap string JSValue;
  currentScreen : string;
  notificationPermission : bool;
  vibrateSupported : bool;
  timeZone : Zone;
  localStorage : gmap string Blob;
  timers : list Timer;
  shown : list Reminder;
  confirm_onclick : option Callback;
  confirm_open : bool }.

Definition set_medications (ms : list Medication) (app : App) : App :=
  {| medications := ms; history := history app; settings := settings app;
     currentScreen := currentScreen app;
     notificationPermission := notificationPermission app;
     vibrateSupported := vibrateSupported app;
     timeZone := timeZone app;
     localStorage := localStorage app; timers := timers app;
     shown := shown app; confirm_onclick := confirm_onclick app;
     confirm_open := confirm_open app |}.

Definition set_history (hs : list HistoryEntry) (app : App) : App :=
  {| medications := medications app; history := hs; settings := settings app;
     currentScreen := currentScreen app;
     notificationPermission := notificationPermission app;
     vibrateSupported := vibrateSupported app;
     timeZone := timeZone app;
     localStorage := localStorage app; timers := timers app;
     shown := shown app; confirm_onclick := confirm_onclick app;
     confirm_open := confirm_open app |}.

Definition set_settings (s : gmap string JSValue) (app : App) : App :=
  {| medications := medications app; history := history app; settings := s;
     currentScreen := currentScreen app;
     notificationPermission := notificationPermission app;
     vibrateSupported := vibrateSupported app;
     timeZone := timeZone app;
     localStorage := localStorage app; timers := timers app;
     shown := shown app; confirm_onclick := confirm_onclick app;
     confirm_open := confirm_open app |}.

Definition set_localStorage (ls : gmap string Blob) (app : App) : App :=
  {| medications := medications app; history := history app;
     settings := settings app; currentScreen := currentScreen app;
     notificationPermission := notificationPermission app;
     vibrateSupported := vibrateSupported app;
     timeZone := timeZone app;
     localStorage := ls; timers := timers app;
     shown := shown app; confirm_onclick := confirm_onclick app;
     confirm_open := confirm_open app |}.

Definition set_timers (ts : list Timer) (app : App) : App :=
  {| medications := medications app; history := history app;
     settings := settings app; currentScreen := currentScreen app;
     notificationPermission := notificationPermission app;
     vibrateSupported := vibrateSupported app;
     timeZone := timeZone app;
     localStorage := localStorage app; timers := ts;
     shown := shown app; confirm_onclick := confirm_onclick app;
     confirm_open := confirm_open app |}.

Definition set_shown (rs : list Reminder) (app : App) : App :=
  {| medications := medications app; history := history app;
     settings := settings app; currentScreen := currentScreen app;
     notificationPermission := notificationPermission app;
     vibrateSupported := vibrateSupported app;
     timeZone := timeZone app;
     localStorage := localStorage app; timers := timers app;
     shown := rs; confirm_onclick := confirm_onclick app;
     confirm_open := confirm_open app |}.

Definition set_confirm (cb : option Callback) (open : bool) (app : App) : App :=
  {| medications := medications app; history := history app;
     settings := settings app; currentScreen := currentScreen app;
     notificationPermission := notificationPermission app;
     vibrateSupported := vibrateSupported app;
     timeZone := timeZone app;
     localStorage := localStorage app; timers := timers app;
     shown := shown app; confirm_onclick := cb; confirm_open := open |}.

(** The settings object of the constructor. *)
Definition default_settings : gmap string JSValue :=
  <["soundEnabled" := JBool true]>
    (<["vibrationEnabled" := JBool true]>
       (<["highContrast" := JBool false]>
          (<["textSize" := JStr "normal"]> ∅))).

(** ** Persistence *)

(** [saveData]: the three [setItem] calls (the quota-exceeded path, which
    only shows a toast, is not modelled). *)
Definition saveData (app : App) : App :=
  set_localStorage
    (<[key_settings := SettingsBlob (settings app)]>
       (<[key_history := HistoryBlob (history app)]>
          (<[key_medications := MedicationsBlob (medications app)]>
             (localStorage app))))
    app.

(** ** Adherence tracker *)

(** [recordMedicationAction]: nothing happens for an unknown id; otherwise
    the entry is pushed and the state saved. *)
Definition recordMedicationAction (clk : Clock)
    (medId action time : string) (app : App) : App :=
  match List.find (fun med => (med_id med =? medId)%string)
                  (medications app) with
  | None => app
  | Some medication =>
      let historyEntry :=
        {| entry_id := now_id clk;
           medicationId := medId;
           medicationName := name medication;
           action := action;
           scheduledTime := time;
           actualTime := now_iso clk;
           date := now_date clk |} in
      saveData (set_history (history app ++ [historyEntry]) app)
  end.

Definition markMedicationTaken (clk : Clock) (medId time : string)
    (app : App) : App :=
  recordMedicationAction clk medId "taken" time app.

Definition markMedicationMissed (clk : Clock) (medId time : string)
    (app : App) : App :=
  recordMedicationAction clk medId "missed" time app.

Definition markMedicationSkipped (clk : Clock) (medId time : string)
    (app : App) : App :=
  recordMedicationAction clk medId "skipped" time app.

(** The predicate of [isMedicationTakenToday] on one entry. *)
Definition takenEntry (medId time today : string)
    (entry : HistoryEntry) : bool :=
  (medicationId entry =? medId)%string
  && (scheduledTime entry =? time)%string
  && (date entry =? today)%string
  && (action entry =? "taken")%string.

Definition isMedicationTakenToday (clk : Clock) (medId time : string)
    (app : App) : bool :=
  let today := now_date clk in
  List.existsb (takenEntry medId time today) (history app).

(** The predicate under the negation in [removeMedicationRecord]. *)
Definition slotEntry (medId time today : string)
    (entry : HistoryEntry) : bool :=
  (medicationId entry =? medId)%string
  && (scheduledTime entry =? time)%string
  && (date entry =? today)%string.

Definition removeMedicationRecord (clk : Clock) (medId time : string)
    (app : App) : App :=
  let today := now_date clk in
  saveData
    (set_history
       (List.filter (fun entry => negb (slotEntry medId time today entry))
                    (history app))
       app).

(** ** Confirm dialog *)

Definition showConfirmDialog (onConfirm : Callback) (app : App) : App :=
  set_confirm (Some onConfirm) true app.

(** [toggleMedicationStatus]: the undo branch only opens the dialog. *)
Definition toggleMedicationStatus (clk : Clock) (medId time : string)
    (app : App) : App :=
  if isMedicationTakenToday clk medId time app
  then showConfirmDialog (UndoConfirmed medId time) app
  else markMedicationTaken clk medId time app.

Definition deleteMedication (medId : string) (app : App) : App :=
  showConfirmDialog (DeleteConfirmed medId) app.

Definition clearAllData (app : App) : App :=
  showConfirmDialog ClearConfirmed app.

(** The body of each [onConfirm] closure, up to the render call that ends
    it. *)
Definition onConfirm (clk : Clock) (cb : Callback) (app : App) : App :=
  match cb with
  | DeleteConfirmed medId =>
      saveData
        (set_medications
           (List.filter (fun med => negb (med_id med =? medId)%string)
                        (medications app))
           app)
  | UndoConfirmed medId time =>
      removeMedicationRecord clk medId time app
  | ClearConfirmed =>
      set_localStorage
        (delete key_history (delete key_medications (localStorage app)))
        (set_history [] (set_medications [] app))
  end.

(** A click on the "no" button only hides the modal. *)
Definition confirmNo (app : App) : App :=
  set_confirm (confirm_onclick app) false app.

(** ** Schedule index *)

(** The properties every plain object inherits from [Object.prototype]. All
    of them hold functions, except [__proto__], which reads as
    [Object.prototype] itself; every one is truthy and none has a [push] or
    a [forEach]. *)
Definition Object_prototype_keys : list string :=
  [ "constructor"; "__defineGetter__"; "__defineSetter__"; "hasOwnProperty";
    "__lookupGetter__"; "__lookupSetter__"; "isPrototypeOf";
    "propertyIsEnumerable"; "toString"; "valueOf"; "__proto__";
    "toLocaleString" ].

Definition inherited (key : string) : bool :=
  List.existsb (String.eqb key) Object_prototype_keys.

(** The object [timeGroups]: its own properties, in creation order. *)
Definition TimeGroups : Type := list (string * list Medication).

Fixpoint getOwn (key : string) (o : TimeGroups) : option (list Medication) :=
  match o with
  | [] => None
  | (k, v) :: rest => if (k =? key)%string then Some v else getOwn key rest
  end.

Fixpoint setOwn (key : string) (value : list Medication) (o : TimeGroups)
    : TimeGroups :=
  match o with
  | [] => [(key, value)]
  | (k, v) :: rest =>
      if (k =? key)%string then (key, value) :: rest
      else (k, v) :: setOwn key value rest
  end.

(** The body of the inner [forEach] of [groupMedicationsByTime]. When [time]
    names an inherited property, [timeGroups[time]] is truthy, no array is
    created, and [push] is not a function: the call throws. *)
Definition addToGroup (medication : Medication) (time : string)
    (timeGroups : TimeGroups) : option TimeGroups :=
  match getOwn time timeGroups with
  | Some group => Some (setOwn time (group ++ [medication]) timeGroups)
  | None =>
      if inherited time then None
      else Some (setOwn time [medication] timeGroups)
  end.

Fixpoint forEachTime (medication : Medication) (ts : list string)
    (timeGroups : TimeGroups) : option TimeGroups :=
  match ts with
  | [] => Some timeGroups
  | time :: rest =>
      match addToGroup medication time timeGroups with
      | None => None
      | Some timeGroups' => forEachTime medication rest timeGroups'
      end
  end.

Fixpoint forEachMedication (ms : list Medication) (timeGroups : TimeGroups)
    : option TimeGroups :=
  match ms with
  | [] => Some timeGroups
  | medication :: rest =>
      match forEachTime medication (times medication) timeGroups with
      | None => None
      | Some timeGroups' => forEachMedication rest timeGroups'
      end
  end.

Definition groupMedicationsByTime (app : App) : option TimeGroups :=
  forEachMedication (medications app) [].

(** *** Numbers in strings *)

Definition digit (c : ascii) : option Z :=
  let n := Z.of_N (N_of_ascii c) in
  if (48 <=? n)%Z && (n <=? 57)%Z then Some (n - 48)%Z else None.

Fixpoint digits (acc : Z) (s : string) : option Z :=
  match s with
  | EmptyString => Some acc
  | String c rest =>
      match digit c with
      | Some d => digits (10 * acc + d)%Z rest
      | None => None
      end
  end.

(** [Number(s)] for a string of one to fifteen decimal digits, whose value a
    double holds exactly. Other strings are outside this fragment
    (JavaScript gives some of them a number too, and [NaN] to the rest);
    [None] says nothing about them. *)
Definition Number (s : string) : option Z :=
  match s with
  | EmptyString => None
  | _ => if (String.length s <=? 15)%nat then digits 0 s else None
  end.

(** An array index in the sense of the language: the canonical decimal
    string of an integer below [2^32 - 1]. *)
Definition arrayIndex (key : string) : option Z :=
  match key with
  | String "0" (String _ _) => None
  | _ =>
      match Number key with
      | Some n => if (n <=? 4294967294)%Z then Some n else None
      | None => None
      end
  end.

Definition isArrayIndex (key : string) : bool :=
  match arrayIndex key with Some _ => true | None => false end.

(** *** Sorting *)

(** [Array.prototype.sort] with a comparator: a stable sort, here by
    insertion. The comparator's number is kept as its sign. *)
Fixpoint insertBy {A : Type} (cmp : A -> A -> comparison) (x : A)
    (l : list A) : list A :=
  match l with
  | [] => [x]
  | y :: rest =>
      match cmp x y with
      | Gt => y :: insertBy cmp x rest
      | _ => x :: y :: rest
      end
  end.

Fixpoint sortBy {A : Type} (cmp : A -> A -> comparison) (l : list A)
    : list A :=
  match l with
  | [] => []
  | x :: rest => insertBy cmp x (sortBy cmp rest)
  end.

Definition indexOrder (a b : string * list Medication) : comparison :=
  match arrayIndex (fst a), arrayIndex (fst b) with
  | Some i, Some j => (i ?= j)%Z
  | _, _ => Eq
  end.

(** [Object.entries]: the array-index keys first, in ascending numeric
    order, then the other keys in creation order. *)
Definition Object_entries (o : TimeGroups) : list (string * list Medication) :=
  sortBy indexOrder (List.filter (fun kv => isArrayIndex (fst kv)) o)
  ++ List.filter (fun kv => negb (isArrayIndex (fst kv))) o.

Definition Object_keys (o : TimeGroups) : list string :=
  List.map fst (Object_entries o).

(** *** Today's schedule *)

(** One medication of a time block. [status_class] holds the values of the
    [class] attributes that the template writes on the status button, in
    the order of the tag: the one of the template itself and, when the slot
    reads taken, a second one after it. *)
Record MedItem := {
  item_medication : Medication;
  status_class : list string }.

Record TimeBlock := {
  block_time : string;
  resolveAllBtn : bool;
  items : list MedItem }.

Inductive ScheduleView :=
| NoMedicationsAdded
| NoMedicationsToday
| TimeBlocks (blocks : list TimeBlock).

Definition renderBlock (clk : Clock) (app : App)
    (entry : string * list Medication) : TimeBlock :=
  let (time, meds) := entry in
  {| block_time := time;
     resolveAllBtn := (1 <? length meds)%nat;
     items :=
       List.map
         (fun medication =>
            {| item_medication := medication;
               status_class :=
                 "med-status" ::
                 (if isMedicationTakenToday clk (med_id medication) time app
                  then ["med-status completed"] else []) |})
         meds |}.

(** [renderTodaysSchedule], as the structure of the markup it writes.
    [localeCompare] is the host's string collation. *)
Definition renderTodaysSchedule
    (localeCompare : string -> string -> comparison)
    (clk : Clock) (app : App) : option ScheduleView :=
  if (length (medications app) =? 0)%nat then Some NoMedicationsAdded
  else
    match groupMedicationsByTime app with
    | None => None
    | Some timeGroups =>
        if (length (Object_keys timeGroups) =? 0)%nat
        then Some NoMedicationsToday
        else
          Some (TimeBlocks
                  (List.map (renderBlock clk app)
                     (sortBy (fun a b => localeCompare (fst a) (fst b))
                             (Object_entries timeGroups))))
    end.

(** Whether [renderTodaysSchedule] throws: on a store that is not empty,
    when the grouping does. *)
Definition renderThrows (app : App) : bool :=
  negb (length (medications app) =? 0)%nat
  && match groupMedicationsByTime app with
     | None => true
     | Some _ => false
     end.

(** A click on the "yes" button: [yesBtn.onclick] runs the closure and then
    hides the modal. Every closure ends in [renderTodaysSchedule]; when that
    throws, the state is changed and saved already and the modal stays
    open. *)
Definition confirmYes (clk : Clock) (app : App) : App :=
  match confirm_onclick app with
  | None => app
  | Some cb =>
      let app' := onConfirm clk cb app in
      if renderThrows app' then app' else set_confirm (Some cb) false app'
  end.

(** *** Resolve all *)

Fixpoint forEachResolve (clk : Clock) (time : string) (ms : list Medication)
    (app : App) : App :=
  match ms with
  | [] => app
  | medication :: rest =>
      forEachResolve clk time rest
        (if negb (isMedicationTakenToday clk (med_id medication) time app)
         then markMedicationTaken clk (med_id medication) time app
         else app)
  end.

(** [resolveAllForTime]. [timeGroups[time] || []] is the group when [time]
    is an own property and [[]] when it is no property at all; for an
    inherited property it is a truthy value without [forEach], and the call
    throws. *)
Definition resolveAllForTime (clk : Clock) (time : string) (app : App)
    : option App :=
  match groupMedicationsByTime app with
  | None => None
  | Some timeGroups =>
      match getOwn time timeGroups with
      | Some meds => Some (forEachResolve clk time meds app)
      | None =>
          if inherited time then None
          else Some (forEachResolve clk time [] app)
      end
  end.

(** ** Notification scheduler *)

(** *** Dates

    An instant is a time value of the language: milliseconds since the
    epoch. The [Date] methods compute on the local civil time of the host's
    zone and clip the result to the range of time values. Their sums are
    those of the integers; the doubles of the source differ from them only
    for a time of day of [2^53] milliseconds or more asked of a date before
    the year -9000. *)
Definition msPerMinute : Z := 60000.
Definition msPerHour : Z := 3600000.
Definition msPerDay : Z := 86400000.

(** The largest time value. *)
Definition maxTime : Z := 8640000000000000.

(** The time value of a [Date]: an instant, or [NaN] for an invalid date. *)
Inductive TimeValue :=
| NaN
| Instant (t : Z).

Definition Day (t : Z) : Z := (t / msPerDay)%Z.

Definition TimeWithinDay (t : Z) : Z := (t mod msPerDay)%Z.

Definition MakeTime (hour min sec ms : Z) : Z :=
  (hour * msPerHour + min * msPerMinute + sec * 1000 + ms)%Z.

Definition MakeDate (day time : Z) : Z := (day * msPerDay + time)%Z.

Definition TimeClip (time : Z) : TimeValue :=
  if (Z.abs time <=? maxTime)%Z then Instant time else NaN.

(** A zone that keeps one offset from UTC for ever. *)
Definition fixedOffset (offset : Z) : Zone :=
  {| LocalTime := fun t => (t + offset)%Z;
     UTC := fun t => (t - offset)%Z |}.

Definition utc : Zone := fixedOffset 0.

(** A zone whose offset changes once, from [before] to [after] at the
    instant [shift]. A local time that either offset gives is taken back
    with that offset, the earlier instant first; a local time that the
    change skips is taken back with the offset before the change. *)
Definition oneShift (before after shift : Z) : Zone :=
  {| LocalTime := fun t => if (t <? shift)%Z then (t + before)%Z else (t + after)%Z;
     UTC := fun t =>
       if (t - before <? shift)%Z then (t - before)%Z
       else if (shift <=? t - after)%Z then (t - after)%Z
       else (t - before)%Z |}.

(** [s.split(sep)] for a one-character separator. *)
Fixpoint splitOn (sep : ascii) (s : string) : list string :=
  match s with
  | EmptyString => [EmptyString]
  | String c rest =>
      if (c =? sep)%char then EmptyString :: splitOn sep rest
      else
        match splitOn sep rest with
        | piece :: pieces => String c piece :: pieces
        | [] => [String c EmptyString]
        end
  end.

(** [const [hours, minutes] = time.split(':').map(Number)], on the fragment
    of [Number]. *)
Definition hoursMinutes (time : string) : option (Z * Z) :=
  match splitOn ":" time with
  | h :: m :: _ =>
      match Number h, Number m with
      | Some hours, Some minutes => Some (hours, minutes)
      | _, _ => None
      end
  | _ => None
  end.

(** [date.setHours(hours, minutes, 0, 0)] on a valid date: the day of the
    local time is kept and the time within the day replaced. *)
Definition setHours (zone : Zone) (date hours minutes : Z) : TimeValue :=
  let t := LocalTime zone date in
  TimeClip (UTC zone (MakeDate (Day t) (MakeTime hours minutes 0 0))).

(** [date.setDate(date.getDate() + 1)] on a valid date: [MakeDay] of the
    local year and month with the local day of the month plus one is the
    day after the local day, and the local time within the day is kept. *)
Definition setDate_getDate_plus_1 (zone : Zone) (date : Z) : TimeValue :=
  let t := LocalTime zone date in
  TimeClip (UTC zone (MakeDate (Day t + 1) (TimeWithinDay t))).

(** The value of [scheduledTime] when the timer is set. The source reads
    the clock twice: [now] is the first read, [base] the second, from which
    [scheduledTime] is built. Against an invalid date the comparison
    [scheduledTime <= now] is false. *)
Definition scheduledInstant (zone : Zone) (now base hours minutes : Z)
    : TimeValue :=
  match setHours zone base hours minutes with
  | NaN => NaN
  | Instant set =>
      if (set <=? now)%Z then setDate_getDate_plus_1 zone set else Instant set
  end.

(** The conversion of an integral number to the interface type [long], in
    which [setTimeout] takes its delay: modulo [2^32], into the signed
    range. *)
Definition toLong (x : Z) : Z := ((x + 2 ^ 31) mod 2 ^ 32 - 2 ^ 31)%Z.

(** [setTimeout(callback, scheduledTime.getTime() - now.getTime())]: the
    instant from which the host may run the callback. A delay that is [NaN]
    counts as zero, and so does one that is negative as a [long]. *)
Definition setTimeout_due (now : Z) (target : TimeValue) : Z :=
  match target with
  | NaN => now
  | Instant t => (now + Z.max 0 (toLong (t - now)))%Z
  end.

(** The instant [scheduleNotificationForTime] sets its timer for. *)
Definition scheduleTarget (zone : Zone) (now base : Z) (time : string)
    : option Z :=
  match hoursMinutes time with
  | None => None
  | Some (hours, minutes) =>
      Some (setTimeout_due now (scheduledInstant zone now base hours minutes))
  end.

(** [scheduleNotificationForTime]: one more [setTimeout]; the handle it
    returns is dropped. [None] only when [time] is outside the fragment of
    [Number]. *)
Definition scheduleNotificationForTime (now base : Z)
    (medication : Medication) (time : string) (app : App) : option App :=
  match scheduleTarget (timeZone app) now base time with
  | None => None
  | Some target =>
      Some (set_timers
              (timers app ++
                 [{| timer_medication := medication; timer_time := time;
                     due := target |}])
              app)
  end.

(** [checkNotificationPermission], given the answer of
    [Notification.requestPermission()]. *)
Definition checkNotificationPermission (permission : string) (app : App) : App :=
  {| medications := medications app; history := history app;
     settings := settings app; currentScreen := currentScreen app;
     notificationPermission := (permission =? "granted")%string;
     vibrateSupported := vibrateSupported app;
     timeZone := timeZone app;
     localStorage := localStorage app; timers := timers app;
     shown := shown app; confirm_onclick := confirm_onclick app;
     confirm_open := confirm_open app |}.

Fixpoint forEachSchedule (now : Z) (medication : Medication)
    (ts : list string) (app : App) : option App :=
  match ts with
  | [] => Some app
  | time :: rest =>
      match scheduleNotificationForTime now now medication time app with
      | None => None
      | Some app' => forEachSchedule now medication rest app'
      end
  end.

Definition scheduleNotifications (now : Z) (medication : Medication)
    (app : App) : option App :=
  if negb (notificationPermission app) then Some app
  else forEachSchedule now medication (times medication) app.

Definition settingEnabled (key : string) (app : App) : bool :=
  match settings app !! key with
  | Some v => truthy v
  | None => false
  end.

(** [showMedicationNotification]: gated on the permission flag only. *)
Definition showMedicationNotification (now : Z) (medication : Medication)
    (time : string) (app : App) : App :=
  if negb (notificationPermission app) then app
  else
    set_shown
      (shown app ++
         [{| reminder_medication := medication;
             reminder_time := time;
             reminder_at := now;
             sound := settingEnabled "soundEnabled" app;
             vibration := settingEnabled "vibrationEnabled" app
                          && vibrateSupported app |}])
      app.

(** The arrow function given to [setTimeout]. *)
Definition timerCallback (now : Z) (t : Timer) (app : App) : option App :=
  scheduleNotificationForTime now now (timer_medication t) (timer_time t)
    (showMedicationNotification now (timer_medication t) (timer_time t) app).

(** The host runs pending timer number [i] at instant [now]; [None] when
    there is no such timer or it is not due yet. *)
Definition fire (i : nat) (now : Z) (app : App) : option App :=
  match timers app !! i with
  | None => None
  | Some t =>
      if (due t <=? now)%Z
      then timerCallback now t (set_timers (delete i (timers app)) app)
      else None
  end.

Fixpoint forEachReschedule (now : Z) (ms : list Medication) (app : App)
    : option App :=
  match ms with
  | [] => Some app
  | medication :: rest =>
      match scheduleNotifications now medication app with
      | None => None
      | Some app' => forEachReschedule now rest app'
      end
  end.

(** The [visibilitychange] listener. *)
Definition visibilitychange (hidden : bool) (now : Z) (app : App)
    : option App :=
  if negb hidden && notificationPermission app
  then forEachReschedule now (medications app) app
  else Some app.

(** The pending timers of one (medication, time) pair, and the reminders
    shown for it. *)
Definition timersFor (medication : Medication) (time : string) (app : App)
    : list Timer :=
  List.filter
    (fun t => bool_decide (timer_medication t = medication)
              && (timer_time t =? time)%string)
    (timers app).

Definition remindersFor (medId time : string) (app : App) : list Reminder :=
  List.filter
    (fun r => (med_id (reminder_medication r) =? medId)%string
              && (reminder_time r =? time)%string)
    (shown app).

(** ** Import *)

(** A top-level property of the parsed import document. Array elements are
    taken as records of the store; nothing in [importData] looks at them. *)
Inductive JSTop (E : Type) :=
| TUndefined
| TNull
| TBool (b : bool)
| TNum (n : Z)
| TStr (s : string)
| TObject (o : gmap string JSValue)
| TArray (a : list E).

Arguments TUndefined {E}.
Arguments TNull {E}.
Arguments TBool {E} b.
Arguments TNum {E} n.
Arguments TStr {E} s.
Arguments TObject {E} o.
Arguments TArray {E} a.

Definition top_truthy {E : Type} (v : JSTop E) : bool :=
  match v with
  | TUndefined | TNull => false
  | TBool b => b
  | TNum n => negb (n =? 0)%Z
  | TStr s => negb (s =? "")%string
  | TObject _ | TArray _ => true
  end.

Definition isArray {E : Type} (v : JSTop E) : bool :=
  match v with TArray _ => true | _ => false end.

(** [typeof v === 'object'] *)
Definition typeofObject {E : Type} (v : JSTop E) : bool :=
  match v with TNull | TObject _ | TArray _ => true | _ => false end.

Record Document := {
  doc_medications : JSTop Medication;
  doc_history : JSTop HistoryEntry;
  doc_settings : JSTop JSValue }.

(** What [JSON.parse] made of the file: a syntax error, [null] (on which the
    first property read throws), or a value with properties. A number, a
    string, a boolean or an array is a document whose three properties are
    undefined. *)
Inductive Parsed :=
| SyntaxError
| ParsedNull
| ParsedValue (data : Document).

(** The own enumerable properties that a spread copies. *)
Fixpoint indexed (i : nat) (a : list JSValue) : list (string * JSValue) :=
  match a with
  | [] => []
  | v :: rest => (NilZero.string_of_uint (Nat.to_uint i), v) :: indexed (S i) rest
  end.

Definition ownProperties (v : JSTop JSValue) : gmap string JSValue :=
  match v with
  | TObject o => o
  | TArray a => list_to_map (indexed 0 a)
  | _ => ∅
  end.

(** [{ ...a, ...b }] *)
Definition spread (a b : gmap string JSValue) : gmap string JSValue := b ∪ a.

(** The elements of a value that passed [Array.isArray]. *)
Definition elements {E : Type} (v : JSTop E) : list E :=
  match v with TArray a => a | _ => [] end.

Definition importMedications (data : Document) (app : App) : App :=
  if top_truthy (doc_medications data) && isArray (doc_medications data)
  then set_medications (elements (doc_medications data)) app
  else app.

Definition importHistory (data : Document) (app : App) : App :=
  if top_truthy (doc_history data) && isArray (doc_history data)
  then set_history (elements (doc_history data)) app
  else app.

Definition importSettings (data : Document) (app : App) : App :=
  if top_truthy (doc_settings data) && typeofObject (doc_settings data)
  then set_settings (spread (settings app) (ownProperties (doc_settings data))) app
  else app.

(** The [reader.onload] handler of [importData]. Both exceptions end in the
    [catch], which only shows a toast. *)
Definition importData (parsed : Parsed) (app : App) : App :=
  match parsed with
  | SyntaxError => app
  | ParsedNull => app
  | ParsedValue data =>
      saveData (importSettings data (importHistory data (importMedications data app)))
  end.

(** ** Vocabulary of the statements *)

(** The (medication, time) pairs of a store, in the order in which the two
    nested loops of [groupMedicationsByTime] visit them. *)
Definition slotsOf (ms : list Medication) : list (Medication * string) :=
  flat_map (fun medication => List.map (pair medication) (times medication)) ms.

(** The body of the inner loop, run over a list of pairs. *)
Fixpoint addSlots (slots : list (Medication * string)) (timeGroups : TimeGroups)
    : option TimeGroups :=
  match slots with
  | [] => Some timeGroups
  | (medication, time) :: rest =>
      match addToGroup medication time timeGroups with
      | None => None
      | Some timeGroups' => addSlots rest timeGroups'
      end
  end.

(** The medications of the pairs at one time, in pair order. *)
Definition groupOf (time : string) (slots : list (Medication * string))
    : list Medication :=
  List.map fst (List.filter (fun s => (snd s =? time)%string) slots).

(** A zero-padded 24-hour "HH:MM", the value of an [<input type="time">]. *)
Definition wellFormedTime (time : string) : bool :=
  match time with
  | String h1 (String h2 (String ":" (String m1 (String m2 EmptyString)))) =>
      match digit h1, digit h2, digit m1, digit m2 with
      | Some a, Some b, Some c, Some d =>
          (10 * a + b <? 24)%Z && (10 * c + d <? 60)%Z
      | _, _, _, _ => false
      end
  | _ => false
  end.

(** The minute of the day that a time string names. *)
Definition minuteOfDay (time : string) : Z :=
  match hoursMinutes time with
  | Some (hours, minutes) => (60 * hours + minutes)%Z
  | None => 0%Z
  end.

(** The group of a time in [timeGroups], empty when the time is no key. *)
Definition groupAt (time : string) (timeGroups : TimeGroups) : list Medication :=
  match getOwn time timeGroups with
  | Some group => group
  | None => []
  end.

(** No dose time of the store names an inherited property. *)
Definition noInheritedTime (ms : list Medication) : Prop :=
  forall medication time,
    In medication ms -> In time (times medication) -> inherited time = false.

Definition plainTimes (ms : list Medication) : bool :=
  List.forallb
    (fun medication => List.forallb (fun time => negb (inherited time)) (times medication))
    ms.

Definition wellFormedTimes (ms : list Medication) : bool :=
  List.forallb (fun medication => List.forallb wellFormedTime (times medication)) ms.

(** Whether a group holds a medication. *)
Definition holds (medication : Medication) (group : list Medication) : bool :=
  List.existsb (fun m => bool_decide (m = medication)) group.

(** The [class] attribute of the status button in the document: of several
    attributes with one name on a start tag the HTML parser keeps the first
    and drops the others. *)
Definition classOf (item : MedItem) : option string := head (status_class item).

(** The time within the day, in milliseconds, that a well-formed time
    names, read off its four digits: 3600000 for each hour and 60000 for
    each minute. *)
Definition digitValue (c : ascii) : Z := (Z.of_N (N_of_ascii c) - 48)%Z.

Definition wallClock (time : string) : Z :=
  match time with
  | String h1 (String h2 (String _ (String m1 (String m2 _)))) =>
      ((10 * digitValue h1 + digitValue h2) * 3600000
       + (10 * digitValue m1 + digitValue m2) * 60000)%Z
  | _ => 0%Z
  end.

(** What the local clock of a zone shows at an instant: the number of the
    day, and the milliseconds since the midnight that began it. *)
Definition localDay (zone : Zone) (t : Z) : Z := (LocalTime zone t / 86400000)%Z.

Definition localClock (zone : Zone) (t : Z) : Z := (LocalTime zone t mod 86400000)%Z.

(** The zone keeps one offset over the instants from [from] to [to]: there
    the local time is the instant plus the offset, and [UTC] takes it
    back. *)
Definition steady (zone : Zone) (offset from to : Z) : Prop :=
  forall t, (from <= t <= to)%Z ->
    LocalTime zone t = (t + offset)%Z /\ UTC zone (t + offset) = t.

(** The time blocks of a view; the two empty states have none. *)
Definition blocksOf (view : ScheduleView) : list TimeBlock :=
  match view with
  | TimeBlocks blocks => blocks
  | _ => []
  end.

(** The pair a timer was armed for. *)
Definition pairOf (t : Timer) : Medication * string :=
  (timer_medication t, timer_time t).

Definition samePair (medication : Medication) (time : string)
    (s : Medication * string) : bool :=
  bool_decide (fst s = medication) && (snd s =? time)%string.

(** How many times the store lists a (medication, time) pair. *)
Definition slotCount (medication : Medication) (time : string)
    (ms : list Medication) : nat :=
  length (List.filter (samePair medication time) (slotsOf ms)).

(** The reminder a timer shows when it fires at [now]. *)
Definition reminderOf (now : Z) (t : Timer) (app : App) : Reminder :=
  {| reminder_medication := timer_medication t;
     reminder_time := timer_time t;
     reminder_at := now;
     sound := settingEnabled "soundEnabled" app;
     vibration := settingEnabled "vibrationEnabled" app && vibrateSupported app |}.

(** The two readings of "rejected atomically" for an import. *)
Definition replacedWholesale (data : Document) (app' : App) : Prop :=
  doc_medications data = TArray (medications app')
  /\ doc_history data = TArray (history app')
  /\ doc_settings data = TObject (settings app').

Definition unchanged (app app' : App) : Prop :=
  medications app' = medications app
  /\ history app' = history app
  /\ settings app' = settings app.

(** ** Scenarios *)

(** The application right after the constructor, with nothing stored. *)
Definition freshApp : App :=
  {| medications := []; history := []; settings := default_settings;
     currentScreen := "loading-screen"; notificationPermission := false;
     vibrateSupported := true; timeZone := utc; localStorage := ∅;
     timers := []; shown := []; confirm_onclick := None;
     confirm_open := false |}.

Definition aspirin : Medication :=
  {| med_id := "1793520000000"; name := "Aspirin"; dosage := "81mg";
     timesPerDay := 2; times := ["08:00"; "20:00"];
     createdAt := "2026-11-01T08:00:00.000Z"; isActive := true |}.

(** A medication object whose flag is off, as a backup file can hold. *)
Definition paused : Medication :=
  {| med_id := "1793520000001"; name := "Ibuprofen"; dosage := "";
     timesPerDay := 1; times := ["08:00"];
     createdAt := "2026-11-01T08:00:00.001Z"; isActive := false |}.

Definition backupOf (ms : list Medication) : Parsed :=
  ParsedValue {| doc_medications := TArray ms; doc_history := TUndefined;
                 doc_settings := TUndefined |}.

(** The store after importing a backup with aspirin alone, and with both
    medications, which share the time 08:00. *)
Definition aspirinStore : App := importData (backupOf [aspirin]) freshApp.

Definition twoMedications : App := importData (backupOf [aspirin; paused]) freshApp.

(** An instant of day 20759, Monday 2 November 2026. *)
Definition clockAt (hours minutes : Z) : Z :=
  (20759 * msPerDay + hours * msPerHour + minutes * msPerMinute)%Z.

Definition sevenThirty : Clock :=
  {| now_ms := clockAt 7 30;
     now_id := "1793604600000";
     now_iso := "2026-11-02T07:30:00.000Z";
     now_date := "Mon Nov 02 2026" |}.

Definition eightThirty : Clock :=
  {| now_ms := clockAt 8 30;
     now_id := "1793608200000";
     now_iso := "2026-11-02T08:30:00.000Z";
     now_date := "Mon Nov 02 2026" |}.

Definition eightFortyFive : Clock :=
  {| now_ms := clockAt 8 45;
     now_id := "1793609100000";
     now_iso := "2026-11-02T08:45:00.000Z";
     now_date := "Mon Nov 02 2026" |}.

Definition nine : Clock :=
  {| now_ms := clockAt 9 0;
     now_id := "1793610000000";
     now_iso := "2026-11-02T09:00:00.000Z";
     now_date := "Mon Nov 02 2026" |}.

Definition missedAtEight : HistoryEntry :=
  {| entry_id := "1793608200000"; medicationId := "1793520000000";
     medicationName := "Aspirin"; action := "missed";
     scheduledTime := "08:00"; actualTime := "2026-11-02T08:30:00.000Z";
     date := "Mon Nov 02 2026" |}.

Definition takenAtEight : HistoryEntry :=
  {| entry_id := "1793609100000"; medicationId := "1793520000000";
     medicationName := "Aspirin"; action := "taken";
     scheduledTime := "08:00"; actualTime := "2026-11-02T08:45:00.000Z";
     date := "Mon Nov 02 2026" |}.

(** Aspirin's 08:00 dose is marked missed at 08:30 and toggled to taken at
    08:45: the log is [[missedAtEight; takenAtEight]]. *)
Definition missedThenTaken : App :=
  toggleMedicationStatus eightFortyFive (med_id aspirin) "08:00"
    (markMedicationMissed eightThirty (med_id aspirin) "08:00" aspirinStore).

(** The store of two medications with aspirin taken at 08:45. *)
Definition oneTaken : App :=
  toggleMedicationStatus eightFortyFive (med_id aspirin) "08:00" twoMedications.

(** Aspirin in the store, notifications permitted, nothing armed yet. *)
Definition aspirinApp : App := checkNotificationPermission "granted" aspirinStore.

(** Aspirin armed for both of its times, as a resume at 07:00 leaves it. *)
Definition eightTimer : Timer :=
  {| timer_medication := aspirin; timer_time := "08:00"; due := clockAt 8 0 |}.

Definition twentyTimer : Timer :=
  {| timer_medication := aspirin; timer_time := "20:00"; due := clockAt 20 0 |}.

Definition armedApp : App := set_timers [eightTimer; twentyTimer] aspirinApp.

(** One event handler after another; a handler that does not return ends
    the scenario. *)
Definition andThen (r : option App) (handler : App -> option App) : option App :=
  match r with
  | Some app => handler app
  | None => None
  end.

(** The page becomes visible at 07:00 and again at 07:30. *)
Definition resumedTwice : option App :=
  andThen (visibilitychange false (clockAt 7 0) aspirinApp)
          (visibilitychange false (clockAt 7 30)).

(** Then, at 08:00, the host runs the two timers that are due. *)
Definition firedTwice : option App :=
  andThen (andThen resumedTwice (fire 0 (clockAt 8 0))) (fire 1 (clockAt 8 0)).

(** Aspirin is armed at 07:00, deleted (and confirmed) at 07:30, and its
    first timer runs at 08:00. *)
Definition deletedThenFired : option App :=
  andThen (visibilitychange false (clockAt 7 0) aspirinApp)
    (fun app =>
       fire 0 (clockAt 8 0)
         (confirmYes sevenThirty (deleteMedication (med_id aspirin) app))).

(** An import file with a medications array and a history that is a
    string. *)
Definition halfMalformed : Document :=
  {| doc_medications := TArray [paused];
     doc_history := TStr "none";
     doc_settings := TUndefined |}.

(** ** Start-up and reload *)

(** The fields the constructor sets, over the storage, the vibration
    support and the time zone of the host. *)
Definition construct (storage : gmap string Blob) (vibrate : bool)
    (zone : Zone) : App :=
  {| medications := []; history := []; settings := default_settings;
     currentScreen := "loading-screen"; notificationPermission := false;
     vibrateSupported := vibrate; timeZone := zone; localStorage := storage;
     timers := []; shown := []; confirm_onclick := None;
     confirm_open := false |}.

(** [loadData]. An item is read back as the value it was written from. An
    item of another kind than [saveData] writes under its key is outside
    the model ([None]). *)
Definition loadData (app : App) : option App :=
  let medicationsData := localStorage app !! key_medications in
  let historyData := localStorage app !! key_history in
  let settingsData := localStorage app !! key_settings in
  match medicationsData with
  | Some (HistoryBlob _) | Some (SettingsBlob _) => None
  | _ =>
      let app1 :=
        match medicationsData with
        | Some (MedicationsBlob ms) => set_medications ms app
        | _ => app
        end in
      match historyData with
      | Some (MedicationsBlob _) | Some (SettingsBlob _) => None
      | _ =>
          let app2 :=
            match historyData with
            | Some (HistoryBlob hs) => set_history hs app1
            | _ => app1
            end in
          match settingsData with
          | Some (MedicationsBlob _) | Some (HistoryBlob _) => None
          | Some (SettingsBlob s) => Some (set_settings (spread (settings app2) s) app2)
          | None => Some app2
          end
      end
  end.

(** A reload of the page: a new instance over the same storage. Pending
    timers, shown notifications and the permission flag do not carry
    over. *)
Definition reload (app : App) : option App :=
  loadData (construct (localStorage app) (vibrateSupported app) (timeZone app)).

(** [showScreen]; the screen element is taken to exist, as each id that the
    source passes does in the page. *)
Definition showScreen (screenId : string) (app : App) : App :=
  {| medications := medications app; history := history app;
     settings := settings app; currentScreen := screenId;
     notificationPermission := notificationPermission app;
     vibrateSupported := vibrateSupported app;
     timeZone := timeZone app;
     localStorage := localStorage app; timers := timers app;
     shown := shown app; confirm_onclick := confirm_onclick app;
     confirm_open := confirm_open app |}.

(** ** Adding a medication *)

(** Characters stand for UTF-16 code units below 256. Of these, the ones
    that [String.prototype.trim] removes: tab, line feed, vertical tab, form
    feed, carriage return, space and no-break space. *)
Definition isWhiteSpace (c : ascii) : bool :=
  let n := N_of_ascii c in
  (n =? 9)%N || (n =? 10)%N || (n =? 11)%N || (n =? 12)%N || (n =? 13)%N
  || (n =? 32)%N || (n =? 160)%N.

Fixpoint trimStart (s : string) : string :=
  match s with
  | EmptyString => EmptyString
  | String c rest => if isWhiteSpace c then trimStart rest else s
  end.

Fixpoint trimEnd (s : string) : string :=
  match s with
  | EmptyString => EmptyString
  | String c rest =>
      match trimEnd rest with
      | EmptyString => if isWhiteSpace c then EmptyString else String c EmptyString
      | kept => String c kept
      end
  end.

Definition trim (s : string) : string := trimEnd (trimStart s).

(** The object literal that [handleMedicationSubmit] passes on. *)
Record MedicationData := {
  data_name : string;
  data_dosage : string;
  data_timesPerDay : Z;
  data_times : list string }.

(** How a handler that can throw after it has changed the state ended.
    [Unmodelled]: a time string outside the fragment of [Number] reached
    the scheduler. *)
Inductive Run :=
| Completed (app : App)
| Thrown (app : App)
| Unmodelled.

Definition newMedication (clk : Clock) (medicationData : MedicationData)
    : Medication :=
  {| med_id := now_id clk;
     name := trim (data_name medicationData);
     dosage := trim (data_dosage medicationData);
     timesPerDay := data_timesPerDay medicationData;
     times := data_times medicationData;
     createdAt := now_iso clk;
     isActive := true |}.

(** [addMedication]. The store is not empty after the push, so
    [renderMedications] throws exactly when the grouping does, and then
    nothing is scheduled. *)
Definition addMedication (clk : Clock) (medicationData : MedicationData)
    (app : App) : Run :=
  let medication := newMedication clk medicationData in
  let app1 := saveData (set_medications (medications app ++ [medication]) app) in
  match groupMedicationsByTime app1 with
  | None => Thrown app1
  | Some _ =>
      match scheduleNotifications (now_ms clk) medication app1 with
      | Some app2 => Completed app2
      | None => Unmodelled
      end
  end.

(** The add-medication form: the two text inputs, [parseInt] of the select
    ([None] is [NaN]) and the value of input [time-i] ([None] when the
    element is absent). *)
Record MedicationForm := {
  form_name : string;
  form_dosage : string;
  form_times : option Z;
  form_time : nat -> option string }.

(** The loop that collects the time inputs that are present and filled. *)
Definition enteredTimes (form : MedicationForm) (timesPerDay : Z) : list string :=
  flat_map
    (fun i =>
       match form_time form i with
       | Some value => if (value =? "")%string then [] else [value]
       | None => []
       end)
    (seq 1 (Z.to_nat timesPerDay)).

Inductive Submission :=
| NameMissing
| CountMissing
| TimesMissing
| Submitted (run : Run).

(** [handleMedicationSubmit]. [times.sort()] orders by code units, which is
    the lexicographic order of [String.compare]. *)
Definition handleMedicationSubmit (clk : Clock) (form : MedicationForm)
    (app : App) : Submission :=
  if (trim (form_name form) =? "")%string then NameMissing
  else
    match form_times form with
    | None => CountMissing
    | Some timesPerDay =>
        if (timesPerDay =? 0)%Z then CountMissing
        else
          let times := enteredTimes form timesPerDay in
          if negb (Z.of_nat (length times) =? timesPerDay)%Z then TimesMissing
          else
            Submitted
              match
                addMedication clk
                  {| data_name := form_name form;
                     data_dosage := form_dosage form;
                     data_timesPerDay := timesPerDay;
                     data_times := sortBy String.compare times |}
                  app
              with
              | Completed app' => Completed (showScreen "main-menu" app')
              | other => other
              end
    end.

(** [generateTimeSlots]: the default value of input [time-(i+1)]. *)
Definition defaultTimes : list string := ["08:00"; "12:00"; "18:00"; "22:00"].

Definition defaultTime (i : nat) : string := nth i defaultTimes "08:00".

(** The form as [generateTimeSlots(count)] leaves it, with the defaults
    untouched. *)
Definition generatedForm (formName formDosage : string) (count : nat)
    : MedicationForm :=
  {| form_name := formName; form_dosage := formDosage;
     form_times := Some (Z.of_nat count);
     form_time := fun i =>
       if (1 <=? i)%nat && (i <=? count)%nat then Some (defaultTime (i - 1)) else None |}.

(** ** Settings *)

Definition setSetting (key : string) (value : JSValue) (app : App) : App :=
  saveData (set_settings (<[key := value]> (settings app)) app).

(** The four [change] listeners of the settings screen. *)
Definition soundEnabledChange (checked : bool) (app : App) : App :=
  setSetting "soundEnabled" (JBool checked) app.

Definition vibrationEnabledChange (checked : bool) (app : App) : App :=
  setSetting "vibrationEnabled" (JBool checked) app.

Definition highContrastChange (checked : bool) (app : App) : App :=
  setSetting "highContrast" (JBool checked) app.

Definition textSizeChange (value : string) (app : App) : App :=
  setSetting "textSize" (JStr value) app.

(** [this.settings.textSize === size] *)
Definition textSizeIs (size : string) (app : App) : bool :=
  match settings app !! "textSize" with
  | Some (JStr s) => (s =? size)%string
  | _ => false
  end.

(** [applySettings], on the class list of [document.body]. *)
Definition applySettings (app : App) (classList : gset string) : gset string :=
  let contrast :=
    if settingEnabled "highContrast" app
    then classList ∪ {["high-contrast"]}
    else classList ∖ {["high-contrast"]} in
  let cleared := contrast ∖ {["text-large"]} ∖ {["text-extra-large"]} in
  if textSizeIs "large" app then cleared ∪ {["text-large"]}
  else if textSizeIs "extra-large" app then cleared ∪ {["text-extra-large"]}
  else cleared.

(** ** Formatting *)

(** The decimal numeral of a non-negative integer. *)
Definition decimal (n : Z) : string := NilZero.string_of_uint (N.to_uint (Z.to_N n)).

(** [formatTime], with the hours in the fragment of [Number]. A time
    without a colon has [undefined] for its minutes. *)
Definition formatTime (time : string) : option string :=
  match splitOn ":" time with
  | hours :: rest =>
      let minutes := match rest with m :: _ => m | [] => "undefined" end in
      match Number hours with
      | Some h =>
          let hour12 := if (h mod 12 =? 0)%Z then 12%Z else (h mod 12)%Z in
          let ampm := if (12 <=? h)%Z then "PM" else "AM" in
          Some (decimal hour12 +:+ ":" +:+ minutes +:+ " " +:+ ampm)
      | None => None
      end
  | [] => None
  end.

(** The replacement table of [escapeHtml]; the double quote is character
    34. *)
Definition escapeChar (c : ascii) : string :=
  if (c =? "&")%char then "&amp;"
  else if (c =? "<")%char then "&lt;"
  else if (c =? ">")%char then "&gt;"
  else if (c =? "034")%char then "&quot;"
  else if (c =? "'")%char then "&#039;"
  else String c EmptyString.

Fixpoint escapeHtml (text : string) : string :=
  match text with
  | EmptyString => EmptyString
  | String c rest => escapeChar c +:+ escapeHtml rest
  end.

(** ** Export *)

Record ExportFile := {
  file_data : Document;
  exportDate : string;
  version : string }.

(** The object that [exportData] serializes. *)
Definition exportData (clk : Clock) (app : App) : ExportFile :=
  {| file_data :=
       {| doc_medications := TArray (medications app);
          doc_history := TArray (history app);
          doc_settings := TObject (settings app) |};
     exportDate := now_iso clk;
     version := "1.0" |}.

(** [JSON.parse] of the text that [JSON.stringify] made of the export. *)
Definition readBack (file : ExportFile) : Parsed := ParsedValue (file_data file).

(** ** Events *)

(** What can happen to the page: the reload, the answer to the permission
    request, the handlers of the user interface, the methods reachable on
    [window.app], and the two callbacks of the host. *)
Inductive Event :=
| Reload
| PermissionAnswer (permission : string)
| Submit (clk : Clock) (form : MedicationForm)
| Toggle (clk : Clock) (medId time : string)
| MarkMissed (clk : Clock) (medId time : string)
| MarkSkipped (clk : Clock) (medId time : string)
| ResolveAll (clk : Clock) (time : string)
| Delete (medId : string)
| ClearAll
| ConfirmYes (clk : Clock)
| ConfirmNo
| Import (parsed : Parsed)
| SoundEnabled (checked : bool)
| VibrationEnabled (checked : bool)
| HighContrast (checked : bool)
| TextSize (value : string)
| Visibility (hidden : bool) (now : Z)
| TimerFires (i : nat) (now : Z).

(** The state after one event. A refused submission and a
    [resolveAllForTime] that throws leave the state as it was; [None] when
    the scheduler meets a time outside the fragment of [Number], when a
    stored item is of the wrong kind at a reload, or when the host does not
    run the timer. *)
Definition handle (e : Event) (app : App) : option App :=
  match e with
  | Reload => reload app
  | PermissionAnswer permission => Some (checkNotificationPermission permission app)
  | Submit clk form =>
      match handleMedicationSubmit clk form app with
      | Submitted (Completed app') | Submitted (Thrown app') => Some app'
      | Submitted Unmodelled => None
      | _ => Some app
      end
  | Toggle clk medId time => Some (toggleMedicationStatus clk medId time app)
  | MarkMissed clk medId time => Some (markMedicationMissed clk medId time app)
  | MarkSkipped clk medId time => Some (markMedicationSkipped clk medId time app)
  | ResolveAll clk time =>
      match resolveAllForTime clk time app with
      | Some app' => Some app'
      | None => Some app
      end
  | Delete medId => Some (deleteMedication medId app)
  | ClearAll => Some (clearAllData app)
  | ConfirmYes clk => Some (confirmYes clk app)
  | ConfirmNo => Some (confirmNo app)
  | Import parsed => Some (importData parsed app)
  | SoundEnabled checked => Some (soundEnabledChange checked app)
  | VibrationEnabled checked => Some (vibrationEnabledChange checked app)
  | HighContrast checked => Some (highContrastChange checked app)
  | TextSize value => Some (textSizeChange value app)
  | Visibility hidden now => visibilitychange hidden now app
  | TimerFires i now => fire i now app
  end.

Fixpoint run (events : list Event) (app : App) : option App :=
  match events with
  | [] => Some app
  | e :: rest =>
      match handle e app with
      | Some app' => run rest app'
      | None => None
      end
  end.

(** ** Further vocabulary *)

(** Some dose time of the store names an inherited property. *)
Definition someInheritedTime (app : App) : Prop :=
  exists m t, In m (medications app) /\ In t (times m) /\ inherited t = true.

(** Whether a medication lists a time. *)
Definition listsTime (time : string) (medication : Medication) : bool :=
  List.existsb (String.eqb time) (times medication).

(** Whether a character occurs in a string. *)
Fixpoint occursIn (c : ascii) (s : string) : bool :=
  match s with
  | EmptyString => false
  | String x rest => (x =? c)%char || occursIn c rest
  end.

(** The hour of the 12-hour clock for an hour of the day. *)
Definition hour12 (h : Z) : Z := if (h mod 12 =? 0)%Z then 12%Z else (h mod 12)%Z.

(** A string of white space only. *)
Fixpoint blank (s : string) : bool :=
  match s with
  | EmptyString => true
  | String c rest => isWhiteSpace c && blank rest
  end.

(** Whether input [time-i] of the form is present and filled. *)
Definition filled (form : MedicationForm) (i : nat) : Prop :=
  exists value, form_time form i = Some value /\ value <> EmptyString.

(** The state a run ended in. *)
Definition stateOf (run : Run) : option App :=
  match run with
  | Completed app | Thrown app => Some app
  | Unmodelled => None
  end.

(** The stored items agree with the state: each item that is present holds
    the current value, an absent collection is empty, absent settings are
    the defaults, and the four default settings are set. *)
Definition stored (app : App) : Prop :=
  (localStorage app !! key_medications = Some (MedicationsBlob (medications app))
   \/ (localStorage app !! key_medications = None /\ medications app = []))
  /\ (localStorage app !! key_history = Some (HistoryBlob (history app))
      \/ (localStorage app !! key_history = None /\ history app = []))
  /\ (localStorage app !! key_settings = Some (SettingsBlob (settings app))
      \/ (localStorage app !! key_settings = None /\ settings app = default_settings))
  /\ (forall key, is_Some (default_settings !! key) -> is_Some (settings app !! key)).

(** The answer that grants the notification permission. *)
Definition grants (e : Event) : bool :=
  match e with
  | PermissionAnswer permission => (permission =? "granted")%string
  | _ => false
  end.

(** Two states with the same collections, settings and storage. *)
Definition sameData (app app' : App) : Prop :=
  medications app' = medications app /\ history app' = history app
  /\ settings app' = settings app /\ localStorage app' = localStorage app.

(** Two states with the same permission flag, timers and shown reminders. *)
Definition sameAlerts (app app' : App) : Prop :=
  notificationPermission app' = notificationPermission app
  /\ timers app' = timers app /\ shown app' = shown app.

(** The four default settings are set. *)
Definition hasDefaults (s : gmap string JSValue) : Prop :=
  forall key, is_Some (default_settings !! key) -> is_Some (s !! key).

(** No permission, nothing armed, nothing shown. *)
Definition quiet (app : App) : Prop :=
  notificationPermission app = false /\ timers app = [] /\ shown app = [].

(** ** Further scenarios *)


(** The form with the name typed in and two default times. *)
Definition aspirinForm : MedicationForm := generatedForm " Aspirin " "81mg" 2.

(** Its submission at 08:30 on a new installation. *)
Definition submittedRun : Run :=
  match handleMedicationSubmit eightThirty aspirinForm (construct ∅ true utc) with
  | Submitted run => run
  | _ => Unmodelled
  end.

Definition submittedApp : App :=
  match stateOf submittedRun with
  | Some app => app
  | None => construct ∅ true utc
  end.

(** A first day without the permission: the medication is added, the 08:00
    dose is toggled, the sound is switched off, the page is resumed, a
    deletion is asked for and declined. *)
Definition firstDay : list Event :=
  [ PermissionAnswer "denied";
    Submit eightThirty aspirinForm;
    Toggle eightFortyFive (now_id eightThirty) "08:00";
    SoundEnabled false;
    Visibility false (clockAt 8 50);
    Delete (now_id eightThirty);
    ConfirmNo ].

Definition firstDayApp : App :=
  match run firstDay (construct ∅ true utc) with
  | Some app => app
  | None => construct ∅ true utc
  end.

(** America/New_York around the start of daylight saving time in 2026:
    UTC-5 until 07:00 UTC of Sunday 8 March (day 20520), when the local
    clocks go from 02:00 to 03:00, and UTC-4 from then on. *)
Definition newYork : Zone :=
  oneShift (-5 * msPerHour) (-4 * msPerHour) (20520 * msPerDay + 7 * msPerHour).

(** The time [hours]:[minutes] of the day with number [day], on the local
    clock or, as an instant, at UTC. *)
Definition civil (day hours minutes : Z) : Z :=
  (day * msPerDay + hours * msPerHour + minutes * msPerMinute)%Z.

(** Sunday 8 March 2026, 10:00 in New York. *)
Definition sundayTen : Z := civil 20520 14 0.

(** Monday 9 March 2026, 02:30 in New York. *)
Definition mondayTwoThirty : Z := civil 20521 6 30.

Definition nightDose : Medication :=
  {| med_id := "1772900000000"; name := "Levothyroxine"; dosage := "50mcg";
     timesPerDay := 1; times := ["02:30"];
     createdAt := "2026-03-07T16:13:20.000Z"; isActive := true |}.

(** The night dose in the store of a host in New York, notifications
    permitted, nothing armed yet. *)
Definition newYorkApp : App :=
  checkNotificationPermission "granted"
    (importData (backupOf [nightDose]) (construct ∅ true newYork)).

(** A medication object whose one dose time is the name of an inherited
    property, as a backup file can hold, in a store with aspirin. *)
Definition inheritedDose : Medication :=
  {| med_id := "1793520000002"; name := "Vitamin D"; dosage := "";
     timesPerDay := 1; times := ["constructor"];
     createdAt := "2026-11-01T08:00:00.002Z"; isActive := true |}.

Definition inheritedStore : App := importData (backupOf [aspirin; inheritedDose]) freshApp.

(** Tuesday 10 March 2026, 09:00 in New York, and a timer of aspirin that
    was due at 08:00 of that morning. *)
Definition tuesdayNine : Z := civil 20522 13 0.

Definition morningTimer : Timer :=
  {| timer_medication := aspirin; timer_time := "08:00"; due := civil 20522 12 0 |}.

Definition newYorkArmed : App := set_timers [morningTimer] newYorkApp.

(** * Properties *)

(** ** Field access through the setters *)

Lemma history_saveData app : history (saveData app) = history app.
Proof. reflexivity. Qed.

Lemma medications_saveData app : medications (saveData app) = medications app.
Proof. reflexivity. Qed.

Lemma settings_saveData app : settings (saveData app) = settings app.
Proof. reflexivity. Qed.

(** ** Adherence tracker *)

Lemma takenEntry_true medId time today entry :
  takenEntry medId time today entry = true <->
  medicationId entry = medId /\ scheduledTime entry = time /\
  date entry = today /\ action entry = "taken".
Proof.
  unfold takenEntry. rewrite !andb_true_iff, !String.eqb_eq. tauto.
Qed.

Lemma slotEntry_true medId time today entry :
  slotEntry medId time today entry = true <->
  medicationId entry = medId /\ scheduledTime entry = time /\
  date entry = today.
Proof.
  unfold slotEntry. rewrite !andb_true_iff, !String.eqb_eq. tauto.
Qed.

Lemma takenEntry_slotEntry medId time today entry :
  takenEntry medId time today entry = true ->
  slotEntry medId time today entry = true.
Proof.
  rewrite takenEntry_true, slotEntry_true. tauto.
Qed.

Lemma takenEntry_other medId time today entry :
  action entry <> "taken" \/ date entry <> today ->
  takenEntry medId time today entry = false.
Proof.
  intros H. apply not_true_is_false. rewrite takenEntry_true.
  intros (_ & _ & Hd & Ha). destruct H; congruence.
Qed.

(** C1. [isMedicationTakenToday] answers taken exactly when the history holds
    an entry with this medication id, this scheduled time, today's date
    string and the action taken; an entry with another action or another
    date can be dropped from the history without changing the answer. *)
Theorem isMedicationTakenToday_iff (clk : Clock) (medId time : string) (app : App) :
  (isMedicationTakenToday clk medId time app = true <->
   exists entry, In entry (history app) /\
     medicationId entry = medId /\ scheduledTime entry = time /\
     date entry = now_date clk /\ action entry = "taken")
  /\
  (forall before after entry,
     history app = before ++ entry :: after ->
     action entry <> "taken" \/ date entry <> now_date clk ->
     isMedicationTakenToday clk medId time app =
     isMedicationTakenToday clk medId time (set_history (before ++ after) app)).
Proof.
  split.
  - unfold isMedicationTakenToday. rewrite existsb_exists.
    split; intros (entry & Hin & H); exists entry; split; trivial;
      now apply takenEntry_true.
  - intros before after entry Hh Hother.
    unfold isMedicationTakenToday. cbn [history set_history]. rewrite Hh.
    rewrite !existsb_app. cbn [existsb].
    now rewrite (takenEntry_other _ _ _ _ Hother).
Qed.

(** The log after [removeMedicationRecord]: the entries outside the slot,
    in their order. *)
Lemma removeMedicationRecord_history clk medId time app entry :
  In entry (history (removeMedicationRecord clk medId time app)) <->
  In entry (history app) /\ slotEntry medId time (now_date clk) entry = false.
Proof.
  unfold removeMedicationRecord. rewrite history_saveData. cbn [history set_history].
  rewrite filter_In, negb_true_iff. tauto.
Qed.

Lemma removeMedicationRecord_unmarked clk medId time app :
  isMedicationTakenToday clk medId time
    (removeMedicationRecord clk medId time app) = false.
Proof.
  apply not_true_is_false. intros H.
  unfold isMedicationTakenToday in H. apply existsb_exists in H.
  destruct H as (entry & Hin & Ht).
  apply removeMedicationRecord_history in Hin. destruct Hin as [_ Hs].
  apply takenEntry_slotEntry in Ht. congruence.
Qed.

(** The "yes" button runs the closure of the open dialog; whether or not
    the modal closes afterwards, everything but the dialog is as the closure
    left it. *)
Lemma confirmYes_fields clk cb app :
  confirm_onclick app = Some cb ->
  medications (confirmYes clk app) = medications (onConfirm clk cb app)
  /\ history (confirmYes clk app) = history (onConfirm clk cb app)
  /\ settings (confirmYes clk app) = settings (onConfirm clk cb app)
  /\ localStorage (confirmYes clk app) = localStorage (onConfirm clk cb app)
  /\ timers (confirmYes clk app) = timers (onConfirm clk cb app)
  /\ shown (confirmYes clk app) = shown (onConfirm clk cb app)
  /\ notificationPermission (confirmYes clk app)
     = notificationPermission (onConfirm clk cb app)
  /\ vibrateSupported (confirmYes clk app) = vibrateSupported (onConfirm clk cb app)
  /\ timeZone (confirmYes clk app) = timeZone (onConfirm clk cb app)
  /\ currentScreen (confirmYes clk app) = currentScreen (onConfirm clk cb app).
Proof.
  intros H. unfold confirmYes. rewrite H. cbv zeta.
  destruct (renderThrows (onConfirm clk cb app)); repeat split; reflexivity.
Qed.

Lemma isMedicationTakenToday_history clk medId time app app' :
  history app' = history app ->
  isMedicationTakenToday clk medId time app' = isMedicationTakenToday clk medId time app.
Proof. unfold isMedicationTakenToday. now intros ->. Qed.

(** What the confirmed undo keeps and what it drops, for every state: an
    entry stays exactly when it is outside the (id, time, today) slot,
    whatever its action; the slot then reads unmarked. *)
Lemma undo_confirmed clk medId time app :
  isMedicationTakenToday clk medId time app = true ->
  let app' := confirmYes clk (toggleMedicationStatus clk medId time app) in
  (forall entry, In entry (history app') <->
     In entry (history app) /\
     ~ (medicationId entry = medId /\ scheduledTime entry = time /\
        date entry = now_date clk))
  /\ isMedicationTakenToday clk medId time app' = false.
Proof.
  intros Ht app'. subst app'. unfold toggleMedicationStatus. rewrite Ht.
  destruct (confirmYes_fields clk (UndoConfirmed medId time)
              (showConfirmDialog (UndoConfirmed medId time) app) eq_refl)
    as (_ & Hh & _).
  cbn [onConfirm] in Hh.
  split.
  - intros entry. rewrite Hh, removeMedicationRecord_history.
    unfold showConfirmDialog. cbn [history set_confirm].
    rewrite <- slotEntry_true, not_true_iff_false. reflexivity.
  - rewrite (isMedicationTakenToday_history _ _ _ _ _ Hh).
    apply removeMedicationRecord_unmarked.
Qed.

Example missedThenTaken_history :
  history missedThenTaken = [missedAtEight; takenAtEight].
Proof. reflexivity. Qed.

(** C2, at the state [missedThenTaken]: the slot reads taken, the confirmed
    toggle empties the log, and the missed entry of the slot is gone with
    the taken one. *)
Theorem undo_drops_missed_entry :
  isMedicationTakenToday nine (med_id aspirin) "08:00" missedThenTaken = true
  /\ In missedAtEight (history missedThenTaken)
  /\ action missedAtEight = "missed"
  /\ history (confirmYes nine
               (toggleMedicationStatus nine (med_id aspirin) "08:00" missedThenTaken))
     = []
  /\ ~ In missedAtEight
       (history (confirmYes nine
                  (toggleMedicationStatus nine (med_id aspirin) "08:00" missedThenTaken))).
Proof.
  assert (Hh : history (confirmYes nine
               (toggleMedicationStatus nine (med_id aspirin) "08:00" missedThenTaken))
               = []) by reflexivity.
  split; [reflexivity|]. split; [now left|]. split; [reflexivity|].
  split; [exact Hh|]. rewrite Hh. intros [].
Qed.

(** ** Clear all *)

(** C10. The confirmed clear-all empties the medications and the history,
    removes their two storage items, keeps the settings object, and leaves
    every other storage item, the settings item among them, as it was. *)
Theorem clearAllData_keeps_settings (clk : Clock) (app : App) :
  let app' := confirmYes clk (clearAllData app) in
  medications app' = [] /\ history app' = []
  /\ localStorage app' !! key_medications = None
  /\ localStorage app' !! key_history = None
  /\ settings app' = settings app
  /\ localStorage app' !! key_settings = localStorage app !! key_settings
  /\ (forall key, key <> key_medications -> key <> key_history ->
        localStorage app' !! key = localStorage app !! key).
Proof.
  destruct (confirmYes_fields clk ClearConfirmed (clearAllData app) eq_refl)
    as (Hm & Hh & Hs & Hl & _).
  cbv zeta. rewrite Hm, Hh, Hs, Hl.
  cbn -[key_medications key_history key_settings].
  repeat split.
  - rewrite lookup_delete_ne by discriminate. apply lookup_delete_eq.
  - apply lookup_delete_eq.
  - rewrite !lookup_delete_ne by discriminate. reflexivity.
  - intros key H1 H2. rewrite !lookup_delete_ne by congruence. reflexivity.
Qed.

(** ** Schedule index *)

Lemma getOwn_setOwn_eq key value o : getOwn key (setOwn key value o) = Some value.
Proof.
  induction o as [|[k v] rest IH]; cbn.
  - now rewrite String.eqb_refl.
  - destruct (k =? key)%string eqn:E; cbn.
    + now rewrite String.eqb_refl.
    + now rewrite E.
Qed.

Lemma getOwn_setOwn_ne key key' value o :
  key <> key' -> getOwn key' (setOwn key value o) = getOwn key' o.
Proof.
  intros Hne. induction o as [|[k v] rest IH]; cbn.
  - apply String.eqb_neq in Hne. now rewrite Hne.
  - destruct (k =? key)%string eqn:E; cbn.
    + apply String.eqb_eq in E. subst k.
      apply String.eqb_neq in Hne. now rewrite Hne.
    + destruct (k =? key')%string; trivial.
Qed.

Lemma getOwn_None key o : getOwn key o = None <-> ~ In key (List.map fst o).
Proof.
  induction o as [|[k v] rest IH]; cbn.
  - tauto.
  - destruct (k =? key)%string eqn:E.
    + apply String.eqb_eq in E. split; [discriminate | tauto].
    + apply String.eqb_neq in E. rewrite IH. tauto.
Qed.

Lemma getOwn_In key value o : getOwn key o = Some value -> In (key, value) o.
Proof.
  induction o as [|[k v] rest IH]; cbn; [discriminate|].
  destruct (k =? key)%string eqn:E.
  - apply String.eqb_eq in E. intros [= ->]. subst. now left.
  - auto.
Qed.

Lemma In_getOwn key value o :
  List.NoDup (List.map fst o) -> In (key, value) o -> getOwn key o = Some value.
Proof.
  induction o as [|[k v] rest IH]; cbn; [tauto|].
  intros Hnd [Heq | Hin].
  - injection Heq as -> ->. now rewrite String.eqb_refl.
  - apply List.NoDup_cons_iff in Hnd. destruct Hnd as [Hk Hnd].
    destruct (k =? key)%string eqn:E; [|auto].
    apply String.eqb_eq in E. subst k. exfalso. apply Hk.
    apply in_map_iff. now exists (key, value).
Qed.

Lemma keys_setOwn key value o :
  List.map fst (setOwn key value o) =
  match getOwn key o with
  | Some _ => List.map fst o
  | None => List.map fst o ++ [key]
  end.
Proof.
  induction o as [|[k v] rest IH]; cbn; trivial.
  destruct (k =? key)%string eqn:E; cbn.
  - apply String.eqb_eq in E. now subst.
  - rewrite IH. now destruct (getOwn key rest).
Qed.

Lemma NoDup_keys_setOwn key value o :
  List.NoDup (List.map fst o) -> List.NoDup (List.map fst (setOwn key value o)).
Proof.
  intros Hnd. rewrite keys_setOwn. destruct (getOwn key o) eqn:E; trivial.
  apply getOwn_None in E.
  apply List.NoDup_rev in Hnd. rewrite <- (List.rev_involutive (_ ++ _)).
  apply List.NoDup_rev. rewrite List.rev_app_distr. cbn.
  constructor; trivial. now rewrite <- in_rev.
Qed.

Lemma groupOf_cons_eq medication time rest :
  groupOf time ((medication, time) :: rest) = medication :: groupOf time rest.
Proof. unfold groupOf. cbn. now rewrite String.eqb_refl. Qed.

Lemma groupOf_cons_ne medication time time' rest :
  time <> time' ->
  groupOf time' ((medication, time) :: rest) = groupOf time' rest.
Proof.
  intros Hne. unfold groupOf. cbn. apply String.eqb_neq in Hne. now rewrite Hne.
Qed.

Lemma groupOf_app time a b : groupOf time (a ++ b) = groupOf time a ++ groupOf time b.
Proof. unfold groupOf. now rewrite List.filter_app, List.map_app. Qed.

Lemma In_groupOf medication time slots :
  In medication (groupOf time slots) <-> In (medication, time) slots.
Proof.
  unfold groupOf. rewrite in_map_iff. split.
  - intros ([m t] & <- & Hin). apply filter_In in Hin. cbn in Hin.
    destruct Hin as [Hin E]. apply String.eqb_eq in E. now subst.
  - intros Hin. exists (medication, time). split; trivial.
    apply filter_In. split; trivial. cbn. apply String.eqb_refl.
Qed.

Lemma In_slotsOf medication time ms :
  In (medication, time) (slotsOf ms) <->
  In medication ms /\ In time (times medication).
Proof.
  unfold slotsOf. rewrite in_flat_map. split.
  - intros (m & Hm & Hin). apply in_map_iff in Hin.
    destruct Hin as (t & [= -> ->] & Ht). tauto.
  - intros [Hm Ht]. exists medication. split; trivial.
    apply in_map_iff. now exists time.
Qed.

(** The loops over a store are one pass over its pairs. *)
Lemma forEachTime_addSlots medication ts timeGroups :
  forEachTime medication ts timeGroups =
  addSlots (List.map (pair medication) ts) timeGroups.
Proof.
  revert timeGroups. induction ts as [|t rest IH]; intros tg; cbn; trivial.
  destruct (addToGroup medication t tg); trivial.
Qed.

Lemma addSlots_app a b timeGroups :
  addSlots (a ++ b) timeGroups =
  match addSlots a timeGroups with
  | Some timeGroups' => addSlots b timeGroups'
  | None => None
  end.
Proof.
  revert timeGroups. induction a as [|[m t] rest IH]; intros tg; cbn; trivial.
  destruct (addToGroup m t tg); trivial.
Qed.

Lemma forEachMedication_addSlots ms timeGroups :
  forEachMedication ms timeGroups = addSlots (slotsOf ms) timeGroups.
Proof.
  revert timeGroups. induction ms as [|m rest IH]; intros tg; cbn; trivial.
  rewrite addSlots_app, forEachTime_addSlots.
  destruct (addSlots (List.map (pair m) (times m)) tg); trivial.
Qed.

(** One pass over pairs none of whose times is inherited: it returns, each
    group grows by the medications of its time, in order, and keys stay
    distinct. *)
Lemma addSlots_spec slots : forall timeGroups,
  (forall s, In s slots -> inherited (snd s) = false) ->
  exists timeGroups',
    addSlots slots timeGroups = Some timeGroups'
    /\ (forall time,
          getOwn time timeGroups' =
          match getOwn time timeGroups with
          | Some group => Some (group ++ groupOf time slots)
          | None =>
              match groupOf time slots with
              | [] => None
              | group => Some group
              end
          end)
    /\ (List.NoDup (List.map fst timeGroups) ->
        List.NoDup (List.map fst timeGroups')).
Proof.
  induction slots as [|[m t0] rest IH]; intros tg Hinh.
  - exists tg. cbn. split; trivial. split; trivial.
    intros time. destruct (getOwn time tg); trivial. now rewrite List.app_nil_r.
  - assert (Ht0 : inherited t0 = false) by (apply (Hinh (m, t0)); now left).
    assert (Hrest : forall s, In s rest -> inherited (snd s) = false)
      by (intros s Hs; apply Hinh; now right).
    cbn [addSlots]. unfold addToGroup. rewrite Ht0.
    destruct (getOwn t0 tg) as [g|] eqn:E.
    + destruct (IH (setOwn t0 (g ++ [m]) tg) Hrest) as (tg' & Hrun & Hget & Hnd).
      exists tg'. split; trivial. split.
      * intros time. rewrite Hget.
        destruct (String.eqb_spec t0 time) as [<-|Hne].
        -- rewrite getOwn_setOwn_eq, E, groupOf_cons_eq, <- List.app_assoc.
           reflexivity.
        -- rewrite getOwn_setOwn_ne, groupOf_cons_ne by trivial. reflexivity.
      * intros H. apply Hnd. now apply NoDup_keys_setOwn.
    + destruct (IH (setOwn t0 [m] tg) Hrest) as (tg' & Hrun & Hget & Hnd).
      exists tg'. split; trivial. split.
      * intros time. rewrite Hget.
        destruct (String.eqb_spec t0 time) as [<-|Hne].
        -- rewrite getOwn_setOwn_eq, E, groupOf_cons_eq. reflexivity.
        -- rewrite getOwn_setOwn_ne, groupOf_cons_ne by trivial. reflexivity.
      * intros H. apply Hnd. now apply NoDup_keys_setOwn.
Qed.

(** An inherited time anywhere in the pass makes it throw. *)
Lemma addSlots_inherited slots : forall timeGroups,
  (forall key, inherited key = true -> getOwn key timeGroups = None) ->
  (exists s, In s slots /\ inherited (snd s) = true) ->
  addSlots slots timeGroups = None.
Proof.
  induction slots as [|[m t0] rest IH]; intros tg Hown ([m' t'] & Hin & Hbad).
  - destruct Hin.
  - cbn [addSlots]. unfold addToGroup.
    destruct (inherited t0) eqn:Ht0.
    + now rewrite (Hown _ Ht0).
    + destruct Hin as [[= -> ->]|Hin]; [cbn [snd] in Hbad; congruence|].
      assert (Hex : exists s, In s rest /\ inherited (snd s) = true)
        by (exists (m', t'); tauto).
      destruct (getOwn t0 tg) as [g|] eqn:E; apply IH; trivial;
        intros key Hk; (rewrite getOwn_setOwn_ne; [now apply Hown | congruence]).
Qed.

(** [groupMedicationsByTime] on a store without inherited times: it returns
    an object with one key per time in use, holding the medications that
    list this time, once per listing, in store order. *)
Lemma groupMedicationsByTime_spec app :
  noInheritedTime (medications app) ->
  exists timeGroups,
    groupMedicationsByTime app = Some timeGroups
    /\ List.NoDup (List.map fst timeGroups)
    /\ (forall time, groupAt time timeGroups = groupOf time (slotsOf (medications app)))
    /\ (forall time, getOwn time timeGroups = None <->
                     groupOf time (slotsOf (medications app)) = []).
Proof.
  intros Hinh. unfold groupMedicationsByTime. rewrite forEachMedication_addSlots.
  destruct (addSlots_spec (slotsOf (medications app)) []) as (tg & Hrun & Hget & Hnd).
  - intros [m t] Hin. apply In_slotsOf in Hin. cbn. now apply (Hinh m t).
  - exists tg. split; trivial. split; [apply Hnd; constructor|].
    split; intros time; [unfold groupAt|]; rewrite Hget; cbn;
      destruct (groupOf time (slotsOf (medications app))); easy.
Qed.

Lemma groupMedicationsByTime_throws app :
  (exists medication time,
     In medication (medications app) /\ In time (times medication)
     /\ inherited time = true) ->
  groupMedicationsByTime app = None.
Proof.
  intros (m & t & Hm & Ht & Hbad).
  unfold groupMedicationsByTime. rewrite forEachMedication_addSlots.
  apply addSlots_inherited; [reflexivity|].
  exists (m, t). split; trivial. now apply In_slotsOf.
Qed.

Lemma plainTimes_noInheritedTime ms :
  plainTimes ms = true -> noInheritedTime ms.
Proof.
  unfold plainTimes, noInheritedTime. rewrite forallb_forall.
  intros H m t Hm Ht. specialize (H m Hm). rewrite forallb_forall in H.
  specialize (H t Ht). now apply negb_true_iff in H.
Qed.

Lemma wellFormedTime_plain time :
  wellFormedTime time = true -> inherited time = false.
Proof.
  intros Hwf. destruct (inherited time) eqn:E; trivial.
  unfold inherited in E. apply existsb_exists in E.
  destruct E as (k & Hk & Heq). apply String.eqb_eq in Heq. subst k.
  cbn in Hk. repeat (destruct Hk as [<-|Hk]; [discriminate Hwf|]). destruct Hk.
Qed.

Lemma wellFormedTimes_spec ms :
  wellFormedTimes ms = true <->
  (forall medication time,
     In medication ms -> In time (times medication) -> wellFormedTime time = true).
Proof.
  unfold wellFormedTimes. rewrite forallb_forall. split.
  - intros H m t Hm Ht. specialize (H m Hm). rewrite forallb_forall in H. auto.
  - intros H m Hm. apply forallb_forall. intros t Ht. now apply (H m).
Qed.

Lemma wellFormedTimes_noInheritedTime ms :
  wellFormedTimes ms = true -> noInheritedTime ms.
Proof.
  rewrite wellFormedTimes_spec. intros H m t Hm Ht.
  apply wellFormedTime_plain. now apply (H m).
Qed.

Lemma holds_In medication group :
  holds medication group = true <-> In medication group.
Proof.
  unfold holds. rewrite existsb_exists. split.
  - intros (m & Hin & Heq). apply bool_decide_eq_true in Heq. now subst.
  - intros Hin. exists medication. split; trivial. now apply bool_decide_eq_true.
Qed.

(** The medication store of the refuting scenario of C3. *)
Lemma paused_is_grouped :
  exists timeGroups,
    groupMedicationsByTime twoMedications = Some timeGroups
    /\ In paused (groupAt "08:00" timeGroups)
    /\ isActive paused = false.
Proof.
  eexists. split; [reflexivity|]. split; [|reflexivity].
  cbn. right. now left.
Qed.

(** C3, refuted as stated: a store holds a medication whose [isActive] is
    false, and [groupMedicationsByTime] puts it in the group of its time. *)
Lemma inactive_medication_is_grouped :
  ~ (forall app timeGroups medication time,
       groupMedicationsByTime app = Some timeGroups ->
       In medication (groupAt time timeGroups) ->
       isActive medication = true).
Proof.
  intros H. destruct paused_is_grouped as (tg & Hrun & Hin & Hflag).
  specialize (H _ _ _ _ Hrun Hin). congruence.
Qed.

(** C3, amended: on a store without inherited times the grouping returns,
    and a medication is in the group of a time exactly when it is in the
    store and lists this time; its [isActive] flag plays no part. *)
Theorem groupMedicationsByTime_all_medications (app : App) :
  plainTimes (medications app) = true ->
  exists timeGroups,
    groupMedicationsByTime app = Some timeGroups
    /\ forall medication time,
         In medication (groupAt time timeGroups) <->
         In medication (medications app) /\ In time (times medication).
Proof.
  intros Hplain. apply plainTimes_noInheritedTime in Hplain.
  destruct (groupMedicationsByTime_spec app Hplain) as (tg & Hrun & _ & Hgroup & _).
  exists tg. split; trivial. intros m t.
  now rewrite Hgroup, In_groupOf, In_slotsOf.
Qed.

Lemma groupMedicationsByTime_all_medications_witness :
  plainTimes (medications twoMedications) = true
  /\ exists timeGroups,
       groupMedicationsByTime twoMedications
       = Some timeGroups
       /\ forall medication time,
            In medication (groupAt time timeGroups) <->
            In medication (medications twoMedications)
            /\ In time (times medication).
Proof.
  split; [reflexivity|].
  apply (groupMedicationsByTime_all_medications
           twoMedications).
  reflexivity.
Defined.

(** ** Sorting *)

Section SortBy.
Context {A : Type}.

Lemma insertBy_perm (cmp : A -> A -> comparison) x l :
  Permutation (insertBy cmp x l) (x :: l).
Proof.
  induction l as [|y rest IH]; cbn; [reflexivity|].
  destruct (cmp x y); try reflexivity.
  rewrite IH. apply perm_swap.
Qed.

Lemma sortBy_perm (cmp : A -> A -> comparison) l :
  Permutation (sortBy cmp l) l.
Proof.
  induction l as [|x rest IH]; cbn; [reflexivity|].
  rewrite insertBy_perm. now constructor.
Qed.

Lemma insertBy_ext (cmp cmp' : A -> A -> comparison) x l :
  (forall y, In y l -> cmp x y = cmp' x y) ->
  insertBy cmp x l = insertBy cmp' x l.
Proof.
  induction l as [|y rest IH]; intros H; cbn; trivial.
  rewrite <- (H y) by now left.
  destruct (cmp x y); trivial. f_equal. apply IH.
  intros z Hz. apply H. now right.
Qed.

(** Two comparators that agree on the elements of a list sort it alike. *)
Lemma sortBy_ext (cmp cmp' : A -> A -> comparison) l :
  (forall x y, In x l -> In y l -> cmp x y = cmp' x y) ->
  sortBy cmp l = sortBy cmp' l.
Proof.
  induction l as [|x rest IH]; intros H; cbn; trivial.
  rewrite IH by (intros a b Ha Hb; apply H; now right).
  apply insertBy_ext. intros y Hy. apply H; [now left|].
  right. apply (Permutation_in _ (sortBy_perm cmp' rest)) in Hy. exact Hy.
Qed.

Variable cmp : A -> A -> comparison.
Hypothesis cmp_total : forall x y, cmp x y = Gt -> cmp y x <> Gt.
Hypothesis cmp_trans :
  forall x y z, cmp x y <> Gt -> cmp y z <> Gt -> cmp x z <> Gt.

Lemma insertBy_sorted x l :
  StronglySorted (fun a b => cmp a b <> Gt) l ->
  StronglySorted (fun a b => cmp a b <> Gt) (insertBy cmp x l).
Proof.
  induction l as [|y rest IH]; intros Hs; cbn.
  - repeat constructor.
  - inversion Hs as [|? ? Hrest Hall]; subst.
    destruct (cmp x y) eqn:E.
    + constructor; trivial. constructor; [congruence|].
      eapply List.Forall_impl; [|exact Hall]. intros z Hz.
      apply (cmp_trans x y z); congruence.
    + constructor; trivial. constructor; [congruence|].
      eapply List.Forall_impl; [|exact Hall]. intros z Hz.
      apply (cmp_trans x y z); congruence.
    + constructor; [now apply IH|].
      apply (Permutation_Forall (Permutation_sym (insertBy_perm cmp x rest))).
      constructor; trivial. now apply cmp_total.
Qed.

Lemma sortBy_sorted l :
  StronglySorted (fun a b => cmp a b <> Gt) (sortBy cmp l).
Proof.
  induction l as [|x rest IH]; cbn; [constructor|]. now apply insertBy_sorted.
Qed.
End SortBy.

(** The lexicographic comparison of the library is a total order. *)
Lemma compare_as_OT a b : String_as_OT.compare a b = String.compare a b.
Proof.
  reflexivity.
Qed.

Lemma compare_refl a : String.compare a a = Eq.
Proof.
  rewrite <- compare_as_OT.
  destruct (String_as_OT.compare_spec a a) as [_|H|H]; trivial;
    now apply String_as_OT.lt_strorder in H.
Qed.

Lemma compare_not_Gt a b :
  String.compare a b <> Gt <-> a = b \/ String.compare a b = Lt.
Proof.
  split.
  - intros H. destruct (String.compare a b) eqn:E; [|now right|congruence].
    left. now apply String.compare_eq_iff.
  - intros [->|H]; [rewrite compare_refl|rewrite H]; discriminate.
Qed.

Lemma compare_Lt_trans a b c :
  String.compare a b = Lt -> String.compare b c = Lt -> String.compare a c = Lt.
Proof.
  rewrite <- !compare_as_OT. apply String_as_OT.lt_strorder.
Qed.

Lemma compare_total a b : String.compare a b = Gt -> String.compare b a <> Gt.
Proof.
  intros H. rewrite String.compare_antisym, H. discriminate.
Qed.

Lemma compare_trans a b c :
  String.compare a b <> Gt -> String.compare b c <> Gt -> String.compare a c <> Gt.
Proof.
  rewrite !compare_not_Gt. intros [->|H1] [->|H2]; auto.
  right. now apply (compare_Lt_trans a b c).
Qed.

(** Keys that are pairwise distinct and sorted up to equality are strictly
    ascending. *)
Lemma sorted_strict (keys : list string) :
  List.NoDup keys ->
  StronglySorted (fun a b => String.compare a b <> Gt) keys ->
  StronglySorted (fun a b => String.compare a b = Lt) keys.
Proof.
  induction keys as [|k rest IH]; intros Hnd Hs; [constructor|].
  apply List.NoDup_cons_iff in Hnd. destruct Hnd as [Hk Hnd].
  inversion Hs as [|? ? Hrest Hall]; subst. constructor; [now apply IH|].
  apply List.Forall_forall. intros z Hz.
  rewrite List.Forall_forall in Hall.
  specialize (Hall z Hz). apply compare_not_Gt in Hall.
  destruct Hall as [->|Hlt]; [now elim Hk|trivial].
Qed.

Lemma StronglySorted_map {A B : Type} (f : A -> B) (R : B -> B -> Prop) l :
  StronglySorted (fun a b => R (f a) (f b)) l -> StronglySorted R (List.map f l).
Proof.
  induction 1 as [|x rest Hs IH Hall]; cbn; constructor; trivial.
  apply List.Forall_forall. intros y Hy. apply in_map_iff in Hy.
  destruct Hy as (z & <- & Hz). rewrite List.Forall_forall in Hall. auto.
Qed.

Lemma filter_complement_perm {A : Type} (f : A -> bool) l :
  Permutation (List.filter f l ++ List.filter (fun x => negb (f x)) l) l.
Proof.
  induction l as [|x rest IH]; cbn; [reflexivity|].
  destruct (f x); cbn.
  - now constructor.
  - rewrite <- Permutation_middle. now constructor.
Qed.

Lemma Object_entries_perm o : Permutation (Object_entries o) o.
Proof.
  unfold Object_entries. rewrite sortBy_perm. apply filter_complement_perm.
Qed.

(** ** Well-formed times *)

Lemma digit_range c d : digit c = Some d -> (0 <= d <= 9)%Z.
Proof.
  unfold digit.
  destruct ((48 <=? Z.of_N (N_of_ascii c))%Z && (Z.of_N (N_of_ascii c) <=? 57)%Z) eqn:E;
    [|discriminate].
  intros [= <-]. apply andb_true_iff in E. lia.
Qed.

Lemma digit_code c d : digit c = Some d -> Z.of_N (N_of_ascii c) = (d + 48)%Z.
Proof.
  unfold digit.
  destruct ((48 <=? Z.of_N (N_of_ascii c))%Z && (Z.of_N (N_of_ascii c) <=? 57)%Z);
    [|discriminate].
  intros [= <-]. lia.
Qed.

Lemma digit_not_colon c d : digit c = Some d -> (c =? ":")%char = false.
Proof.
  intros H. destruct (Ascii.eqb_spec c ":") as [->|]; trivial. discriminate H.
Qed.

(** Digit characters compare as the digits they show. *)
Lemma compare_digits c c' d d' :
  digit c = Some d -> digit c' = Some d' -> Ascii.compare c c' = (d ?= d')%Z.
Proof.
  intros H H'. unfold Ascii.compare.
  rewrite <- N2Z.inj_compare, (digit_code _ _ H), (digit_code _ _ H').
  rewrite (Z.add_comm d), (Z.add_comm d'). apply Z.add_compare_mono_l.
Qed.

(** The shape of a well-formed time: two digits, a colon, two digits. *)
Lemma wellFormedTime_inv time :
  wellFormedTime time = true ->
  exists h1 h2 m1 m2 a b c d,
    time = String h1 (String h2 (String ":" (String m1 (String m2 EmptyString))))
    /\ digit h1 = Some a /\ digit h2 = Some b
    /\ digit m1 = Some c /\ digit m2 = Some d
    /\ (10 * a + b < 24)%Z /\ (10 * c + d < 60)%Z
    /\ hoursMinutes time = Some (10 * a + b, 10 * c + d)%Z.
Proof.
  intros Hwf.
  destruct time as [|h1 [|h2 [|x [|m1 [|m2 [|? ?]]]]]]; try discriminate Hwf;
    try (destruct x as [[] [] [] [] [] [] [] []]; discriminate Hwf).
  assert (Hx : x = ":"%char)
    by (destruct x as [[] [] [] [] [] [] [] []]; try discriminate Hwf; reflexivity).
  subst x. cbn [wellFormedTime] in Hwf.
  destruct (digit h1) as [a|] eqn:E1; [|discriminate].
  destruct (digit h2) as [b|] eqn:E2; [|discriminate].
  destruct (digit m1) as [c|] eqn:E3; [|discriminate].
  destruct (digit m2) as [d|] eqn:E4; [|discriminate].
  apply andb_true_iff in Hwf. destruct Hwf as [Hh Hm].
  exists h1, h2, m1, m2, a, b, c, d.
  repeat (split; [trivial; lia|]).
  unfold hoursMinutes. cbn [splitOn].
  rewrite (digit_not_colon _ _ E1), (digit_not_colon _ _ E2),
          (digit_not_colon _ _ E3), (digit_not_colon _ _ E4).
  cbn [Ascii.eqb Bool.eqb]. cbn [Number String.length Nat.leb digits].
  rewrite E1, E2, E3, E4.
  repeat f_equal; lia.
Qed.

(** A well-formed time splits into its two numbers, an hour below 24 and a
    minute below 60. *)
Lemma wellFormedTime_hoursMinutes time :
  wellFormedTime time = true ->
  exists hours minutes,
    hoursMinutes time = Some (hours, minutes)
    /\ (0 <= hours < 24)%Z /\ (0 <= minutes < 60)%Z.
Proof.
  intros Hwf.
  destruct (wellFormedTime_inv time Hwf)
    as (h1 & h2 & m1 & m2 & a & b & c & d & _ & E1 & E2 & E3 & E4 & Hh & Hm & Hhm).
  pose proof (digit_range _ _ E1). pose proof (digit_range _ _ E2).
  pose proof (digit_range _ _ E3). pose proof (digit_range _ _ E4).
  exists (10 * a + b)%Z, (10 * c + d)%Z. split; [exact Hhm | lia].
Qed.

(** On well-formed times the lexicographic order is the order of the
    minutes of the day. *)
Lemma compare_minuteOfDay t t' :
  wellFormedTime t = true -> wellFormedTime t' = true ->
  String.compare t t' = (minuteOfDay t ?= minuteOfDay t')%Z.
Proof.
  intros Hwf Hwf'.
  destruct (wellFormedTime_inv t Hwf)
    as (h1 & h2 & m1 & m2 & a & b & c & d & -> & E1 & E2 & E3 & E4 & _ & Hm & Hhm).
  destruct (wellFormedTime_inv t' Hwf')
    as (h1' & h2' & m1' & m2' & a' & b' & c' & d' & -> & E1' & E2' & E3' & E4' & _ & Hm' & Hhm').
  unfold minuteOfDay. rewrite Hhm, Hhm'. cbn [String.compare].
  rewrite (compare_digits _ _ _ _ E1 E1'), (compare_digits _ _ _ _ E2 E2'),
          (compare_digits _ _ _ _ E3 E3'), (compare_digits _ _ _ _ E4 E4').
  change (Ascii.compare ":" ":") with Eq.
  pose proof (digit_range _ _ E1). pose proof (digit_range _ _ E2).
  pose proof (digit_range _ _ E3). pose proof (digit_range _ _ E4).
  pose proof (digit_range _ _ E1'). pose proof (digit_range _ _ E2').
  pose proof (digit_range _ _ E3'). pose proof (digit_range _ _ E4').
  symmetry.
  destruct (Z.compare_spec a a');
    [destruct (Z.compare_spec b b');
       [destruct (Z.compare_spec c c');
          [destruct (Z.compare_spec d d')|..]|..]|..];
    first [ apply Z.compare_eq_iff | apply Z.compare_lt_iff | apply Z.compare_gt_iff ];
    lia.
Qed.

Lemma StronglySorted_weaken {A : Type} (R R' : A -> A -> Prop) l :
  (forall a b, In a l -> In b l -> R a b -> R' a b) ->
  StronglySorted R l -> StronglySorted R' l.
Proof.
  intros Himp Hs. induction Hs as [|x rest Hs IH Hall]; constructor.
  - apply IH. intros a b Ha Hb. apply Himp; now right.
  - rewrite List.Forall_forall in *. intros y Hy.
    apply Himp; [now left | now right | now apply Hall].
Qed.

(** ** Today's schedule *)

Lemma block_times clk app entries :
  List.map block_time (List.map (renderBlock clk app) entries) = List.map fst entries.
Proof.
  rewrite List.map_map. apply List.map_ext. now intros [time meds].
Qed.

(** With a store that is not empty and a grouping that returned, the view
    has one block per entry of the sorted [Object.entries]. *)
Lemma renderTodaysSchedule_blocks localeCompare clk app timeGroups :
  medications app <> [] ->
  groupMedicationsByTime app = Some timeGroups ->
  exists view,
    renderTodaysSchedule localeCompare clk app = Some view
    /\ blocksOf view =
       List.map (renderBlock clk app)
         (sortBy (fun a b => localeCompare (fst a) (fst b)) (Object_entries timeGroups)).
Proof.
  intros Hne Hrun. unfold renderTodaysSchedule. rewrite Hrun.
  destruct (medications app) as [|m rest] eqn:E; [congruence|]. cbn [length Nat.eqb].
  destruct (length (Object_keys timeGroups) =? 0)%nat eqn:Hlen.
  - exists NoMedicationsToday. split; trivial.
    apply Nat.eqb_eq in Hlen. unfold Object_keys in Hlen.
    rewrite List.length_map in Hlen.
    destruct (Object_entries timeGroups); [reflexivity | discriminate].
  - eexists. split; reflexivity.
Qed.

Lemma NoDup_keys_filter {V : Type} (f : string * V -> bool) (o : list (string * V)) :
  List.NoDup (List.map fst o) -> List.NoDup (List.map fst (List.filter f o)).
Proof.
  induction o as [|kv rest IH]; cbn; intros Hnd; trivial.
  apply List.NoDup_cons_iff in Hnd. destruct Hnd as [Hk Hnd].
  destruct (f kv); cbn; [|auto].
  constructor; [|auto]. intros Hin. apply Hk.
  apply in_map_iff in Hin. destruct Hin as (x & Hx & Hin).
  apply filter_In in Hin. apply in_map_iff. exists x. tauto.
Qed.

Lemma count_groupOf_one medication m time ts :
  count_occ Medication_eq_dec (groupOf time (List.map (pair m) ts)) medication =
  if decide (m = medication) then count_occ string_dec ts time else 0%nat.
Proof.
  induction ts as [|t rest IH]; cbn [List.map count_occ].
  - now destruct (decide (m = medication)).
  - destruct (String.eqb_spec t time) as [->|Hne].
    + rewrite groupOf_cons_eq. cbn [count_occ]. rewrite IH.
      destruct (Medication_eq_dec m medication) as [Heq|Hneq];
        destruct (decide (m = medication)); try contradiction;
        destruct (string_dec time time); congruence.
    + rewrite groupOf_cons_ne, IH by trivial.
      destruct (decide (m = medication)); trivial.
      destruct (string_dec t time); congruence.
Qed.

(** How often a group holds a medication: once for each copy of the
    medication in the store and each listing of the time. *)
Lemma count_groupOf medication time ms :
  count_occ Medication_eq_dec (groupOf time (slotsOf ms)) medication =
  (count_occ Medication_eq_dec ms medication * count_occ string_dec (times medication) time)%nat.
Proof.
  induction ms as [|m rest IH]; cbn [slotsOf flat_map]; trivial.
  fold (slotsOf rest). rewrite groupOf_app, count_occ_app, IH, count_groupOf_one.
  cbn [count_occ].
  destruct (Medication_eq_dec m medication) as [->|Hne];
    destruct (decide (_ = medication)); try contradiction; lia.
Qed.

(** C7. In a store of well-formed times and distinct ids, a medication with
    distinct dose times is held by exactly as many groups as it has times,
    the keys of these groups are its times, each of them holds it once, and
    the schedule view lists all groups by strictly ascending key in the
    lexicographic order, which is the order of the time of day, whenever
    the host's [localeCompare] orders well-formed times
    lexicographically. *)
Theorem dueToday_groups_in_order
    (localeCompare : string -> string -> comparison)
    (clk : Clock) (app : App) (medication : Medication) :
  (forall a b, wellFormedTime a = true -> wellFormedTime b = true ->
               localeCompare a b = String.compare a b) ->
  wellFormedTimes (medications app) = true ->
  List.NoDup (List.map med_id (medications app)) ->
  In medication (medications app) ->
  List.NoDup (times medication) ->
  exists timeGroups view,
    groupMedicationsByTime app = Some timeGroups
    /\ List.NoDup (List.map fst timeGroups)
    /\ length (List.filter (fun kv => holds medication (snd kv)) timeGroups)
       = length (times medication)
    /\ Permutation
         (List.map fst (List.filter (fun kv => holds medication (snd kv)) timeGroups))
         (times medication)
    /\ (forall time, In time (times medication) ->
          count_occ Medication_eq_dec (groupAt time timeGroups) medication = 1%nat)
    /\ renderTodaysSchedule localeCompare clk app = Some view
    /\ Permutation (List.map block_time (blocksOf view)) (List.map fst timeGroups)
    /\ StronglySorted (fun a b => String.compare a b = Lt)
         (List.map block_time (blocksOf view))
    /\ StronglySorted (fun a b => (minuteOfDay a < minuteOfDay b)%Z)
         (List.map block_time (blocksOf view))
    /\ (forall block, In block (blocksOf view) ->
          List.map item_medication (items block) = groupAt (block_time block) timeGroups).
Proof.
  intros Hcmp Hwf Hids Hin Htimes.
  pose proof (wellFormedTimes_noInheritedTime _ Hwf) as Hplain.
  destruct (groupMedicationsByTime_spec app Hplain) as (tg & Hrun & Hnd & Hgroup & Hnone).
  assert (Hne : medications app <> []) by (intros E; rewrite E in Hin; destruct Hin).
  destruct (renderTodaysSchedule_blocks localeCompare clk app tg Hne Hrun)
    as (view & Hview & Hblocks).
  assert (Hheld : forall key, In key (List.map fst
                    (List.filter (fun kv => holds medication (snd kv)) tg))
                  <-> In key (times medication)).
  { intros key. rewrite in_map_iff. split.
    - intros ([k g] & <- & Hf). apply filter_In in Hf. cbn in Hf.
      destruct Hf as [Hkg Hh]. apply holds_In in Hh.
      apply (In_getOwn _ _ _ Hnd) in Hkg.
      assert (Hg : groupAt k tg = g) by (unfold groupAt; now rewrite Hkg).
      rewrite Hgroup in Hg. rewrite <- Hg in Hh.
      apply In_groupOf, In_slotsOf in Hh. tauto.
    - intros Hk.
      assert (Hm : In medication (groupAt key tg))
        by (rewrite Hgroup; apply In_groupOf, In_slotsOf; tauto).
      unfold groupAt in Hm. destruct (getOwn key tg) as [g|] eqn:E; [|destruct Hm].
      exists (key, g). split; trivial. apply filter_In. split.
      + now apply getOwn_In.
      + now apply holds_In. }
  assert (Hperm : Permutation
            (List.map fst (List.filter (fun kv => holds medication (snd kv)) tg))
            (times medication)).
  { apply Permutation.NoDup_Permutation; trivial. now apply NoDup_keys_filter. }
  assert (Hkeys : forall kv, In kv (Object_entries tg) -> wellFormedTime (fst kv) = true).
  { intros [k g] Hkv. apply (Permutation_in _ (Object_entries_perm tg)) in Hkv.
    apply (In_getOwn _ _ _ Hnd) in Hkv. cbn.
    destruct (groupOf k (slotsOf (medications app))) as [|m rest] eqn:E.
    - apply Hnone in E. congruence.
    - assert (Hm : In m (groupOf k (slotsOf (medications app))))
        by (rewrite E; now left).
      apply In_groupOf, In_slotsOf in Hm.
      apply (proj1 (wellFormedTimes_spec _) Hwf m k); tauto. }
  assert (Hbperm : Permutation (List.map block_time (blocksOf view)) (List.map fst tg)).
  { rewrite Hblocks, block_times.
    rewrite (sortBy_perm _ (Object_entries tg)).
    apply Permutation_map, Object_entries_perm. }
  assert (Hsorted : StronglySorted (fun a b => String.compare a b = Lt)
                      (List.map block_time (blocksOf view))).
  { rewrite Hblocks, block_times.
    rewrite (sortBy_ext _ (fun a b => String.compare (fst a) (fst b)))
      by (intros x y Hx Hy; apply Hcmp; now apply Hkeys).
    apply sorted_strict.
    - apply (Permutation.Permutation_NoDup (l := List.map fst tg)); trivial.
      apply Permutation_sym, Permutation_map.
      rewrite sortBy_perm. apply Object_entries_perm.
    - apply StronglySorted_map with (R := fun a b => String.compare a b <> Gt).
      apply sortBy_sorted.
      + intros x y. apply compare_total.
      + intros x y z. apply compare_trans. }
  assert (Hbwf : forall key, In key (List.map block_time (blocksOf view)) ->
                             wellFormedTime key = true).
  { intros key Hkey. apply (Permutation_in _ Hbperm) in Hkey.
    apply in_map_iff in Hkey. destruct Hkey as (kv & <- & Hkv).
    apply Hkeys. apply (Permutation_in _ (Permutation_sym (Object_entries_perm tg))).
    exact Hkv. }
  exists tg, view. repeat split; trivial.
  - rewrite <- (List.length_map fst). now apply Permutation_length.
  - intros time Ht. rewrite Hgroup, count_groupOf.
    assert (Hms : List.NoDup (medications app)) by now apply List.NoDup_map_inv in Hids.
    rewrite (proj1 (List.NoDup_count_occ' Medication_eq_dec _) Hms medication Hin).
    rewrite (proj1 (List.NoDup_count_occ' string_dec _) Htimes time Ht). reflexivity.
  - apply (StronglySorted_weaken (fun a b => String.compare a b = Lt)); trivial.
    intros a b Ha Hb Hlt.
    rewrite (compare_minuteOfDay a b) in Hlt by now apply Hbwf.
    now apply Z.compare_lt_iff.
  - intros block Hb. rewrite Hblocks in Hb. apply in_map_iff in Hb.
    destruct Hb as ([k g] & <- & Hkg).
    apply (Permutation_in _ (sortBy_perm _ _)) in Hkg.
    apply (Permutation_in _ (Object_entries_perm tg)) in Hkg.
    apply (In_getOwn _ _ _ Hnd) in Hkg. cbn. rewrite List.map_map. cbn.
    unfold groupAt. rewrite Hkg. apply List.map_id.
Qed.

Lemma dueToday_groups_in_order_witness :
  (forall a b, wellFormedTime a = true -> wellFormedTime b = true ->
               String.compare a b = String.compare a b)
  /\ wellFormedTimes (medications twoMedications) = true
  /\ List.NoDup (List.map med_id (medications twoMedications))
  /\ In aspirin (medications twoMedications)
  /\ List.NoDup (times aspirin)
  /\ exists timeGroups view,
       groupMedicationsByTime twoMedications = Some timeGroups
       /\ List.NoDup (List.map fst timeGroups)
       /\ length (List.filter (fun kv => holds aspirin (snd kv)) timeGroups)
          = length (times aspirin)
       /\ Permutation
            (List.map fst (List.filter (fun kv => holds aspirin (snd kv)) timeGroups))
            (times aspirin)
       /\ (forall time, In time (times aspirin) ->
             count_occ Medication_eq_dec (groupAt time timeGroups) aspirin = 1%nat)
       /\ renderTodaysSchedule String.compare nine twoMedications = Some view
       /\ Permutation (List.map block_time (blocksOf view)) (List.map fst timeGroups)
       /\ StronglySorted (fun a b => String.compare a b = Lt)
            (List.map block_time (blocksOf view))
       /\ StronglySorted (fun a b => (minuteOfDay a < minuteOfDay b)%Z)
            (List.map block_time (blocksOf view))
       /\ (forall block, In block (blocksOf view) ->
             List.map item_medication (items block)
             = groupAt (block_time block) timeGroups).
Proof.
  assert (Hids : List.NoDup (List.map med_id (medications twoMedications))).
  { cbn. repeat constructor; cbn; intuition discriminate. }
  assert (Htimes : List.NoDup (times aspirin)).
  { cbn. repeat constructor; cbn; intuition discriminate. }
  split; [reflexivity|]. split; [reflexivity|]. split; [exact Hids|].
  split; [now left|]. split; [exact Htimes|].
  apply (dueToday_groups_in_order String.compare nine twoMedications aspirin).
  - reflexivity.
  - reflexivity.
  - exact Hids.
  - now left.
  - exact Htimes.
Defined.

(** ** Resolve all *)

Lemma find_known medId (ms : list Medication) :
  (exists m, In m ms /\ med_id m = medId) ->
  exists m, List.find (fun med => (med_id med =? medId)%string) ms = Some m.
Proof.
  intros (m & Hin & Hid).
  destruct (List.find (fun med => (med_id med =? medId)%string) ms) as [m'|] eqn:E.
  - now exists m'.
  - apply (find_none _ _ E) in Hin. apply String.eqb_neq in Hin. contradiction.
Qed.

(** Marking a known medication appends one taken entry for the slot and
    leaves the store alone. *)
Lemma markMedicationTaken_known clk medId time app :
  (exists m, In m (medications app) /\ med_id m = medId) ->
  exists entry,
    history (markMedicationTaken clk medId time app) = history app ++ [entry]
    /\ medications (markMedicationTaken clk medId time app) = medications app
    /\ takenEntry medId time (now_date clk) entry = true.
Proof.
  intros Hk. apply find_known in Hk. destruct Hk as (m & Hfind).
  unfold markMedicationTaken, recordMedicationAction. rewrite Hfind.
  eexists. split; [reflexivity|]. split; [reflexivity|].
  apply takenEntry_true. cbn. tauto.
Qed.

Lemma taken_after_append clk medId time app app' added :
  history app' = history app ++ added ->
  isMedicationTakenToday clk medId time app = true ->
  isMedicationTakenToday clk medId time app' = true.
Proof.
  unfold isMedicationTakenToday. intros -> H. rewrite existsb_app, H. reflexivity.
Qed.

(** The loop of [resolveAllForTime] over medications of the store. *)
Lemma forEachResolve_spec clk time ms : forall app,
  (forall m, In m ms -> In m (medications app)) ->
  exists added,
    history (forEachResolve clk time ms app) = history app ++ added
    /\ medications (forEachResolve clk time ms app) = medications app
    /\ (forall m, In m ms ->
          isMedicationTakenToday clk (med_id m) time (forEachResolve clk time ms app) = true)
    /\ (forall entry, In entry added ->
          action entry = "taken" /\ scheduledTime entry = time
          /\ date entry = now_date clk
          /\ isMedicationTakenToday clk (medicationId entry) time app = false).
Proof.
  induction ms as [|m rest IH]; intros app Hsub; cbn [forEachResolve].
  - exists []. rewrite List.app_nil_r.
    split; trivial. split; trivial. split; intros ? [].
  - set (app1 := if negb (isMedicationTakenToday clk (med_id m) time app)
                 then markMedicationTaken clk (med_id m) time app else app).
    assert (H1 : exists a1,
               history app1 = history app ++ a1
               /\ medications app1 = medications app
               /\ isMedicationTakenToday clk (med_id m) time app1 = true
               /\ (forall entry, In entry a1 ->
                     takenEntry (med_id m) time (now_date clk) entry = true
                     /\ isMedicationTakenToday clk (med_id m) time app = false)).
    { subst app1. destruct (isMedicationTakenToday clk (med_id m) time app) eqn:Et; cbn [negb].
      - exists []. rewrite List.app_nil_r.
        split; trivial. split; trivial. split; trivial. intros ? [].
      - destruct (markMedicationTaken_known clk (med_id m) time app)
          as (entry & Hh & Hm & He).
        { exists m. split; trivial. apply Hsub. now left. }
        exists [entry]. split; trivial. split; trivial. split.
        + unfold isMedicationTakenToday. rewrite Hh, existsb_app. cbn.
          rewrite He. apply orb_true_r.
        + intros e [<-|[]]. now split. }
    destruct H1 as (a1 & Hh1 & Hm1 & Ht1 & Ha1).
    destruct (IH app1) as (added & Hh & Hm & Ht & Ha).
    { intros x Hx. rewrite Hm1. apply Hsub. now right. }
    exists (a1 ++ added). split; [now rewrite Hh, Hh1, List.app_assoc|].
    split; [congruence|]. split.
    + intros x [<-|Hx]; [|now apply Ht].
      now apply (taken_after_append clk _ time app1 _ added).
    + intros entry Hin. apply in_app_or in Hin. destruct Hin as [Hin|Hin].
      * destruct (Ha1 entry Hin) as [He Hnot].
        apply takenEntry_true in He. destruct He as (Hid & Hs & Hd & Hact).
        rewrite Hid. tauto.
      * destruct (Ha entry Hin) as (Hact & Hs & Hd & Hnot).
        repeat split; trivial.
        destruct (isMedicationTakenToday clk (medicationId entry) time app) eqn:E; trivial.
        rewrite (taken_after_append clk _ time app app1 a1 Hh1 E) in Hnot.
        discriminate.
Qed.

(** C9. On a store without inherited times and for a time that is not
    inherited, [resolveAllForTime] returns; afterwards every medication of
    the time's group reads taken, the log is the old log followed by new
    taken entries of this time and today, and no new entry belongs to a
    medication that read taken before the call. *)
Theorem resolveAllForTime_resolves (clk : Clock) (time : string) (app : App) :
  plainTimes (medications app) = true ->
  inherited time = false ->
  exists timeGroups app' added,
    groupMedicationsByTime app = Some timeGroups
    /\ resolveAllForTime clk time app = Some app'
    /\ medications app' = medications app
    /\ (forall m, In m (groupAt time timeGroups) ->
          isMedicationTakenToday clk (med_id m) time app' = true)
    /\ history app' = history app ++ added
    /\ (forall entry, In entry added ->
          action entry = "taken" /\ scheduledTime entry = time
          /\ date entry = now_date clk)
    /\ (forall m entry,
          isMedicationTakenToday clk (med_id m) time app = true ->
          In entry added -> medicationId entry <> med_id m).
Proof.
  intros Hplain Htime. apply plainTimes_noInheritedTime in Hplain.
  destruct (groupMedicationsByTime_spec app Hplain) as (tg & Hrun & _ & Hgroup & _).
  destruct (forEachResolve_spec clk time (groupAt time tg) app)
    as (added & Hh & Hm & Ht & Ha).
  { intros m Hin. rewrite Hgroup in Hin. apply In_groupOf, In_slotsOf in Hin. tauto. }
  exists tg, (forEachResolve clk time (groupAt time tg) app), added.
  split; trivial. split.
  { unfold resolveAllForTime, groupAt. rewrite Hrun, Htime.
    now destruct (getOwn time tg). }
  split; trivial. split; trivial. split; trivial. split.
  - intros entry Hin. destruct (Ha entry Hin). tauto.
  - intros m entry Hbefore Hin Hid. destruct (Ha entry Hin) as (_ & _ & _ & Hnot).
    congruence.
Qed.

Lemma resolveAllForTime_resolves_witness :
  plainTimes (medications oneTaken) = true
  /\ inherited "08:00" = false
  /\ exists timeGroups app' added,
       groupMedicationsByTime oneTaken = Some timeGroups
       /\ resolveAllForTime nine "08:00" oneTaken = Some app'
       /\ medications app' = medications oneTaken
       /\ (forall m, In m (groupAt "08:00" timeGroups) ->
             isMedicationTakenToday nine (med_id m) "08:00" app' = true)
       /\ history app' = history oneTaken ++ added
       /\ (forall entry, In entry added ->
             action entry = "taken" /\ scheduledTime entry = "08:00"
             /\ date entry = now_date nine)
       /\ (forall m entry,
             isMedicationTakenToday nine (med_id m) "08:00" oneTaken = true ->
             In entry added -> medicationId entry <> med_id m).
Proof.
  split; [reflexivity|]. split; [reflexivity|].
  apply (resolveAllForTime_resolves nine "08:00" oneTaken); reflexivity.
Defined.

(** At 09:00 with aspirin already taken, resolving 08:00 adds one entry, for
    the other medication of the group. *)
Example resolveAllForTime_oneTaken :
  option_map (fun app => List.map medicationId (history app))
    (resolveAllForTime nine "08:00" oneTaken)
  = Some [med_id aspirin; med_id paused].
Proof. reflexivity. Qed.

(** ** Notification scheduler *)

Lemma Day_TimeWithinDay t :
  t = (Day t * msPerDay + TimeWithinDay t)%Z /\ (0 <= TimeWithinDay t < msPerDay)%Z.
Proof.
  unfold Day, TimeWithinDay. split.
  - rewrite Z.mul_comm. apply Z.div_mod. discriminate.
  - apply Z.mod_pos_bound. reflexivity.
Qed.

Lemma Day_of_sum d r :
  (0 <= r < msPerDay)%Z ->
  Day (d * msPerDay + r) = d /\ TimeWithinDay (d * msPerDay + r) = r.
Proof.
  intros Hr. unfold Day, TimeWithinDay. split.
  - rewrite Z.add_comm, Z.div_add by discriminate.
    rewrite Z.div_small by exact Hr. reflexivity.
  - rewrite Z.add_comm, Z.mod_add by discriminate.
    apply Z.mod_small. exact Hr.
Qed.

(** The numbers that the source parses out of a well-formed time are the
    ones its digits name. *)
Lemma wellFormedTime_wallClock time :
  wellFormedTime time = true ->
  exists hours minutes,
    hoursMinutes time = Some (hours, minutes)
    /\ (0 <= hours < 24)%Z /\ (0 <= minutes < 60)%Z
    /\ wallClock time = (hours * msPerHour + minutes * msPerMinute)%Z.
Proof.
  intros Hwf.
  destruct (wellFormedTime_inv time Hwf)
    as (h1 & h2 & m1 & m2 & a & b & c & d & -> & E1 & E2 & E3 & E4 & Hh & Hm & Hhm).
  exists (10 * a + b)%Z, (10 * c + d)%Z.
  pose proof (digit_range _ _ E1). pose proof (digit_range _ _ E2).
  pose proof (digit_range _ _ E3). pose proof (digit_range _ _ E4).
  split; [exact Hhm|]. split; [lia|]. split; [lia|].
  cbn [wallClock]. unfold digitValue.
  rewrite (digit_code _ _ E1), (digit_code _ _ E2),
          (digit_code _ _ E3), (digit_code _ _ E4).
  unfold msPerHour, msPerMinute. lia.
Qed.

Lemma wallClock_range time :
  wellFormedTime time = true ->
  (0 <= wallClock time < msPerDay)%Z /\ (wallClock time mod msPerMinute = 0)%Z.
Proof.
  intros Hwf.
  destruct (wellFormedTime_wallClock time Hwf) as (h & m & _ & Hh & Hm & ->).
  split; [unfold msPerDay, msPerHour, msPerMinute; lia|].
  replace (h * msPerHour + m * msPerMinute)%Z with ((h * 60 + m) * msPerMinute)%Z
    by (unfold msPerHour, msPerMinute; lia).
  apply Z.mod_mul. discriminate.
Qed.

Lemma toLong_small x : (- 2 ^ 31 <= x < 2 ^ 31)%Z -> toLong x = x.
Proof.
  intros H. unfold toLong. rewrite Z.mod_small; lia.
Qed.

Lemma steady_fixedOffset offset from to : steady (fixedOffset offset) offset from to.
Proof. intros t _. cbn. split; lia. Qed.

(** After its change a zone whose clocks went forward keeps the new
    offset. *)
Lemma steady_oneShift before after shift from to :
  (before <= after)%Z -> (shift <= from)%Z ->
  steady (oneShift before after shift) after from to.
Proof.
  intros Hforward Hfrom t Ht. cbn.
  destruct (Z.ltb_spec t shift) as [|_]; [lia|]. split; [reflexivity|].
  destruct (Z.ltb_spec (t + after - before) shift) as [|_]; [lia|].
  destruct (Z.leb_spec shift (t + after - after)) as [_|]; lia.
Qed.

(** The instant the timer is set for where the zone keeps its offset from a
    day before [now] to two days after it: the day of [now] on the local
    clock, or the next one when the time of day has been reached, at the
    time of day that the digits name. *)
Lemma scheduleTarget_steady zone offset now base time :
  wellFormedTime time = true ->
  (now <= base < now + msPerMinute)%Z ->
  steady zone offset (now - msPerDay) (now + 2 * msPerDay) ->
  (Z.abs now <= maxTime - 2 * msPerDay)%Z ->
  scheduleTarget zone now base time =
  Some ((Day (now + offset)
         + (if (wallClock time <=? TimeWithinDay (now + offset))%Z then 1 else 0))
        * msPerDay + wallClock time - offset)%Z.
Proof.
  intros Hwf Hreads Hsteady Hrange.
  destruct (wallClock_range time Hwf) as [Htod Hminute].
  destruct (wellFormedTime_wallClock time Hwf) as (h & m & Hhm & _ & _ & Hw).
  unfold scheduleTarget. rewrite Hhm. f_equal.
  unfold scheduledInstant, setHours.
  assert (Hmake : MakeTime h m 0 0 = wallClock time)
    by (unfold MakeTime; rewrite Hw; lia).
  rewrite Hmake. clear Hmake Hw Hhm h m.
  set (tod := wallClock time) in *.
  destruct (Hsteady base) as [Hbase _];
    [unfold msPerDay, msPerMinute in *; lia|].
  rewrite Hbase.
  destruct (Day_TimeWithinDay (now + offset)) as [Hnow Hr].
  destruct (Day_TimeWithinDay (base + offset)) as [Hb Hr'].
  set (d := Day (now + offset)) in *. set (r := TimeWithinDay (now + offset)) in *.
  set (d' := Day (base + offset)) in *. set (r' := TimeWithinDay (base + offset)) in *.
  assert (Hd : d' = d \/ (d' = d + 1 /\ tod <= r)%Z).
  { apply Z.mod_divide in Hminute; [|discriminate].
    destruct Hminute as (k & Hk).
    unfold msPerDay, msPerMinute in *. lia. }
  set (today := (d' * msPerDay + tod - offset)%Z).
  assert (Htoday : (base - msPerDay < today < base + msPerDay)%Z)
    by (unfold today; lia).
  unfold MakeDate at 1.
  replace (d' * msPerDay + tod)%Z with (today + offset)%Z by (unfold today; lia).
  destruct (Hsteady today) as [Hlocal ->];
    [unfold msPerDay, msPerMinute in *; lia|].
  unfold TimeClip at 1.
  destruct (Z.leb_spec (Z.abs today) maxTime) as [_|Hout];
    [|unfold maxTime, msPerDay, msPerMinute in *; lia].
  destruct (Z.leb_spec today now) as [Hpassed|Hahead].
  - unfold setDate_getDate_plus_1. rewrite Hlocal.
    destruct (Day_of_sum d' tod Htod) as [Hday Hwithin].
    replace (today + offset)%Z with (d' * msPerDay + tod)%Z by (unfold today; lia).
    rewrite Hday, Hwithin. unfold MakeDate.
    replace ((d' + 1) * msPerDay + tod)%Z with (today + msPerDay + offset)%Z
      by (unfold today; lia).
    destruct (Hsteady (today + msPerDay)%Z) as [_ ->];
      [unfold msPerDay, msPerMinute in *; lia|].
    unfold TimeClip.
    destruct (Z.leb_spec (Z.abs (today + msPerDay)) maxTime) as [_|Hout];
      [|unfold maxTime, msPerDay, msPerMinute in *; lia].
    cbn [setTimeout_due].
    rewrite toLong_small by (unfold msPerDay, msPerMinute in *; lia).
    destruct (Z.leb_spec tod r); unfold today, msPerDay, msPerMinute in *; lia.
  - cbn [setTimeout_due].
    rewrite toLong_small by (unfold msPerDay, msPerMinute in *; lia).
    destruct (Z.leb_spec tod r); unfold today, msPerDay, msPerMinute in *; lia.
Qed.

(** C8, at a host in New York on Sunday 8 March 2026, the day the clocks go
    from 02:00 to 03:00. At 10:00 the arm step for the dose time 02:30
    takes the skipped 02:30 of that day for 03:30, finds it passed, and
    moves this 03:30 to the next day: the timer is set for Monday 03:30,
    while the local clock reads 02:30 an hour earlier, at an instant after
    [now] before which it shows no 02:30. The resume handler arms the same
    timer. *)
Theorem arm_step_after_skipped_hour :
  wellFormedTime "02:30" = true
  /\ LocalTime newYork sundayTen = civil 20520 10 0
  /\ LocalTime newYork mondayTwoThirty = civil 20521 2 30
  /\ (sundayTen < mondayTwoThirty)%Z
  /\ localClock newYork mondayTwoThirty = wallClock "02:30"
  /\ (forall t, (sundayTen < t < mondayTwoThirty)%Z ->
        localClock newYork t <> wallClock "02:30")
  /\ scheduleNotificationForTime sundayTen sundayTen nightDose "02:30" newYorkApp
     = Some (set_timers
               [{| timer_medication := nightDose; timer_time := "02:30";
                   due := (mondayTwoThirty + msPerHour)%Z |}]
               newYorkApp)
  /\ LocalTime newYork (mondayTwoThirty + msPerHour) = civil 20521 3 30
  /\ visibilitychange false sundayTen newYorkApp
     = scheduleNotificationForTime sundayTen sundayTen nightDose "02:30" newYorkApp.
Proof.
  split; [reflexivity|]. split; [reflexivity|]. split; [reflexivity|].
  split; [reflexivity|]. split; [reflexivity|]. split.
  - intros t [Hafter Hbefore] Hreads.
    change (localClock newYork t) with (TimeWithinDay (LocalTime newYork t)) in Hreads.
    unfold newYork, oneShift, LocalTime, sundayTen, mondayTwoThirty, civil in *.
    destruct (Z.ltb_spec t (20520 * msPerDay + 7 * msPerHour)) as [Hlt|_];
      [unfold msPerDay, msPerHour, msPerMinute in *; lia|].
    destruct (Day_TimeWithinDay (t + -4 * msPerHour)) as [Hsum _].
    rewrite Hreads in Hsum. change (wallClock "02:30") with 9000000%Z in Hsum.
    unfold msPerDay, msPerHour, msPerMinute in *. lia.
  - split; [reflexivity|]. split; reflexivity.
Qed.

(** The two cases of the specification on a host at UTC: at 09:00, a dose
    time of 08:00 is aimed at 08:00 of the next day and a dose time of
    10:00 at 10:00 of the same day. *)
Example target_of_eight_at_nine :
  scheduleTarget utc (now_ms nine) (now_ms nine) "08:00"
  = Some (clockAt 8 0 + msPerDay)%Z.
Proof. reflexivity. Qed.

Example target_of_ten_at_nine :
  scheduleTarget utc (now_ms nine) (now_ms nine) "10:00" = Some (clockAt 10 0).
Proof. reflexivity. Qed.

Lemma scheduleNotificationForTime_some now base medication time app target :
  scheduleTarget (timeZone app) now base time = Some target ->
  scheduleNotificationForTime now base medication time app =
  Some (set_timers
          (timers app ++
             [{| timer_medication := medication; timer_time := time; due := target |}])
          app).
Proof. unfold scheduleNotificationForTime. now intros ->. Qed.

Lemma wellFormedTime_target zone now time :
  wellFormedTime time = true ->
  exists target, scheduleTarget zone now now time = Some target.
Proof.
  intros Hwf. destruct (wellFormedTime_hoursMinutes time Hwf) as (h & m & Hhm & _).
  unfold scheduleTarget. rewrite Hhm. eauto.
Qed.

Lemma set_timers_same app : set_timers (timers app ++ []) app = app.
Proof. destruct app. unfold set_timers. cbn. now rewrite List.app_nil_r. Qed.

(** Arming every time of one medication appends one timer per time, in
    order, and changes nothing else. *)
Lemma forEachSchedule_spec now medication ts : forall app,
  (forall time, In time ts -> wellFormedTime time = true) ->
  exists new,
    forEachSchedule now medication ts app = Some (set_timers (timers app ++ new) app)
    /\ List.map pairOf new = List.map (pair medication) ts
    /\ (forall t, In t new -> scheduleTarget (timeZone app) now now (timer_time t) = Some (due t)).
Proof.
  induction ts as [|time rest IH]; intros app Hwf; cbn [forEachSchedule].
  - exists []. rewrite set_timers_same. split; trivial. split; trivial. intros ? [].
  - destruct (wellFormedTime_target (timeZone app) now time) as (target & Ht); [apply Hwf; now left|].
    rewrite (scheduleNotificationForTime_some _ _ _ _ _ _ Ht).
    destruct (IH (set_timers
                    (timers app ++
                       [{| timer_medication := medication; timer_time := time;
                           due := target |}]) app))
      as (new & Hrun & Hpairs & Hdue); [intros t Hin; apply Hwf; now right|].
    exists ({| timer_medication := medication; timer_time := time; due := target |} :: new).
    split; [|split].
    + rewrite Hrun. cbn [timers set_timers]. rewrite <- List.app_assoc. reflexivity.
    + cbn. now rewrite Hpairs.
    + intros t [<-|Hin]; [exact Ht|now apply Hdue].
Qed.

(** The resume handler's loop: one more timer for every pair of the store. *)
Lemma forEachReschedule_spec now ms : forall app,
  notificationPermission app = true ->
  (forall m time, In m ms -> In time (times m) -> wellFormedTime time = true) ->
  exists new,
    forEachReschedule now ms app = Some (set_timers (timers app ++ new) app)
    /\ List.map pairOf new = slotsOf ms
    /\ (forall t, In t new -> scheduleTarget (timeZone app) now now (timer_time t) = Some (due t)).
Proof.
  induction ms as [|m rest IH]; intros app Hperm Hwf; cbn [forEachReschedule].
  - exists []. rewrite set_timers_same. split; trivial. split; trivial. intros ? [].
  - unfold scheduleNotifications. rewrite Hperm. cbn [negb].
    destruct (forEachSchedule_spec now m (times m) app) as (new1 & Hrun1 & Hp1 & Hd1);
      [intros t Ht; apply (Hwf m); [now left|trivial]|].
    rewrite Hrun1.
    destruct (IH (set_timers (timers app ++ new1) app)) as (new2 & Hrun2 & Hp2 & Hd2);
      [exact Hperm | intros x t Hx Ht; apply (Hwf x); [now right|trivial] |].
    exists (new1 ++ new2). split; [|split].
    + rewrite Hrun2. cbn [timers set_timers]. rewrite <- List.app_assoc. reflexivity.
    + cbn [slotsOf flat_map]. fold (slotsOf rest).
      now rewrite List.map_app, Hp1, Hp2.
    + intros t Hin. apply in_app_or in Hin. destruct Hin; auto.
Qed.

Lemma filter_pairOf medication time (l : list Timer) :
  length (List.filter (fun t => samePair medication time (pairOf t)) l) =
  length (List.filter (samePair medication time) (List.map pairOf l)).
Proof.
  induction l as [|t rest IH]; cbn [List.filter List.map]; trivial.
  destruct (samePair medication time (pairOf t)); cbn [length]; now rewrite IH.
Qed.

Lemma timersFor_app medication time app old new :
  timers app = old ++ new ->
  length (timersFor medication time app) =
  (length (List.filter (fun t => samePair medication time (pairOf t)) old)
   + length (List.filter (samePair medication time) (List.map pairOf new)))%nat.
Proof.
  intros Ht. unfold timersFor. rewrite Ht.
  change (fun t : Timer =>
            bool_decide (timer_medication t = medication)
            && (timer_time t =? time)%string)
    with (fun t => samePair medication time (pairOf t)).
  now rewrite List.filter_app, List.length_app, (filter_pairOf _ _ new).
Qed.

Example resume_arms_aspirin :
  visibilitychange false (clockAt 7 0) aspirinApp = Some armedApp.
Proof. reflexivity. Qed.

(** Refuting scenario of C4: after two resumes the pair (aspirin, 08:00) has
    two pending timers, and at 08:00 both fire: two reminders for the pair,
    at the same instant. *)
Lemma resume_stacks_timers :
  option_map (fun app => length (timersFor aspirin "08:00" app)) resumedTwice
  = Some 2%nat
  /\ option_map
       (fun app => List.map reminder_at (remindersFor (med_id aspirin) "08:00" app))
       firedTwice
     = Some [clockAt 8 0; clockAt 8 0].
Proof. split; reflexivity. Qed.

(** C4, amended. With notifications permitted and a store of well-formed
    times, the arm step for a pair appends one timer, set for the instant
    that it computes, and keeps every pending timer, so the pair has one
    pending timer more; a resume does so for every pair of the store, as
    often as the store lists it, and shows nothing by itself. *)
Theorem arming_adds_timers (now : Z) (medication : Medication) (time : string)
    (app : App) :
  wellFormedTime time = true ->
  wellFormedTimes (medications app) = true ->
  notificationPermission app = true ->
  (exists target app',
     scheduleTarget (timeZone app) now now time = Some target
     /\ scheduleNotificationForTime now now medication time app = Some app'
     /\ timers app' =
        timers app ++
          [{| timer_medication := medication; timer_time := time; due := target |}]
     /\ length (timersFor medication time app')
        = S (length (timersFor medication time app)))
  /\
  (exists new app',
     visibilitychange false now app = Some app'
     /\ timers app' = timers app ++ new
     /\ List.map pairOf new = slotsOf (medications app)
     /\ (forall t, In t new -> scheduleTarget (timeZone app) now now (timer_time t) = Some (due t))
     /\ length (timersFor medication time app')
        = (length (timersFor medication time app)
           + slotCount medication time (medications app))%nat
     /\ shown app' = shown app).
Proof.
  intros Htime Hwf Hperm. split.
  - destruct (wellFormedTime_target (timeZone app) now time Htime) as (target & Ht).
    exists target. eexists. split; trivial.
    split; [apply (scheduleNotificationForTime_some _ _ _ _ _ _ Ht)|].
    split; [reflexivity|].
    rewrite (timersFor_app medication time _ (timers app)
               [{| timer_medication := medication; timer_time := time; due := target |}])
      by reflexivity.
    cbn [List.map List.filter pairOf timer_medication timer_time].
    unfold samePair at 2. cbn [fst snd].
    rewrite bool_decide_eq_true_2, String.eqb_refl by reflexivity.
    cbn [andb length]. rewrite Nat.add_1_r. reflexivity.
  - destruct (forEachReschedule_spec now (medications app) app Hperm)
      as (new & Hrun & Hpairs & Hdue);
      [now apply wellFormedTimes_spec|].
    exists new. eexists. unfold visibilitychange. rewrite Hperm. cbn [negb andb].
    split; [exact Hrun|]. split; [reflexivity|]. split; trivial. split; trivial.
    split; [|reflexivity].
    rewrite (timersFor_app medication time _ (timers app) new) by reflexivity.
    rewrite Hpairs. reflexivity.
Qed.

Lemma arming_adds_timers_witness :
  wellFormedTime "08:00" = true
  /\ wellFormedTimes (medications armedApp) = true
  /\ notificationPermission armedApp = true
  /\ (exists target app',
        scheduleTarget (timeZone armedApp) (clockAt 7 30) (clockAt 7 30) "08:00" = Some target
        /\ scheduleNotificationForTime (clockAt 7 30) (clockAt 7 30) aspirin "08:00" armedApp
           = Some app'
        /\ timers app' =
           timers armedApp ++
             [{| timer_medication := aspirin; timer_time := "08:00"; due := target |}]
        /\ length (timersFor aspirin "08:00" app')
           = S (length (timersFor aspirin "08:00" armedApp)))
  /\ (exists new app',
        visibilitychange false (clockAt 7 30) armedApp = Some app'
        /\ timers app' = timers armedApp ++ new
        /\ List.map pairOf new = slotsOf (medications armedApp)
        /\ (forall t, In t new ->
              scheduleTarget (timeZone armedApp) (clockAt 7 30) (clockAt 7 30) (timer_time t) = Some (due t))
        /\ length (timersFor aspirin "08:00" app')
           = (length (timersFor aspirin "08:00" armedApp)
              + slotCount aspirin "08:00" (medications armedApp))%nat
        /\ shown app' = shown armedApp).
Proof.
  split; [reflexivity|]. split; [reflexivity|]. split; [reflexivity|].
  apply (arming_adds_timers (clockAt 7 30) aspirin "08:00" armedApp);
    reflexivity.
Defined.

Lemma timeZone_showMedicationNotification now medication time app :
  timeZone (showMedicationNotification now medication time app) = timeZone app.
Proof.
  unfold showMedicationNotification. now destruct (negb (notificationPermission app)).
Qed.

(** What one firing does, read off the state: the timer leaves the queue,
    the reminder is shown when notifications are permitted, and a timer for
    the same pair joins the queue. The store is neither read nor written. *)
Lemma fire_result i now t app target :
  timers app !! i = Some t ->
  (due t <= now)%Z ->
  scheduleTarget (timeZone app) now now (timer_time t) = Some target ->
  exists app',
    fire i now app = Some app'
    /\ shown app' =
       shown app ++ (if notificationPermission app then [reminderOf now t app] else [])
    /\ timers app' =
       delete i (timers app) ++
         [{| timer_medication := timer_medication t; timer_time := timer_time t;
             due := target |}]
    /\ medications app' = medications app
    /\ forall ms, fire i now (set_medications ms app) = Some (set_medications ms app').
Proof.
  intros Hi Hdue Ht. unfold fire.
  change (timers (set_medications ?ms app)) with (timers app).
  rewrite Hi. apply Z.leb_le in Hdue. rewrite Hdue.
  unfold timerCallback.
  assert (Harm : forall app0, timeZone app0 = timeZone app ->
            scheduleNotificationForTime now now (timer_medication t) (timer_time t) app0
            = Some (set_timers
                      (timers app0 ++
                         [{| timer_medication := timer_medication t;
                             timer_time := timer_time t; due := target |}])
                      app0)).
  { intros app0 Hz. apply scheduleNotificationForTime_some. now rewrite Hz. }
  rewrite Harm by (rewrite timeZone_showMedicationNotification; reflexivity).
  eexists. split; [reflexivity|].
  unfold showMedicationNotification. cbn [notificationPermission set_timers].
  destruct (notificationPermission app) eqn:Hp; cbn [negb];
    (split; [cbn; now rewrite ?List.app_nil_r|]);
    (split; [reflexivity|]); (split; [reflexivity|]);
    intros ms;
    rewrite Harm
      by (cbn [notificationPermission set_timers set_medications]; rewrite Hp;
          reflexivity);
    cbn [notificationPermission set_timers set_medications]; rewrite Hp;
    reflexivity.
Qed.

(** Refuting scenario of C5: aspirin is armed, then deleted; at 08:00 its
    timer shows the reminder all the same and a timer for the next day is
    pending, with the store empty. *)
Lemma deleted_medication_still_reminds :
  option_map medications deletedThenFired = Some []
  /\ option_map (fun app => List.map reminder_medication (shown app)) deletedThenFired
     = Some [aspirin]
  /\ option_map (fun app => List.map due (timersFor aspirin "08:00" app)) deletedThenFired
     = Some [(clockAt 8 0 + msPerDay)%Z].
Proof. repeat split; reflexivity. Qed.

(** C5, amended. A due timer of a well-formed time fires without consulting
    the store: it shows its reminder exactly when notifications are
    permitted and always re-arms its pair, for the instant that the arm
    step computes. Replacing the store changes nothing in this, and the
    confirmed deletion of a medication only filters the store: the pending
    timers stay, and firing one afterwards shows and re-arms as before. *)
Theorem fire_ignores_store (i : nat) (now : Z) (t : Timer) (app : App) :
  timers app !! i = Some t ->
  (due t <= now)%Z ->
  wellFormedTime (timer_time t) = true ->
  exists target app',
    scheduleTarget (timeZone app) now now (timer_time t) = Some target
    /\ fire i now app = Some app'
    /\ shown app' =
       shown app ++ (if notificationPermission app then [reminderOf now t app] else [])
    /\ timers app' =
       delete i (timers app) ++
         [{| timer_medication := timer_medication t; timer_time := timer_time t;
             due := target |}]
    /\ (forall ms, fire i now (set_medications ms app) = Some (set_medications ms app'))
    /\ (forall clk medId,
          medications (confirmYes clk (deleteMedication medId app))
          = List.filter (fun med => negb (med_id med =? medId)%string) (medications app)
          /\ timers (confirmYes clk (deleteMedication medId app)) = timers app
          /\ exists app'',
               fire i now (confirmYes clk (deleteMedication medId app)) = Some app''
               /\ shown app'' = shown app'
               /\ timers app'' = timers app').
Proof.
  intros Hi Hdue Hwf.
  destruct (wellFormedTime_target (timeZone app) now (timer_time t) Hwf) as (target & Ht).
  destruct (fire_result i now t app target Hi Hdue Ht)
    as (app' & Hrun & Hshown & Htimers & _ & Hstore).
  exists target, app'. do 5 (split; trivial).
  intros clk medId.
  destruct (confirmYes_fields clk (DeleteConfirmed medId) (deleteMedication medId app)
              eq_refl)
    as (Hm & _ & Hs & _ & Htm & Hsh & Hnp & Hvs & Hz & _).
  cbn [onConfirm] in Hm, Hs, Htm, Hsh, Hnp, Hvs, Hz.
  set (app1 := confirmYes clk (deleteMedication medId app)) in *.
  assert (Hi1 : timers app1 !! i = Some t) by (rewrite Htm; exact Hi).
  assert (Ht1 : scheduleTarget (timeZone app1) now now (timer_time t) = Some target)
    by (rewrite Hz; exact Ht).
  destruct (fire_result i now t app1 target Hi1 Hdue Ht1)
    as (app'' & Hrun' & Hshown' & Htimers' & _).
  split; [rewrite Hm; reflexivity|]. split; [rewrite Htm; reflexivity|].
  exists app''. split; trivial. split.
  - rewrite Hshown', Hshown, Hsh, Hnp. unfold reminderOf, settingEnabled.
    rewrite Hs, Hvs. reflexivity.
  - rewrite Htimers', Htimers, Htm. reflexivity.
Qed.

Lemma fire_ignores_store_witness :
  timers armedApp !! 0%nat = Some eightTimer
  /\ (due eightTimer <= clockAt 8 0)%Z
  /\ wellFormedTime (timer_time eightTimer) = true
  /\ exists target app',
       scheduleTarget (timeZone armedApp) (clockAt 8 0) (clockAt 8 0) (timer_time eightTimer) = Some target
       /\ fire 0 (clockAt 8 0) armedApp = Some app'
       /\ shown app' =
          shown armedApp ++
            (if notificationPermission armedApp
             then [reminderOf (clockAt 8 0) eightTimer armedApp] else [])
       /\ timers app' =
          delete 0%nat (timers armedApp) ++
            [{| timer_medication := timer_medication eightTimer;
                timer_time := timer_time eightTimer; due := target |}]
       /\ (forall ms, fire 0 (clockAt 8 0) (set_medications ms armedApp)
                      = Some (set_medications ms app'))
       /\ (forall clk medId,
             medications (confirmYes clk (deleteMedication medId armedApp))
             = List.filter (fun med => negb (med_id med =? medId)%string)
                           (medications armedApp)
             /\ timers (confirmYes clk (deleteMedication medId armedApp))
                = timers armedApp
             /\ exists app'',
                  fire 0 (clockAt 8 0) (confirmYes clk (deleteMedication medId armedApp))
                  = Some app''
                  /\ shown app'' = shown app'
                  /\ timers app'' = timers app').
Proof.
  split; [reflexivity|]. split; [vm_compute; discriminate|]. split; [reflexivity|].
  apply (fire_ignores_store 0 (clockAt 8 0) eightTimer armedApp).
  - reflexivity.
  - vm_compute. discriminate.
  - reflexivity.
Defined.

(** ** Import *)

(** C6, refuted as stated: for the document [halfMalformed] the import
    replaces the medications and keeps the history, so the state is neither
    replaced as a whole nor left as it was. *)
Lemma import_is_not_atomic :
  ~ (replacedWholesale halfMalformed (importData (ParsedValue halfMalformed) freshApp)
     \/ unchanged freshApp (importData (ParsedValue halfMalformed) freshApp)).
Proof.
  intros [(_ & Hh & _) | (Hm & _)].
  - discriminate Hh.
  - discriminate Hm.
Qed.

Lemma importMedications_frame data app :
  history (importMedications data app) = history app
  /\ settings (importMedications data app) = settings app.
Proof.
  unfold importMedications.
  now destruct (top_truthy (doc_medications data) && isArray (doc_medications data)).
Qed.

Lemma importHistory_frame data app :
  medications (importHistory data app) = medications app
  /\ settings (importHistory data app) = settings app.
Proof.
  unfold importHistory.
  now destruct (top_truthy (doc_history data) && isArray (doc_history data)).
Qed.

Lemma importSettings_frame data app :
  medications (importSettings data app) = medications app
  /\ history (importSettings data app) = history app.
Proof.
  unfold importSettings.
  now destruct (top_truthy (doc_settings data) && typeofObject (doc_settings data)).
Qed.

(** C6, amended. A file that does not parse, or parses to [null], changes
    nothing. Otherwise each of the three properties is checked and applied
    on its own: the medications are replaced exactly when
    [data.medications] is an array, the history exactly when [data.history]
    is an array, and the properties of [data.settings] are merged over the
    current settings exactly when it is an object or an array; a property
    that fails its check leaves its part of the state as it was. The three
    storage items are then written from the resulting state. *)
Theorem importData_fieldwise (parsed : Parsed) (app : App) :
  match parsed with
  | SyntaxError | ParsedNull => importData parsed app = app
  | ParsedValue data =>
      medications (importData parsed app) =
        match doc_medications data with
        | TArray a => a
        | _ => medications app
        end
      /\ history (importData parsed app) =
        match doc_history data with
        | TArray a => a
        | _ => history app
        end
      /\ settings (importData parsed app) =
        match doc_settings data with
        | TObject o => o ∪ settings app
        | TArray a => list_to_map (indexed 0 a) ∪ settings app
        | _ => settings app
        end
      /\ (forall o key, doc_settings data = TObject o ->
            settings (importData parsed app) !! key =
            match o !! key with
            | Some v => Some v
            | None => settings app !! key
            end)
      /\ localStorage (importData parsed app) !! key_medications
         = Some (MedicationsBlob (medications (importData parsed app)))
      /\ localStorage (importData parsed app) !! key_history
         = Some (HistoryBlob (history (importData parsed app)))
      /\ localStorage (importData parsed app) !! key_settings
         = Some (SettingsBlob (settings (importData parsed app)))
  end.
Proof.
  destruct parsed as [| |data]; try reflexivity.
  assert (Hs : settings (importData (ParsedValue data) app) =
               match doc_settings data with
               | TObject o => o ∪ settings app
               | TArray a => list_to_map (indexed 0 a) ∪ settings app
               | _ => settings app
               end).
  { unfold importData. rewrite settings_saveData. unfold importSettings.
    destruct (doc_settings data) as [| |b|n|s|o|a];
      cbn [top_truthy typeofObject andb ownProperties];
      rewrite ?andb_false_r; cbn [settings set_settings spread];
      rewrite (proj2 (importHistory_frame _ _)), (proj2 (importMedications_frame _ _));
      reflexivity. }
  split; [|split; [|split; [exact Hs|split]]].
  - unfold importData.
    rewrite medications_saveData, (proj1 (importSettings_frame _ _)),
            (proj1 (importHistory_frame _ _)).
    unfold importMedications.
    destruct (doc_medications data) as [| |b|n|s|o|a];
      cbn [top_truthy isArray andb elements]; rewrite ?andb_false_r; reflexivity.
  - unfold importData.
    rewrite history_saveData, (proj2 (importSettings_frame _ _)).
    unfold importHistory.
    destruct (doc_history data) as [| |b|n|s|o|a];
      cbn [top_truthy isArray andb elements]; rewrite ?andb_false_r;
      cbn [history set_history];
      try apply (proj1 (importMedications_frame _ _)); reflexivity.
  - intros o key Ho. rewrite Hs, Ho, lookup_union.
    destruct (o !! key), (settings app !! key); reflexivity.
  - unfold importData, saveData. cbn [localStorage set_localStorage].
    repeat split.
    + rewrite !lookup_insert_ne by discriminate. apply lookup_insert_eq.
    + rewrite lookup_insert_ne by discriminate. apply lookup_insert_eq.
    + apply lookup_insert_eq.
Qed.

(** * Further properties *)

(** ** Recording and toggling *)

Lemma find_unknown medId (ms : list Medication) :
  (forall m, In m ms -> med_id m <> medId) ->
  List.find (fun med => (med_id med =? medId)%string) ms = None.
Proof.
  intros H. induction ms as [|m rest IH]; cbn; trivial.
  destruct (String.eqb_spec (med_id m) medId) as [E|_].
  - exfalso. apply (H m); [now left | exact E].
  - apply IH. intros x Hx. apply H. now right.
Qed.

(** X3. An action for an id that no stored medication has is dropped: all
    three mark operations leave the application as it is, with no log entry
    and no storage write, and so does a toggle of such a slot. *)
Theorem unknown_medication_is_ignored (clk : Clock) (medId act time : string)
    (app : App) :
  (forall m, In m (medications app) -> med_id m <> medId) ->
  recordMedicationAction clk medId act time app = app
  /\ markMedicationMissed clk medId time app = app
  /\ markMedicationSkipped clk medId time app = app
  /\ (isMedicationTakenToday clk medId time app = false ->
      toggleMedicationStatus clk medId time app = app).
Proof.
  intros Hunknown. apply find_unknown in Hunknown.
  assert (Hrec : forall a, recordMedicationAction clk medId a time app = app)
    by (intros a; unfold recordMedicationAction; now rewrite Hunknown).
  repeat split; try apply Hrec.
  intros Ht. unfold toggleMedicationStatus. rewrite Ht. apply Hrec.
Qed.

Lemma unknown_medication_is_ignored_witness :
  (forall m, In m (medications aspirinStore) -> med_id m <> med_id paused)
  /\ recordMedicationAction nine (med_id paused) "taken" "08:00" aspirinStore
     = aspirinStore
  /\ markMedicationMissed nine (med_id paused) "08:00" aspirinStore = aspirinStore
  /\ markMedicationSkipped nine (med_id paused) "08:00" aspirinStore = aspirinStore
  /\ (isMedicationTakenToday nine (med_id paused) "08:00" aspirinStore = false ->
      toggleMedicationStatus nine (med_id paused) "08:00" aspirinStore = aspirinStore).
Proof.
  assert (H : forall m, In m (medications aspirinStore) -> med_id m <> med_id paused)
    by (intros m [<-|[]]; discriminate).
  split; [exact H|].
  apply (unknown_medication_is_ignored nine (med_id paused) "taken" "08:00"
           aspirinStore H).
Defined.

(** Recording for a known medication appends one entry and saves. *)
Lemma recordMedicationAction_known clk medId act time app :
  (exists m, In m (medications app) /\ med_id m = medId) ->
  exists entry,
    history (recordMedicationAction clk medId act time app) = history app ++ [entry]
    /\ medicationId entry = medId /\ action entry = act
    /\ scheduledTime entry = time /\ date entry = now_date clk
    /\ entry_id entry = now_id clk /\ actualTime entry = now_iso clk
    /\ (exists m, In m (medications app) /\ med_id m = medId
                  /\ medicationName entry = name m)
    /\ recordMedicationAction clk medId act time app
       = saveData (set_history (history app ++ [entry]) app).
Proof.
  intros Hk. apply find_known in Hk. destruct Hk as (m & Hfind).
  unfold recordMedicationAction. rewrite Hfind.
  eexists. split; [reflexivity|]. repeat (split; [reflexivity|]).
  split; [|reflexivity].
  exists m. apply find_some in Hfind. destruct Hfind as [Hin Hid].
  apply String.eqb_eq in Hid. auto.
Qed.

Lemma takenEntry_other_slot medId time medId' time' today entry :
  medicationId entry = medId -> scheduledTime entry = time ->
  medId' <> medId \/ time' <> time ->
  takenEntry medId' time' today entry = false.
Proof.
  intros Hid Ht Hne. apply not_true_is_false. rewrite takenEntry_true.
  intros (Hid' & Ht' & _). destruct Hne; congruence.
Qed.

(** X5. A toggle of an unmarked slot of a stored medication appends exactly
    one entry, a taken entry for this slot and today that carries the
    medication's name; the slot then reads taken, every other slot reads as
    before, and the stored history is the new log. *)
Theorem toggle_marks_one_slot (clk : Clock) (medId time : string) (app : App) :
  (exists m, In m (medications app) /\ med_id m = medId) ->
  isMedicationTakenToday clk medId time app = false ->
  exists entry,
    history (toggleMedicationStatus clk medId time app) = history app ++ [entry]
    /\ medicationId entry = medId /\ action entry = "taken"
    /\ scheduledTime entry = time /\ date entry = now_date clk
    /\ (exists m, In m (medications app) /\ med_id m = medId
                  /\ medicationName entry = name m)
    /\ isMedicationTakenToday clk medId time (toggleMedicationStatus clk medId time app)
       = true
    /\ (forall clk' medId' time',
          medId' <> medId \/ time' <> time ->
          isMedicationTakenToday clk' medId' time' (toggleMedicationStatus clk medId time app)
          = isMedicationTakenToday clk' medId' time' app)
    /\ medications (toggleMedicationStatus clk medId time app) = medications app
    /\ localStorage (toggleMedicationStatus clk medId time app) !! key_history
       = Some (HistoryBlob (history app ++ [entry])).
Proof.
  intros Hk Hun. unfold toggleMedicationStatus. rewrite Hun. unfold markMedicationTaken.
  destruct (recordMedicationAction_known clk medId "taken" time app Hk)
    as (entry & Hh & Hid & Hact & Hs & Hd & _ & _ & Hname & Hrec).
  exists entry. split; [exact Hh|]. do 4 (split; [assumption|]).
  split; [exact Hname|]. split; [|split; [|split]].
  - unfold isMedicationTakenToday. rewrite Hh, existsb_app. cbn [existsb].
    replace (takenEntry medId time (now_date clk) entry) with true
      by (symmetry; apply takenEntry_true; auto).
    now rewrite orb_true_r.
  - intros clk' medId' time' Hne. unfold isMedicationTakenToday.
    rewrite Hh, existsb_app. cbn [existsb].
    rewrite (takenEntry_other_slot medId time medId' time' _ entry Hid Hs Hne).
    now rewrite !orb_false_r.
  - now rewrite Hrec.
  - rewrite Hrec. unfold saveData. cbn [localStorage set_localStorage history set_history].
    rewrite lookup_insert_ne by discriminate. apply lookup_insert_eq.
Qed.

Lemma toggle_marks_one_slot_witness :
  (exists m, In m (medications aspirinStore) /\ med_id m = med_id aspirin)
  /\ isMedicationTakenToday nine (med_id aspirin) "08:00" aspirinStore = false
  /\ exists entry,
       history (toggleMedicationStatus nine (med_id aspirin) "08:00" aspirinStore)
       = history aspirinStore ++ [entry]
       /\ medicationId entry = med_id aspirin /\ action entry = "taken"
       /\ scheduledTime entry = "08:00" /\ date entry = now_date nine
       /\ (exists m, In m (medications aspirinStore) /\ med_id m = med_id aspirin
                     /\ medicationName entry = name m)
       /\ isMedicationTakenToday nine (med_id aspirin) "08:00"
            (toggleMedicationStatus nine (med_id aspirin) "08:00" aspirinStore)
          = true
       /\ (forall clk' medId' time',
             medId' <> med_id aspirin \/ time' <> "08:00" ->
             isMedicationTakenToday clk' medId' time'
               (toggleMedicationStatus nine (med_id aspirin) "08:00" aspirinStore)
             = isMedicationTakenToday clk' medId' time' aspirinStore)
       /\ medications (toggleMedicationStatus nine (med_id aspirin) "08:00" aspirinStore)
          = medications aspirinStore
       /\ localStorage (toggleMedicationStatus nine (med_id aspirin) "08:00" aspirinStore)
            !! key_history
          = Some (HistoryBlob (history aspirinStore ++ [entry])).
Proof.
  assert (Hk : exists m, In m (medications aspirinStore) /\ med_id m = med_id aspirin)
    by (exists aspirin; split; [now left | reflexivity]).
  split; [exact Hk|]. split; [reflexivity|].
  apply (toggle_marks_one_slot nine (med_id aspirin) "08:00" aspirinStore Hk).
  reflexivity.
Defined.

Lemma filter_nothing {A : Type} (f : A -> bool) (l : list A) :
  (forall x, In x l -> f x = true) -> List.filter f l = l.
Proof.
  intros H. induction l as [|x rest IH]; cbn; trivial.
  rewrite (H x) by now left. f_equal. apply IH. intros y Hy. apply H. now right.
Qed.

(** X6. Toggling an unmarked slot of a stored medication and then undoing it
    (toggle again, confirm) on the same day leaves the log without any entry
    of the slot for that day, in the old order otherwise, and the slot
    unmarked; when the log had no entry of the slot for that day, it is the
    old log again. *)
Theorem toggle_then_undo (mark again confirm : Clock) (medId time : string)
    (app : App) :
  (exists m, In m (medications app) /\ med_id m = medId) ->
  isMedicationTakenToday mark medId time app = false ->
  now_date again = now_date mark ->
  now_date confirm = now_date mark ->
  let undone :=
    confirmYes confirm
      (toggleMedicationStatus again medId time
         (toggleMedicationStatus mark medId time app)) in
  history undone =
    List.filter (fun entry => negb (slotEntry medId time (now_date mark) entry))
                (history app)
  /\ isMedicationTakenToday confirm medId time undone = false
  /\ medications undone = medications app
  /\ ((forall entry, In entry (history app) ->
         slotEntry medId time (now_date mark) entry = false) ->
      history undone = history app).
Proof.
  intros Hk Hun Hagain Hconfirm undone.
  assert (Htaken : isMedicationTakenToday again medId time
                     (toggleMedicationStatus mark medId time app) = true).
  { unfold toggleMedicationStatus at 1. rewrite Hun. unfold markMedicationTaken.
    destruct (recordMedicationAction_known mark medId "taken" time app Hk)
      as (entry & Hh & Hid & Hact & Hs & Hd & _).
    unfold isMedicationTakenToday. rewrite Hh, existsb_app. cbn [existsb].
    replace (takenEntry medId time (now_date again) entry) with true
      by (symmetry; apply takenEntry_true; rewrite Hagain; auto).
    now rewrite orb_true_r. }
  assert (Hhist : history undone =
            List.filter (fun entry => negb (slotEntry medId time (now_date mark) entry))
                        (history app)).
  { subst undone. unfold toggleMedicationStatus at 1. rewrite Htaken.
    rewrite (proj1 (proj2 (confirmYes_fields confirm (UndoConfirmed medId time)
                             (showConfirmDialog (UndoConfirmed medId time)
                                (toggleMedicationStatus mark medId time app))
                             eq_refl))).
    unfold showConfirmDialog. cbn [onConfirm].
    unfold removeMedicationRecord. cbn [history set_confirm set_history saveData
                                         set_localStorage].
    rewrite Hconfirm.
    unfold toggleMedicationStatus. rewrite Hun. unfold markMedicationTaken.
    destruct (recordMedicationAction_known mark medId "taken" time app Hk)
      as (entry & Hh & Hid & Hact & Hs & Hd & _).
    rewrite Hh, List.filter_app. cbn [List.filter].
    replace (slotEntry medId time (now_date mark) entry) with true
      by (symmetry; apply slotEntry_true; auto).
    cbn [negb]. apply List.app_nil_r. }
  split; [exact Hhist|]. split; [|split].
  - apply not_true_is_false. intros Ht.
    unfold isMedicationTakenToday in Ht. rewrite Hhist in Ht.
    apply existsb_exists in Ht. destruct Ht as (entry & Hin & Ht).
    apply filter_In in Hin. destruct Hin as [_ Hn].
    rewrite Hconfirm in Ht. apply takenEntry_slotEntry in Ht.
    rewrite Ht in Hn. discriminate.
  - subst undone. unfold toggleMedicationStatus at 1. rewrite Htaken.
    rewrite (proj1 (confirmYes_fields confirm (UndoConfirmed medId time)
                      (showConfirmDialog (UndoConfirmed medId time)
                         (toggleMedicationStatus mark medId time app))
                      eq_refl)).
    unfold showConfirmDialog. cbn [onConfirm].
    unfold removeMedicationRecord.
    cbn [medications set_confirm set_history saveData set_localStorage].
    unfold toggleMedicationStatus. rewrite Hun. unfold markMedicationTaken.
    destruct (recordMedicationAction_known mark medId "taken" time app Hk)
      as (entry & _ & _ & _ & _ & _ & _ & _ & _ & Hrec).
    now rewrite Hrec.
  - intros Hnone. rewrite Hhist. apply filter_nothing.
    intros entry Hin. now rewrite (Hnone entry Hin).
Qed.

Lemma toggle_then_undo_witness :
  (exists m, In m (medications aspirinStore) /\ med_id m = med_id aspirin)
  /\ isMedicationTakenToday eightThirty (med_id aspirin) "08:00" aspirinStore = false
  /\ now_date eightFortyFive = now_date eightThirty
  /\ now_date nine = now_date eightThirty
  /\ let undone :=
       confirmYes nine
         (toggleMedicationStatus eightFortyFive (med_id aspirin) "08:00"
            (toggleMedicationStatus eightThirty (med_id aspirin) "08:00" aspirinStore)) in
     history undone =
       List.filter
         (fun entry => negb (slotEntry (med_id aspirin) "08:00" (now_date eightThirty) entry))
         (history aspirinStore)
     /\ isMedicationTakenToday nine (med_id aspirin) "08:00" undone = false
     /\ medications undone = medications aspirinStore
     /\ ((forall entry, In entry (history aspirinStore) ->
            slotEntry (med_id aspirin) "08:00" (now_date eightThirty) entry = false) ->
         history undone = history aspirinStore).
Proof.
  assert (Hk : exists m, In m (medications aspirinStore) /\ med_id m = med_id aspirin)
    by (exists aspirin; split; [now left | reflexivity]).
  split; [exact Hk|]. split; [reflexivity|]. split; [reflexivity|].
  split; [reflexivity|].
  apply (toggle_then_undo eightThirty eightFortyFive nine (med_id aspirin) "08:00"
           aspirinStore Hk); reflexivity.
Defined.

(** X7. Marking a dose missed or skipped never changes what any slot reads,
    on any day: for a stored medication it appends one entry with that
    action, and [isMedicationTakenToday] answers as before everywhere. *)
Theorem missed_and_skipped_leave_status (clk clk' : Clock)
    (medId time medId' time' : string) (app : App) :
  isMedicationTakenToday clk' medId' time' (markMedicationMissed clk medId time app)
  = isMedicationTakenToday clk' medId' time' app
  /\ isMedicationTakenToday clk' medId' time' (markMedicationSkipped clk medId time app)
     = isMedicationTakenToday clk' medId' time' app
  /\ (forall m, In m (medications app) -> med_id m = medId ->
        exists missed skipped,
          history (markMedicationMissed clk medId time app) = history app ++ [missed]
          /\ action missed = "missed"
          /\ history (markMedicationSkipped clk medId time app) = history app ++ [skipped]
          /\ action skipped = "skipped").
Proof.
  assert (Hother : forall act, act <> "taken" ->
            isMedicationTakenToday clk' medId' time'
              (recordMedicationAction clk medId act time app)
            = isMedicationTakenToday clk' medId' time' app).
  { intros act Hact. unfold recordMedicationAction.
    destruct (List.find _ (medications app)); trivial.
    unfold isMedicationTakenToday. cbn [history saveData set_localStorage set_history].
    rewrite existsb_app. cbn [existsb].
    rewrite takenEntry_other by (left; exact Hact). now rewrite !orb_false_r. }
  split; [apply Hother; discriminate|]. split; [apply Hother; discriminate|].
  intros m Hin Hid.
  assert (Hk : exists m, In m (medications app) /\ med_id m = medId) by eauto.
  destruct (recordMedicationAction_known clk medId "missed" time app Hk)
    as (missed & Hh1 & _ & Ha1 & _).
  destruct (recordMedicationAction_known clk medId "skipped" time app Hk)
    as (skipped & Hh2 & _ & Ha2 & _).
  exists missed, skipped. auto.
Qed.

(** ** Resolve all, again *)

Lemma forEachResolve_all_taken clk time ms app :
  (forall m, In m ms -> isMedicationTakenToday clk (med_id m) time app = true) ->
  forEachResolve clk time ms app = app.
Proof.
  induction ms as [|m rest IH]; intros H; cbn [forEachResolve]; trivial.
  rewrite (H m) by now left. cbn [negb]. apply IH. intros x Hx. apply H. now right.
Qed.

Lemma isMedicationTakenToday_date clk clk' medId time app :
  now_date clk' = now_date clk ->
  isMedicationTakenToday clk' medId time app = isMedicationTakenToday clk medId time app.
Proof. unfold isMedicationTakenToday. now intros ->. Qed.

Lemma groupMedicationsByTime_medications app app' :
  medications app' = medications app ->
  groupMedicationsByTime app' = groupMedicationsByTime app.
Proof. unfold groupMedicationsByTime. now intros ->. Qed.

(** A grouping that returned met no inherited time. *)
Lemma groupMedicationsByTime_returned app timeGroups :
  groupMedicationsByTime app = Some timeGroups ->
  noInheritedTime (medications app).
Proof.
  intros Hrun m t Hm Ht. destruct (inherited t) eqn:E; trivial.
  rewrite groupMedicationsByTime_throws in Hrun by eauto. discriminate.
Qed.

(** X8. Resolving a time a second time on the same day changes nothing: the
    state that one [resolveAllForTime] returns is returned again by the
    next, with no further log entry and no storage write. *)
Theorem resolveAllForTime_again (clk clk' : Clock) (time : string) (app app1 : App) :
  resolveAllForTime clk time app = Some app1 ->
  now_date clk' = now_date clk ->
  resolveAllForTime clk' time app1 = Some app1.
Proof.
  intros Hrun Hdate. unfold resolveAllForTime in Hrun.
  destruct (groupMedicationsByTime app) as [tg|] eqn:Hg; [|discriminate].
  pose proof (groupMedicationsByTime_returned _ _ Hg) as Hplain.
  destruct (groupMedicationsByTime_spec app Hplain) as (tg' & Hg' & _ & Hgroup & _).
  rewrite Hg in Hg'. injection Hg' as <-.
  assert (Hshape : inherited time = false \/ exists g, getOwn time tg = Some g).
  { destruct (getOwn time tg); [right; eauto|].
    destruct (inherited time); [discriminate | now left]. }
  assert (Happ1 : app1 = forEachResolve clk time (groupAt time tg) app).
  { unfold groupAt. destruct (getOwn time tg); [congruence|].
    destruct (inherited time); [discriminate | congruence]. }
  destruct (forEachResolve_spec clk time (groupAt time tg) app)
    as (added & _ & Hm & Ht & _).
  { intros m Hin. rewrite Hgroup in Hin. apply In_groupOf, In_slotsOf in Hin. tauto. }
  rewrite <- Happ1 in Hm, Ht.
  unfold resolveAllForTime.
  rewrite (groupMedicationsByTime_medications app app1 Hm), Hg.
  assert (Hsame : forEachResolve clk' time (groupAt time tg) app1 = app1).
  { apply forEachResolve_all_taken. intros m Hin.
    rewrite (isMedicationTakenToday_date clk clk') by exact Hdate. now apply Ht. }
  unfold groupAt in Hsame.
  destruct (getOwn time tg) as [g|]; [now rewrite Hsame|].
  destruct Hshape as [-> | (g & Hg2)]; [reflexivity | discriminate].
Qed.

Lemma resolveAllForTime_again_witness :
  resolveAllForTime nine "08:00" oneTaken
  = Some (forEachResolve nine "08:00" [aspirin; paused] oneTaken)
  /\ now_date nine = now_date nine
  /\ resolveAllForTime nine "08:00" (forEachResolve nine "08:00" [aspirin; paused] oneTaken)
     = Some (forEachResolve nine "08:00" [aspirin; paused] oneTaken).
Proof.
  split; [reflexivity|]. split; [reflexivity|].
  apply (resolveAllForTime_again nine nine "08:00" oneTaken); reflexivity.
Defined.

(** ** Deleting a medication *)

(** X4. The confirmed deletion removes every stored medication with the
    given id and no other, and writes the new store; the log and what every
    slot reads stay as they were, so the entries of the deleted medication
    remain. Afterwards no action can be recorded for that id, and no time
    group holds a medication with it. *)
Theorem deleteMedication_confirmed (clk : Clock) (medId : string) (app : App) :
  let app' := confirmYes clk (deleteMedication medId app) in
  (forall m, In m (medications app') <-> In m (medications app) /\ med_id m <> medId)
  /\ history app' = history app
  /\ (forall clk' medId' time',
        isMedicationTakenToday clk' medId' time' app'
        = isMedicationTakenToday clk' medId' time' app)
  /\ localStorage app' !! key_medications = Some (MedicationsBlob (medications app'))
  /\ (forall clk' act time, recordMedicationAction clk' medId act time app' = app')
  /\ (forall timeGroups m time,
        groupMedicationsByTime app' = Some timeGroups ->
        In m (groupAt time timeGroups) -> med_id m <> medId).
Proof.
  intros app'.
  destruct (confirmYes_fields clk (DeleteConfirmed medId) (deleteMedication medId app)
              eq_refl)
    as (Hm & Hh & _ & Hl & _).
  fold app' in Hm, Hh, Hl. cbn [onConfirm] in Hm, Hh, Hl.
  assert (Hms : forall m, In m (medications app') <->
                          In m (medications app) /\ med_id m <> medId).
  { intros m. rewrite Hm. cbn. rewrite filter_In, negb_true_iff, String.eqb_neq.
    reflexivity. }
  split; [exact Hms|]. split; [rewrite Hh; reflexivity|].
  split; [intros clk' medId' time'; apply isMedicationTakenToday_history;
          rewrite Hh; reflexivity|].
  split; [|split].
  - rewrite Hl, Hm. cbn -[key_medications key_history key_settings].
    rewrite !lookup_insert_ne by discriminate. apply lookup_insert_eq.
  - intros clk' act time. unfold recordMedicationAction.
    rewrite find_unknown; trivial. intros m Hin. now apply Hms.
  - intros tg m time Hg Hin.
    pose proof (groupMedicationsByTime_returned _ _ Hg) as Hplain.
    destruct (groupMedicationsByTime_spec app' Hplain) as (tg' & Hg' & _ & Hgroup & _).
    rewrite Hg in Hg'. injection Hg' as <-.
    rewrite Hgroup in Hin. apply In_groupOf, In_slotsOf in Hin.
    now apply Hms.
Qed.

(** ** The schedule view, without assumptions on the times *)

Lemma forallb_false {A : Type} (f : A -> bool) (l : list A) :
  List.forallb f l = false -> exists x, In x l /\ f x = false.
Proof.
  induction l as [|x rest IH]; cbn [List.forallb]; [discriminate|].
  intros H. apply andb_false_iff in H. destruct H as [H|H].
  - exists x. split; [now left | exact H].
  - destruct (IH H) as (y & Hy & Hf). exists y. split; [now right | exact Hf].
Qed.

Lemma plainTimes_false ms :
  plainTimes ms = false ->
  exists m t, In m ms /\ In t (times m) /\ inherited t = true.
Proof.
  unfold plainTimes. intros H. apply forallb_false in H.
  destruct H as (m & Hm & H). apply forallb_false in H.
  destruct H as (t & Ht & H). apply negb_false_iff in H. eauto.
Qed.

(** X9. The grouping throws exactly when some dose time of the store names a
    property inherited from [Object.prototype]; the schedule then cannot be
    rendered, and [resolveAllForTime] throws in that case and for an
    inherited time argument, and in no other. *)
Theorem inherited_time_breaks_schedule
    (localeCompare : string -> string -> comparison)
    (clk : Clock) (time : string) (app : App) :
  (groupMedicationsByTime app = None <-> someInheritedTime app)
  /\ (renderTodaysSchedule localeCompare clk app = None <-> someInheritedTime app)
  /\ (resolveAllForTime clk time app = None <->
      someInheritedTime app \/ inherited time = true).
Proof.
  assert (Hgroup : groupMedicationsByTime app = None <-> someInheritedTime app).
  { split.
    - intros Hnone. destruct (plainTimes (medications app)) eqn:E.
      + apply plainTimes_noInheritedTime in E.
        destruct (groupMedicationsByTime_spec app E) as (tg & Hrun & _). congruence.
      + now apply plainTimes_false.
    - apply groupMedicationsByTime_throws. }
  split; [exact Hgroup|]. split.
  - unfold renderTodaysSchedule.
    destruct (medications app) as [|m rest] eqn:Hms.
    + cbn. split; [discriminate|]. intros (x & t & Hx & _). rewrite Hms in Hx.
      destruct Hx.
    + cbn [length Nat.eqb]. rewrite <- Hgroup.
      destruct (groupMedicationsByTime app); [|tauto].
      destruct (length (Object_keys t) =? 0)%nat; split; discriminate.
  - unfold resolveAllForTime. rewrite <- Hgroup.
    destruct (groupMedicationsByTime app) as [tg|] eqn:Hg; [|tauto].
    destruct (getOwn time tg) as [g|] eqn:Hown.
    + split; [discriminate|]. intros [H|H]; [discriminate|].
      apply getOwn_In in Hown.
      pose proof (groupMedicationsByTime_returned _ _ Hg) as Hplain.
      destruct (groupMedicationsByTime_spec app Hplain)
        as (tg' & Hg' & Hnd & Hgr & Hnone).
      rewrite Hg in Hg'. injection Hg' as <-.
      apply (In_getOwn _ _ _ Hnd) in Hown.
      destruct (groupOf time (slotsOf (medications app))) as [|m rest] eqn:E.
      * apply Hnone in E. congruence.
      * assert (Hm : In m (groupOf time (slotsOf (medications app))))
          by (rewrite E; now left).
        apply In_groupOf, In_slotsOf in Hm. destruct Hm as [Hm Ht].
        rewrite (Hplain m time Hm Ht) in H. discriminate.
    + destruct (inherited time); split; try discriminate; try tauto.
      intros [H|H]; discriminate.
Qed.

Lemma listsTime_In time medication :
  listsTime time medication = true <-> In time (times medication).
Proof.
  unfold listsTime. rewrite existsb_exists. split.
  - intros (t & Hin & E). apply String.eqb_eq in E. now subst.
  - intros Hin. exists time. split; trivial. apply String.eqb_refl.
Qed.

Lemma groupOf_one_medication time m ts :
  List.NoDup ts ->
  groupOf time (List.map (pair m) ts) = if List.existsb (String.eqb time) ts then [m] else [].
Proof.
  induction ts as [|t rest IH]; intros Hnd; cbn [List.map existsb]; trivial.
  apply List.NoDup_cons_iff in Hnd. destruct Hnd as [Ht Hnd].
  destruct (String.eqb_spec time t) as [<-|Hne]; cbn [orb].
  - rewrite groupOf_cons_eq, IH by trivial.
    destruct (List.existsb (String.eqb time) rest) eqn:E; trivial.
    apply existsb_exists in E. destruct E as (x & Hx & E).
    apply String.eqb_eq in E. subst x. contradiction.
  - rewrite groupOf_cons_ne by congruence. now apply IH.
Qed.

(** X10. When no medication lists a time twice, each time group holds the
    medications that list its time in the order of the store. *)
Theorem groups_keep_store_order (app : App) (timeGroups : TimeGroups) (time : string) :
  groupMedicationsByTime app = Some timeGroups ->
  (forall m, In m (medications app) -> List.NoDup (times m)) ->
  groupAt time timeGroups = List.filter (listsTime time) (medications app).
Proof.
  intros Hg Hnd.
  pose proof (groupMedicationsByTime_returned _ _ Hg) as Hplain.
  destruct (groupMedicationsByTime_spec app Hplain) as (tg' & Hg' & _ & Hgroup & _).
  rewrite Hg in Hg'. injection Hg' as <-. rewrite Hgroup. clear Hg Hgroup Hplain.
  induction (medications app) as [|m rest IH]; trivial.
  cbn [slotsOf flat_map List.filter]. fold (slotsOf rest).
  rewrite groupOf_app, groupOf_one_medication by (apply Hnd; now left).
  rewrite IH by (intros x Hx; apply Hnd; now right).
  unfold listsTime. now destruct (List.existsb (String.eqb time) (times m)).
Qed.

Lemma groups_keep_store_order_witness :
  groupMedicationsByTime twoMedications
  = Some [("08:00", [aspirin; paused]); ("20:00", [aspirin])]
  /\ (forall m, In m (medications twoMedications) -> List.NoDup (times m))
  /\ groupAt "08:00" [("08:00", [aspirin; paused]); ("20:00", [aspirin])]
     = List.filter (listsTime "08:00") (medications twoMedications).
Proof.
  assert (Hnd : forall m, In m (medications twoMedications) -> List.NoDup (times m)).
  { intros m [<-|[<-|[]]]; cbn; repeat constructor; cbn; intuition discriminate. }
  split; [reflexivity|]. split; [exact Hnd|].
  apply (groups_keep_store_order twoMedications _ "08:00"); [reflexivity | exact Hnd].
Defined.




(** The schedule at 09:00 with aspirin's 08:00 dose taken: its status button
    is written with two class attributes and has the class of the first,
    like the buttons of the doses not taken. *)
Example taken_item_has_plain_class :
  isMedicationTakenToday nine (med_id aspirin) "08:00" oneTaken = true
  /\ option_map
       (fun view =>
          List.map
            (fun block =>
               List.map (fun item => (status_class item, classOf item)) (items block))
            (blocksOf view))
       (renderTodaysSchedule String.compare nine oneTaken)
     = Some [[(["med-status"; "med-status completed"], Some "med-status");
              (["med-status"], Some "med-status")];
             [(["med-status"], Some "med-status")]].
Proof. split; reflexivity. Qed.

(** ** Formatting *)

Lemma digit_char c d : digit c = Some d -> c = ascii_of_N (Z.to_N (d + 48)).
Proof.
  intros H. rewrite <- (digit_code _ _ H), N2Z.id. symmetry. apply ascii_N_embedding.
Qed.

(** The label of a well-formed time, in terms of its characters. *)
Lemma formatTime_wellFormed time :
  wellFormedTime time = true ->
  exists h1 h2 m1 m2 a b,
    time = String h1 (String h2 (String ":" (String m1 (String m2 EmptyString))))
    /\ digit h1 = Some a /\ digit h2 = Some b
    /\ (0 <= a <= 9)%Z /\ (0 <= b <= 9)%Z /\ (10 * a + b < 24)%Z
    /\ hoursMinutes time <> None
    /\ formatTime time =
       Some (decimal (hour12 (10 * a + b))
             +:+ String ":" (String m1 (String m2
                   (if (12 <=? 10 * a + b)%Z then " PM" else " AM")))).
Proof.
  intros Hwf.
  destruct (wellFormedTime_inv time Hwf)
    as (h1 & h2 & m1 & m2 & a & b & c & d & -> & E1 & E2 & E3 & E4 & Hh & Hm & Hhm).
  exists h1, h2, m1, m2, a, b.
  pose proof (digit_range _ _ E1). pose proof (digit_range _ _ E2).
  repeat (split; [trivial; lia|]). split; [congruence|].
  unfold formatTime. cbn [splitOn].
  rewrite (digit_not_colon _ _ E1), (digit_not_colon _ _ E2),
          (digit_not_colon _ _ E3), (digit_not_colon _ _ E4).
  cbn [Ascii.eqb Bool.eqb]. cbn [Number String.length Nat.leb digits].
  rewrite E1, E2. replace (10 * (10 * 0 + a) + b)%Z with (10 * a + b)%Z by lia.
  fold (hour12 (10 * a + b)). f_equal. f_equal.
  now destruct (12 <=? 10 * a + b)%Z.
Qed.

Ltac each_digit a :=
  let H := fresh in
  assert (H : (a = 0 \/ a = 1 \/ a = 2 \/ a = 3 \/ a = 4 \/ a = 5 \/ a = 6
               \/ a = 7 \/ a = 8 \/ a = 9)%Z) by lia;
  destruct H as [->|[->|[->|[->|[->|[->|[->|[->|[->| ->]]]]]]]]].

(** X12. On well-formed times [formatTime] returns a label of the 12-hour
    clock: an hour from 1 to 12 that differs from the hour of the day by a
    multiple of 12, the two minute characters, and PM exactly from 12:00
    on. Different well-formed times get different labels. *)
Theorem formatTime_labels (time : string) :
  wellFormedTime time = true ->
  (exists hours minutes h12 m1 m2,
     hoursMinutes time = Some (hours, minutes)
     /\ (1 <= h12 <= 12)%Z /\ ((hours - h12) mod 12 = 0)%Z
     /\ String.substring 3 2 time = String m1 (String m2 EmptyString)
     /\ formatTime time =
        Some (decimal h12 +:+ String ":" (String m1 (String m2
                (if (hours <? 12)%Z then " AM" else " PM")))))
  /\ (forall time', wellFormedTime time' = true ->
        formatTime time' = formatTime time -> time' = time).
Proof.
  intros Hwf. split.
  - destruct (wellFormedTime_inv time Hwf)
      as (h1 & h2 & m1 & m2 & a & b & c & d & Ht & E1 & E2 & E3 & E4 & Hh & Hm & Hhm).
    destruct (formatTime_wellFormed time Hwf)
      as (h1' & h2' & m1' & m2' & a' & b' & Ht' & E1' & E2' & Ha & Hb & _ & _ & Hf).
    rewrite Ht in Ht'. injection Ht' as <- <- <- <-.
    rewrite E1 in E1'. rewrite E2 in E2'. injection E1' as <-. injection E2' as <-.
    exists (10 * a + b)%Z, (10 * c + d)%Z, (hour12 (10 * a + b)), m1, m2.
    split; [exact Hhm|].
    assert (Hmod : (0 <= (10 * a + b) mod 12 < 12)%Z) by (apply Z.mod_pos_bound; lia).
    split; [|split; [|split]].
    + unfold hour12. destruct (Z.eqb_spec ((10 * a + b) mod 12) 0); lia.
    + unfold hour12. destruct (Z.eqb_spec ((10 * a + b) mod 12) 0) as [E|E].
      * rewrite <- Zminus_mod_idemp_l, E. reflexivity.
      * rewrite <- Zminus_mod_idemp_r, Z.mod_mod by lia.
        rewrite Zminus_mod_idemp_r, Z.sub_diag. reflexivity.
    + rewrite Ht. reflexivity.
    + rewrite Hf. do 2 f_equal.
      destruct (Z.leb_spec 12 (10 * a + b)), (Z.ltb_spec (10 * a + b) 12);
        trivial; lia.
  - intros time' Hwf' Heq.
    destruct (formatTime_wellFormed time Hwf)
      as (h1 & h2 & m1 & m2 & a & b & -> & E1 & E2 & Ha & Hb & Hh & _ & Hf).
    destruct (formatTime_wellFormed time' Hwf')
      as (h1' & h2' & m1' & m2' & a' & b' & -> & E1' & E2' & Ha' & Hb' & Hh' & _ & Hf').
    rewrite Hf, Hf' in Heq.
    rewrite (digit_char _ _ E1), (digit_char _ _ E2),
            (digit_char _ _ E1'), (digit_char _ _ E2').
    clear Hf Hf' E1 E2 E1' E2' Hwf Hwf'.
    each_digit a; try (exfalso; lia); each_digit b; try (exfalso; lia);
      each_digit a'; try (exfalso; lia); each_digit b'; try (exfalso; lia);
      vm_compute in Heq; try discriminate Heq;
      injection Heq as -> ->; reflexivity.
Qed.

Lemma formatTime_labels_witness :
  wellFormedTime "00:30" = true
  /\ (exists hours minutes h12 m1 m2,
        hoursMinutes "00:30" = Some (hours, minutes)
        /\ (1 <= h12 <= 12)%Z /\ ((hours - h12) mod 12 = 0)%Z
        /\ String.substring 3 2 "00:30" = String m1 (String m2 EmptyString)
        /\ formatTime "00:30" =
           Some (decimal h12 +:+ String ":" (String m1 (String m2
                   (if (hours <? 12)%Z then " AM" else " PM")))))
  /\ (forall time', wellFormedTime time' = true ->
        formatTime time' = formatTime "00:30" -> time' = "00:30").
Proof.
  split; [reflexivity|]. apply (formatTime_labels "00:30"). reflexivity.
Defined.

Example formatTime_midnight_and_noon :
  formatTime "00:30" = Some "12:30 AM" /\ formatTime "12:00" = Some "12:00 PM"
  /\ formatTime "13:05" = Some "1:05 PM" /\ formatTime "08:00" = Some "8:00 AM".
Proof. repeat split; reflexivity. Qed.

Lemma append_cons x a b : String x a +:+ b = String x (a +:+ b).
Proof. reflexivity. Qed.

Lemma occursIn_append c a b :
  occursIn c (a +:+ b) = occursIn c a || occursIn c b.
Proof.
  induction a as [|x rest IH]; [reflexivity|].
  rewrite append_cons. cbn [occursIn]. rewrite IH. apply orb_assoc.
Qed.

Ltac escape_cases c :=
  unfold escapeChar;
  destruct (Ascii.eqb_spec c "&") as [->|?];
  [|destruct (Ascii.eqb_spec c "<") as [->|?];
    [|destruct (Ascii.eqb_spec c ">") as [->|?];
      [|destruct (Ascii.eqb_spec c "034") as [->|?];
        [|destruct (Ascii.eqb_spec c "'") as [->|?]]]]].

(** X13. The output of [escapeHtml] holds none of the characters [<], [>],
    double quote and apostrophe, whatever the input; a text without these
    and without [&] is returned as it is. *)
Theorem escapeHtml_leaves_no_markup (text : string) :
  occursIn "<" (escapeHtml text) = false
  /\ occursIn ">" (escapeHtml text) = false
  /\ occursIn "034" (escapeHtml text) = false
  /\ occursIn "'" (escapeHtml text) = false
  /\ (occursIn "&" text = false -> occursIn "<" text = false ->
      occursIn ">" text = false -> occursIn "034" text = false ->
      occursIn "'" text = false -> escapeHtml text = text).
Proof.
  induction text as [|c rest (IH1 & IH2 & IH3 & IH4 & IH5)]; cbn [escapeHtml].
  - repeat split; reflexivity.
  - rewrite !occursIn_append, IH1, IH2, IH3, IH4, !orb_false_r.
    assert (Hchar : occursIn "<" (escapeChar c) = false
                    /\ occursIn ">" (escapeChar c) = false
                    /\ occursIn "034" (escapeChar c) = false
                    /\ occursIn "'" (escapeChar c) = false).
    { escape_cases c; cbn [occursIn orb]; try (repeat split; reflexivity).
      rewrite !orb_false_r. repeat split; now apply Ascii.eqb_neq. }
    destruct Hchar as (H1 & H2 & H3 & H4).
    split; [exact H1|]. split; [exact H2|]. split; [exact H3|]. split; [exact H4|].
    cbn [occursIn]. intros Ha Hb Hc Hd He.
    apply orb_false_iff in Ha, Hb, Hc, Hd, He.
    destruct Ha as [Ha Ha'], Hb as [Hb Hb'], Hc as [Hc Hc'], Hd as [Hd Hd'],
             He as [He He'].
    unfold escapeChar. rewrite Ha, Hb, Hc, Hd, He. cbv [String.append].
    f_equal. now apply IH5.
Qed.

(** X14. [escapeHtml] loses nothing: two texts with the same escaped form
    are the same text. *)
Theorem escapeHtml_injective (text text' : string) :
  escapeHtml text = escapeHtml text' -> text = text'.
Proof.
  revert text'. induction text as [|c rest IH]; intros [|c' rest'];
    cbn [escapeHtml]; trivial.
  - escape_cases c'; cbv [String.append]; discriminate.
  - escape_cases c; cbv [String.append]; discriminate.
  - escape_cases c; escape_cases c'; cbv [String.append]; intros H;
      try discriminate H;
      try (injection H as H; f_equal; now apply IH);
      try (injection H as -> H; f_equal; now apply IH);
      try (injection H as <-; contradiction);
      try (injection H as ->; contradiction).
Qed.

Lemma escapeHtml_injective_witness :
  escapeHtml "a<b" = escapeHtml "a<b" /\ "a<b" = "a<b".
Proof.
  split; [reflexivity|]. apply (escapeHtml_injective "a<b" "a<b"). reflexivity.
Defined.

(** ** Adding a medication *)

Lemma trimStart_split s :
  exists a, s = a +:+ trimStart s /\ blank a = true.
Proof.
  induction s as [|c rest (a & Hs & Ha)]; cbn [trimStart].
  - now exists EmptyString.
  - destruct (isWhiteSpace c) eqn:E.
    + exists (String c a). rewrite append_cons, <- Hs. split; trivial.
      cbn. now rewrite E.
    + now exists EmptyString.
Qed.

Lemma trimEnd_split s :
  exists b, s = trimEnd s +:+ b /\ blank b = true.
Proof.
  induction s as [|c rest (b & Hs & Hb)]; cbn [trimEnd].
  - now exists EmptyString.
  - destruct (trimEnd rest) as [|k kept] eqn:E.
    + change (EmptyString +:+ b) with b in Hs. subst b.
      destruct (isWhiteSpace c) eqn:Ec.
      * exists (String c rest). split; trivial. cbn. now rewrite Ec.
      * exists rest. split; trivial.
    + exists b. rewrite append_cons, <- Hs. split; trivial.
Qed.

Lemma trimEnd_again s : trimEnd (trimEnd s) = trimEnd s.
Proof.
  induction s as [|c rest IH]; cbn [trimEnd]; trivial.
  destruct (trimEnd rest) as [|k kept] eqn:E.
  - destruct (isWhiteSpace c) eqn:Ec; cbn [trimEnd]; trivial. now rewrite Ec.
  - cbn [trimEnd]. cbn [trimEnd] in IH. now rewrite IH.
Qed.

Lemma trimStart_head s :
  match trimStart s with
  | EmptyString => True
  | String c _ => isWhiteSpace c = false
  end.
Proof.
  induction s as [|c rest IH]; cbn [trimStart]; trivial.
  destruct (isWhiteSpace c) eqn:E; trivial.
Qed.

Lemma trimEnd_head c rest :
  isWhiteSpace c = false -> exists kept, trimEnd (String c rest) = String c kept.
Proof.
  intros E. cbn [trimEnd]. destruct (trimEnd rest); [rewrite E|]; eauto.
Qed.

Lemma trim_again s : trim (trim s) = trim s.
Proof.
  unfold trim. pose proof (trimStart_head s) as H.
  destruct (trimStart s) as [|c rest]; trivial.
  destruct (trimEnd_head c rest H) as (kept & E).
  rewrite E. cbn [trimStart]. rewrite H, <- E. apply trimEnd_again.
Qed.

Lemma trim_blank s : trim s = EmptyString <-> blank s = true.
Proof.
  unfold trim. split.
  - intros H. destruct (trimStart_split s) as (a & Hs & Ha).
    pose proof (trimStart_head s) as Hh.
    destruct (trimStart s) as [|c rest].
    + rewrite Hs. clear Hs. induction a as [|x a IH]; trivial.
      cbn in Ha. apply andb_true_iff in Ha. rewrite append_cons. cbn.
      rewrite (proj1 Ha). now apply IH.
    + destruct (trimEnd_head c rest Hh) as (kept & E). congruence.
  - intros H. replace (trimStart s) with EmptyString; trivial.
    induction s as [|c rest IH]; trivial.
    cbn in H. apply andb_true_iff in H. cbn [trimStart]. rewrite (proj1 H).
    apply IH, H.
Qed.

Lemma enteredTimes_length form : forall count start,
  (length
     (flat_map
        (fun i =>
           match form_time form i with
           | Some value => if (value =? "")%string then [] else [value]
           | None => []
           end)
        (seq start count)) <= count)%nat
  /\ (length
        (flat_map
           (fun i =>
              match form_time form i with
              | Some value => if (value =? "")%string then [] else [value]
              | None => []
              end)
           (seq start count)) = count
      <-> forall i, (start <= i < start + count)%nat -> filled form i).
Proof.
  induction count as [|count IH]; intros start; cbn [seq flat_map].
  - split; [cbn; lia|]. split; [intros _ i Hi; lia | reflexivity].
  - destruct (IH (S start)) as [Hle Hiff].
    rewrite List.length_app.
    destruct (form_time form start) as [value|] eqn:E.
    + destruct (String.eqb_spec value "") as [->|Hne]; cbn [length].
      * split; [lia|]. split; [lia|].
        intros H. destruct (H start) as (v & Hv & Hnon); [lia|]. congruence.
      * split; [lia|]. split.
        -- intros H. assert (H' : length
             (flat_map
                (fun i =>
                   match form_time form i with
                   | Some value => if (value =? "")%string then [] else [value]
                   | None => []
                   end) (seq (S start) count)) = count) by lia.
           intros i Hi. destruct (Nat.eq_dec i start) as [->|Hi'].
           ++ exists value. auto.
           ++ apply (proj1 Hiff H'). lia.
        -- intros H. f_equal. apply Hiff. intros i Hi. apply H. lia.
    + cbn [length]. split; [lia|]. split; [lia|].
      intros H. destruct (H start) as (v & Hv & _); [lia|]. congruence.
Qed.

Lemma enteredTimes_filled form timesPerDay :
  timesPerDay <> 0%Z ->
  (Z.of_nat (length (enteredTimes form timesPerDay)) = timesPerDay
   <-> (0 < timesPerDay)%Z
       /\ forall i, (1 <= i <= Z.to_nat timesPerDay)%nat -> filled form i).
Proof.
  intros Hnz. unfold enteredTimes.
  destruct (enteredTimes_length form (Z.to_nat timesPerDay) 1) as [Hle Hiff].
  split.
  - intros H. assert (Hpos : (0 < timesPerDay)%Z) by lia. split; trivial.
    intros i Hi. apply (proj1 Hiff); lia.
  - intros [Hpos Hall]. rewrite (proj2 Hiff); [lia|].
    intros i Hi. apply Hall. lia.
Qed.

(** X15. What [handleMedicationSubmit] accepts: a submission goes through to
    [addMedication] exactly when the name is not blank, the number of times
    is a positive number, and each of the inputs [time-1] to [time-n] is
    present and filled. It is refused for the name exactly when the name is
    blank; a refusal carries no new state. *)
Theorem submission_is_validated (clk : Clock) (form : MedicationForm) (app : App) :
  (handleMedicationSubmit clk form app = NameMissing <-> blank (form_name form) = true)
  /\ ((exists run, handleMedicationSubmit clk form app = Submitted run) <->
      blank (form_name form) = false
      /\ exists n, form_times form = Some n /\ (0 < n)%Z
                   /\ forall i, (1 <= i <= Z.to_nat n)%nat -> filled form i).
Proof.
  unfold handleMedicationSubmit.
  destruct (String.eqb_spec (trim (form_name form)) "") as [Hname|Hname].
  - apply trim_blank in Hname. split; [tauto|].
    split; [intros (run & H); discriminate | intros [H _]; congruence].
  - assert (Hb : blank (form_name form) = false).
    { destruct (blank (form_name form)) eqn:E; trivial.
      apply trim_blank in E. contradiction. }
    split.
    { rewrite Hb. split; [|discriminate].
      destruct (form_times form) as [n|]; [|discriminate].
      destruct (n =? 0)%Z; [discriminate|].
      destruct (negb _); discriminate. }
    destruct (form_times form) as [n|].
    2: { split; [intros (run & H); discriminate|].
         intros (_ & n & H & _). discriminate. }
    destruct (Z.eqb_spec n 0) as [->|Hnz].
    { split; [intros (run & H); discriminate|].
      intros (_ & n & [= <-] & Hpos & _). lia. }
    pose proof (enteredTimes_filled form n Hnz) as Hfilled.
    destruct (Z.eqb_spec (Z.of_nat (length (enteredTimes form n))) n) as [Hlen|Hlen];
      cbn [negb].
    + split; [intros _|eauto]. split; trivial. exists n. split; trivial.
      now apply Hfilled.
    + split; [intros (run & H); discriminate|].
      intros (_ & n' & [= <-] & Hrest). exfalso. apply Hlen. now apply Hfilled.
Qed.

(** Whatever the time strings are, an arming loop that returned appended one
    timer per time, in order, and changed nothing else. *)
Lemma forEachSchedule_returned now medication ts : forall app app',
  forEachSchedule now medication ts app = Some app' ->
  exists new,
    app' = set_timers (timers app ++ new) app
    /\ List.map pairOf new = List.map (pair medication) ts
    /\ (forall t, In t new -> scheduleTarget (timeZone app) now now (timer_time t) = Some (due t)).
Proof.
  induction ts as [|time rest IH]; intros app app'; cbn [forEachSchedule].
  - intros [= <-]. exists []. rewrite set_timers_same.
    split; trivial. split; trivial. intros ? [].
  - unfold scheduleNotificationForTime.
    destruct (scheduleTarget (timeZone app) now now time) as [target|] eqn:Ht; [|discriminate].
    intros Hrun. apply IH in Hrun. destruct Hrun as (new & -> & Hp & Hd).
    exists ({| timer_medication := medication; timer_time := time; due := target |} :: new).
    split; [|split].
    + cbn [timers set_timers]. rewrite <- List.app_assoc. reflexivity.
    + cbn. now rewrite Hp.
    + intros t [<-|Hin]; [exact Ht | now apply Hd].
Qed.

(** X16. An accepted submission that ends within the model appends exactly
    one medication to the store and saves it: its id and creation time are
    the clock's, its name is the entered name without the white space around
    it, it is active, its times are the entered times in ascending
    lexicographic order, as many as declared and none empty. The log is
    untouched. When the handler completes, the main menu is shown and, if
    notifications are permitted, one timer per time is armed, else none;
    when it throws, some stored time names an inherited property and
    nothing is armed. *)
Theorem submission_adds_one_medication (clk : Clock) (form : MedicationForm)
    (app app' : App) (run : Run) :
  handleMedicationSubmit clk form app = Submitted run ->
  stateOf run = Some app' ->
  exists n m,
    form_times form = Some n
    /\ medications app' = medications app ++ [m]
    /\ med_id m = now_id clk /\ createdAt m = now_iso clk /\ isActive m = true
    /\ name m = trim (form_name form) /\ name m <> EmptyString
    /\ trim (name m) = name m
    /\ dosage m = trim (form_dosage form)
    /\ timesPerDay m = n /\ Z.of_nat (length (times m)) = n
    /\ Permutation (times m) (enteredTimes form n)
    /\ StronglySorted (fun a b => String.compare a b <> Gt) (times m)
    /\ (forall time, In time (times m) -> time <> EmptyString)
    /\ history app' = history app
    /\ localStorage app' !! key_medications = Some (MedicationsBlob (medications app'))
    /\ match run with
       | Completed _ =>
           currentScreen app' = "main-menu"
           /\ exists new,
                timers app' = timers app ++ new
                /\ List.map pairOf new =
                   (if notificationPermission app then List.map (pair m) (times m) else [])
       | _ => timers app' = timers app /\ someInheritedTime app'
       end.
Proof.
  unfold handleMedicationSubmit.
  destruct (String.eqb_spec (trim (form_name form)) "") as [|Hname]; [discriminate|].
  destruct (form_times form) as [n|]; [|discriminate].
  destruct (Z.eqb_spec n 0) as [|Hnz]; [discriminate|].
  destruct (Z.eqb_spec (Z.of_nat (length (enteredTimes form n))) n) as [Hlen|];
    [|discriminate].
  cbn [negb]. intros [= <-] Hstate.
  set (data := {| data_name := form_name form; data_dosage := form_dosage form;
                  data_timesPerDay := n;
                  data_times := sortBy String.compare (enteredTimes form n) |}) in *.
  set (m := newMedication clk data).
  set (app1 := saveData (set_medications (medications app ++ [m]) app)).
  assert (Hperm : Permutation (times m) (enteredTimes form n)) by apply sortBy_perm.
  assert (Hfacts :
    med_id m = now_id clk /\ createdAt m = now_iso clk /\ isActive m = true
    /\ name m = trim (form_name form) /\ name m <> EmptyString
    /\ trim (name m) = name m
    /\ dosage m = trim (form_dosage form)
    /\ timesPerDay m = n /\ Z.of_nat (length (times m)) = n
    /\ Permutation (times m) (enteredTimes form n)
    /\ StronglySorted (fun a b => String.compare a b <> Gt) (times m)
    /\ (forall time, In time (times m) -> time <> EmptyString)).
  { do 3 (split; [reflexivity|]). split; [reflexivity|]. split; [exact Hname|].
    split; [apply trim_again|]. split; [reflexivity|]. split; [reflexivity|].
    split; [now rewrite (Permutation_length Hperm)|]. split; [exact Hperm|].
    split.
    - apply sortBy_sorted; [apply compare_total | apply compare_trans].
    - intros time Hin. apply (Permutation_in _ Hperm) in Hin.
      unfold enteredTimes in Hin. apply in_flat_map in Hin.
      destruct Hin as (i & _ & Hin).
      destruct (form_time form i) as [value|]; [|destruct Hin].
      destruct (String.eqb_spec value ""); [destruct Hin|].
      destruct Hin as [<-|[]]. assumption. }
  assert (Hstored : localStorage app1 !! key_medications
                    = Some (MedicationsBlob (medications app1))).
  { subst app1. cbn -[key_medications key_history key_settings].
    rewrite !lookup_insert_ne by discriminate. apply lookup_insert_eq. }
  destruct Hfacts as (F1 & F2 & F3 & F4 & F5 & F6 & F7 & F8 & F9 & F10 & F11 & F12).
  exists n, m. split; [reflexivity|].
  unfold addMedication in *. fold m in Hstate |- *. fold app1 in Hstate |- *.
  destruct (groupMedicationsByTime app1) as [tg|] eqn:Hg.
  - unfold scheduleNotifications in *.
    change (notificationPermission app1) with (notificationPermission app) in *.
    destruct (notificationPermission app) eqn:Hp; cbn [negb] in *.
    + destruct (forEachSchedule (now_ms clk) m (times m) app1) as [app2|] eqn:Hrun;
        [|discriminate].
      cbn [stateOf] in Hstate. injection Hstate as <-.
      apply forEachSchedule_returned in Hrun. destruct Hrun as (new & -> & Hpairs & _).
      split; [reflexivity|]. do 12 (split; [assumption|]).
      split; [reflexivity|]. split; [exact Hstored|]. split; [reflexivity|].
      exists new. split; [reflexivity | exact Hpairs].
    + cbn [stateOf] in Hstate. injection Hstate as <-.
      split; [reflexivity|]. do 12 (split; [assumption|]).
      split; [reflexivity|]. split; [exact Hstored|]. split; [reflexivity|].
      exists []. split; [symmetry; apply List.app_nil_r | reflexivity].
  - cbn [stateOf] in Hstate. injection Hstate as <-.
    split; [reflexivity|]. do 12 (split; [assumption|]).
    split; [reflexivity|]. split; [exact Hstored|]. split; [reflexivity|].
    destruct (plainTimes (medications app1)) eqn:E.
    + apply plainTimes_noInheritedTime in E.
      destruct (groupMedicationsByTime_spec app1 E) as (tg & Hrun & _). congruence.
    + now apply plainTimes_false.
Qed.

Lemma submission_adds_one_medication_witness :
  handleMedicationSubmit eightThirty aspirinForm (construct ∅ true utc)
  = Submitted submittedRun
  /\ stateOf submittedRun = Some submittedApp
  /\ exists n m,
       form_times aspirinForm = Some n
       /\ medications submittedApp = medications (construct ∅ true utc) ++ [m]
       /\ med_id m = now_id eightThirty /\ createdAt m = now_iso eightThirty
       /\ isActive m = true
       /\ name m = trim (form_name aspirinForm) /\ name m <> EmptyString
       /\ trim (name m) = name m
       /\ dosage m = trim (form_dosage aspirinForm)
       /\ timesPerDay m = n /\ Z.of_nat (length (times m)) = n
       /\ Permutation (times m) (enteredTimes aspirinForm n)
       /\ StronglySorted (fun a b => String.compare a b <> Gt) (times m)
       /\ (forall time, In time (times m) -> time <> EmptyString)
       /\ history submittedApp = history (construct ∅ true utc)
       /\ localStorage submittedApp !! key_medications
          = Some (MedicationsBlob (medications submittedApp))
       /\ match submittedRun with
          | Completed _ =>
              currentScreen submittedApp = "main-menu"
              /\ exists new,
                   timers submittedApp = timers (construct ∅ true utc) ++ new
                   /\ List.map pairOf new =
                      (if notificationPermission (construct ∅ true utc)
                       then List.map (pair m) (times m) else [])
          | _ => timers submittedApp = timers (construct ∅ true utc)
                 /\ someInheritedTime submittedApp
          end.
Proof.
  assert (H1 : handleMedicationSubmit eightThirty aspirinForm (construct ∅ true utc)
               = Submitted submittedRun) by (vm_compute; reflexivity).
  assert (H2 : stateOf submittedRun = Some submittedApp) by (vm_compute; reflexivity).
  split; [exact H1|]. split; [exact H2|].
  exact (submission_adds_one_medication eightThirty aspirinForm (construct ∅ true utc)
           submittedApp submittedRun H1 H2).
Defined.

(** ** Reload *)

Lemma stored_sameData app app' : sameData app app' -> stored app -> stored app'.
Proof.
  intros (Hm & Hh & Hs & Hl). unfold stored. now rewrite Hm, Hh, Hs, Hl.
Qed.

Lemma stored_saveData x : hasDefaults (settings x) -> stored (saveData x).
Proof.
  intros Hd. unfold stored, saveData.
  cbn -[key_medications key_history key_settings].
  split; [left|split; [left|split; [left|exact Hd]]].
  - rewrite !lookup_insert_ne by discriminate. apply lookup_insert_eq.
  - rewrite lookup_insert_ne by discriminate. apply lookup_insert_eq.
  - apply lookup_insert_eq.
Qed.

Lemma stored_hasDefaults app : stored app -> hasDefaults (settings app).
Proof. intros (_ & _ & _ & H). exact H. Qed.

Lemma hasDefaults_insert key value s : hasDefaults s -> hasDefaults (<[key := value]> s).
Proof.
  intros H k Hk. destruct (decide (key = k)) as [->|Hne].
  - rewrite lookup_insert_eq. eauto.
  - rewrite lookup_insert_ne by exact Hne. now apply H.
Qed.

Lemma hasDefaults_spread s imported : hasDefaults s -> hasDefaults (spread s imported).
Proof.
  intros H k Hk. unfold spread. rewrite lookup_union.
  destruct (H k Hk) as (v & ->). destruct (imported !! k); cbn; eauto.
Qed.

(** Settings that have the defaults are not changed by merging them over
    the defaults. *)
Lemma spread_defaults s : hasDefaults s -> spread default_settings s = s.
Proof.
  intros H. unfold spread. apply map_eq. intros k. rewrite lookup_union.
  destruct (s !! k) as [v|] eqn:E.
  - now destruct (default_settings !! k).
  - destruct (default_settings !! k) as [d|] eqn:Ed; trivial.
    destruct (H k) as (v & Hv); [eauto | congruence].
Qed.

(** A reload of a state whose storage agrees with it restores the data. *)
Lemma reload_stored app :
  stored app ->
  exists app',
    reload app = Some app' /\ sameData app app'
    /\ timers app' = [] /\ shown app' = [] /\ notificationPermission app' = false
    /\ confirm_open app' = false.
Proof.
  intros (Hm & Hh & Hs & Hd). unfold reload, loadData.
  cbn [localStorage construct].
  destruct Hm as [Hm | [Hm Hm']], Hh as [Hh | [Hh Hh']], Hs as [Hs | [Hs Hs']];
    rewrite Hm, Hh, Hs; eexists; (split; [reflexivity|]);
    unfold sameData; cbn [medications history settings localStorage timers shown
                          notificationPermission confirm_open
                          set_medications set_history set_settings construct];
    rewrite ?(spread_defaults _ Hd); auto 10.
Qed.

Lemma recordMedicationAction_stored clk medId act time app :
  stored app -> stored (recordMedicationAction clk medId act time app).
Proof.
  intros H. unfold recordMedicationAction.
  destruct (List.find _ (medications app)); trivial.
  apply stored_saveData. cbn. now apply stored_hasDefaults.
Qed.

Lemma forEachResolve_stored clk time ms : forall app,
  stored app -> stored (forEachResolve clk time ms app).
Proof.
  induction ms as [|m rest IH]; intros app H; cbn [forEachResolve]; trivial.
  apply IH. destruct (negb _); trivial. now apply recordMedicationAction_stored.
Qed.

Lemma scheduleNotifications_sameData now medication app app' :
  scheduleNotifications now medication app = Some app' -> sameData app app'.
Proof.
  unfold scheduleNotifications. destruct (negb (notificationPermission app)).
  - intros [= <-]. now repeat split.
  - intros H. apply forEachSchedule_returned in H. destruct H as (new & -> & _).
    now repeat split.
Qed.

Lemma forEachReschedule_sameData now ms : forall app app',
  forEachReschedule now ms app = Some app' -> sameData app app'.
Proof.
  induction ms as [|m rest IH]; intros app app'; cbn [forEachReschedule].
  - intros [= <-]. now repeat split.
  - destruct (scheduleNotifications now m app) as [app1|] eqn:E; [|discriminate].
    intros H. apply IH in H. apply scheduleNotifications_sameData in E.
    destruct E as (E1 & E2 & E3 & E4), H as (H1 & H2 & H3 & H4).
    repeat split; congruence.
Qed.

Lemma fire_sameData i now app app' : fire i now app = Some app' -> sameData app app'.
Proof.
  unfold fire. destruct (timers app !! i) as [t|]; [|discriminate].
  destruct (due t <=? now)%Z; [|discriminate].
  unfold timerCallback, scheduleNotificationForTime.
  rewrite timeZone_showMedicationNotification. cbn [timeZone set_timers].
  destruct (scheduleTarget (timeZone app) now now (timer_time t)); [|discriminate].
  intros [= <-]. unfold showMedicationNotification.
  cbn [notificationPermission set_timers].
  destruct (notificationPermission app); now repeat split.
Qed.

Lemma importData_stored parsed app : stored app -> stored (importData parsed app).
Proof.
  intros H. destruct parsed as [| |data]; trivial. cbn [importData].
  apply stored_saveData. apply stored_hasDefaults in H.
  unfold importSettings.
  destruct (top_truthy (doc_settings data) && typeofObject (doc_settings data));
    cbn [settings set_settings];
    rewrite (proj2 (importHistory_frame _ _)), (proj2 (importMedications_frame _ _));
    trivial.
  now apply hasDefaults_spread.
Qed.

Lemma confirmYes_stored clk app : stored app -> stored (confirmYes clk app).
Proof.
  intros H. unfold confirmYes. destruct (confirm_onclick app) as [cb|]; trivial.
  cbv zeta.
  assert (Hdone : stored (onConfirm clk cb app)).
  { pose proof (stored_hasDefaults _ H) as Hd.
    destruct cb as [medId|medId time|]; cbn [onConfirm].
    - now apply stored_saveData.
    - unfold removeMedicationRecord. now apply stored_saveData.
    - destruct H as (_ & _ & Hs & _). unfold stored.
      cbn -[key_medications key_history key_settings].
      split; [right; split; trivial|split; [right; split; trivial|split; trivial]].
      + rewrite lookup_delete_ne by discriminate. apply lookup_delete_eq.
      + apply lookup_delete_eq.
      + rewrite !lookup_delete_ne by discriminate. exact Hs. }
  destruct (renderThrows (onConfirm clk cb app)); [exact Hdone|].
  apply (stored_sameData (onConfirm clk cb app)); [now repeat split | exact Hdone].
Qed.

Lemma handleMedicationSubmit_stored clk form app app' run :
  stored app ->
  handleMedicationSubmit clk form app = Submitted run ->
  stateOf run = Some app' ->
  stored app'.
Proof.
  intros H. unfold handleMedicationSubmit.
  destruct (trim (form_name form) =? "")%string; [discriminate|].
  destruct (form_times form) as [n|]; [|discriminate].
  destruct (n =? 0)%Z; [discriminate|].
  destruct (negb _); [discriminate|].
  intros [= <-]. unfold addMedication.
  set (x := saveData _).
  assert (Hx : stored x)
    by (apply stored_saveData; cbn; now apply stored_hasDefaults).
  destruct (groupMedicationsByTime x).
  - destruct (scheduleNotifications _ _ x) as [app2|] eqn:E; [|discriminate].
    intros [= <-]. apply scheduleNotifications_sameData in E.
    apply (stored_sameData x); [exact E | exact Hx].
  - now intros [= <-].
Qed.

(** One event keeps storage and state in agreement. *)
Lemma handle_stored e app app' :
  stored app -> handle e app = Some app' -> stored app'.
Proof.
  intros H. destruct e; cbn [handle].
  - intros Hr. destruct (reload_stored app H) as (a & Ha & Hsame & _).
    rewrite Ha in Hr. injection Hr as <-. now apply (stored_sameData app).
  - intros [= <-]. apply (stored_sameData app); [now repeat split | exact H].
  - destruct (handleMedicationSubmit clk form app) as [| | |r] eqn:E;
      try (now intros [= <-]).
    destruct r as [a|a|]; try discriminate; intros [= <-];
      now apply (handleMedicationSubmit_stored clk form app _ _ H E).
  - intros [= <-]. unfold toggleMedicationStatus.
    destruct (isMedicationTakenToday clk medId time app).
    + apply (stored_sameData app); [now repeat split | exact H].
    + now apply recordMedicationAction_stored.
  - intros [= <-]. now apply recordMedicationAction_stored.
  - intros [= <-]. now apply recordMedicationAction_stored.
  - unfold resolveAllForTime. destruct (groupMedicationsByTime app) as [tg|];
      [|now intros [= <-]].
    destruct (getOwn time tg); [|destruct (inherited time)];
      intros [= <-]; trivial; now apply forEachResolve_stored.
  - intros [= <-]. apply (stored_sameData app); [now repeat split | exact H].
  - intros [= <-]. apply (stored_sameData app); [now repeat split | exact H].
  - intros [= <-]. now apply confirmYes_stored.
  - intros [= <-]. apply (stored_sameData app); [now repeat split | exact H].
  - intros [= <-]. now apply importData_stored.
  - intros [= <-]. apply stored_saveData. cbn.
    now apply hasDefaults_insert, stored_hasDefaults.
  - intros [= <-]. apply stored_saveData. cbn.
    now apply hasDefaults_insert, stored_hasDefaults.
  - intros [= <-]. apply stored_saveData. cbn.
    now apply hasDefaults_insert, stored_hasDefaults.
  - intros [= <-]. apply stored_saveData. cbn.
    now apply hasDefaults_insert, stored_hasDefaults.
  - unfold visibilitychange.
    destruct (negb hidden && notificationPermission app); [|now intros [= <-]].
    intros Hr. apply forEachReschedule_sameData in Hr.
    now apply (stored_sameData app).
  - intros Hr. apply fire_sameData in Hr. now apply (stored_sameData app).
Qed.

Lemma run_invariant (allowed : Event -> bool) (I : App -> Prop) :
  (forall e app app',
     allowed e = true -> I app -> handle e app = Some app' -> I app') ->
  forall events app app',
    List.forallb allowed events = true -> I app ->
    run events app = Some app' -> I app'.
Proof.
  intros Hstep. induction events as [|e rest IH]; intros app app' Hall HI; cbn [run].
  - now intros [= <-].
  - cbn [List.forallb] in Hall. apply andb_true_iff in Hall. destruct Hall as [He Hall].
    destruct (handle e app) as [app1|] eqn:E; [|discriminate].
    apply (IH app1 app' Hall). now apply (Hstep e app).
Qed.

(** X1. Nothing but the alerts is lost on a reload. After any sequence of
    events on an application that started with an empty storage, a reload
    succeeds and gives back the same medications, the same history and the
    same settings over the same storage; the pending timers, the shown
    reminders and the permission flag are gone. *)
Theorem reload_restores_the_data (events : list Event) (vibrate : bool)
    (zone : Zone) (app : App) :
  run events (construct ∅ vibrate zone) = Some app ->
  exists app',
    reload app = Some app'
    /\ medications app' = medications app
    /\ history app' = history app
    /\ settings app' = settings app
    /\ localStorage app' = localStorage app
    /\ timers app' = [] /\ shown app' = []
    /\ notificationPermission app' = false.
Proof.
  intros Hrun.
  assert (Hstored : stored app).
  { apply (run_invariant (fun _ => true) stored) with (events := events)
                                                     (app := construct ∅ vibrate zone).
    - intros e a a' _. apply handle_stored.
    - now apply forallb_forall.
    - unfold stored. cbn. repeat split; auto.
    - exact Hrun. }
  destruct (reload_stored app Hstored)
    as (app' & Hr & (Hm & Hh & Hs & Hl) & Ht & Hsh & Hp & _).
  exists app'. auto 10.
Qed.

Lemma reload_restores_the_data_witness :
  run firstDay (construct ∅ true utc) = Some firstDayApp
  /\ exists app',
       reload firstDayApp = Some app'
       /\ medications app' = medications firstDayApp
       /\ history app' = history firstDayApp
       /\ settings app' = settings firstDayApp
       /\ localStorage app' = localStorage firstDayApp
       /\ timers app' = [] /\ shown app' = []
       /\ notificationPermission app' = false.
Proof.
  assert (H : run firstDay (construct ∅ true utc) = Some firstDayApp)
    by (vm_compute; reflexivity).
  split; [exact H|].
  exact (reload_restores_the_data firstDay true utc firstDayApp H).
Defined.

(** ** Without permission *)

Lemma quiet_sameAlerts app app' : sameAlerts app app' -> quiet app -> quiet app'.
Proof. intros (Hp & Ht & Hs). unfold quiet. now rewrite Hp, Ht, Hs. Qed.

Lemma recordMedicationAction_sameAlerts clk medId act time app :
  sameAlerts app (recordMedicationAction clk medId act time app).
Proof.
  unfold recordMedicationAction.
  destruct (List.find _ (medications app)); now repeat split.
Qed.

Lemma forEachResolve_sameAlerts clk time ms : forall app,
  sameAlerts app (forEachResolve clk time ms app).
Proof.
  induction ms as [|m rest IH]; intros app; cbn [forEachResolve].
  - now repeat split.
  - destruct (negb _); [|apply IH].
    destruct (recordMedicationAction_sameAlerts clk (med_id m) "taken" time app)
      as (H1 & H2 & H3).
    destruct (IH (markMedicationTaken clk (med_id m) time app)) as (I1 & I2 & I3).
    unfold markMedicationTaken in *. repeat split; congruence.
Qed.

Lemma importData_sameAlerts parsed app : sameAlerts app (importData parsed app).
Proof.
  destruct parsed as [| |data]; try now repeat split.
  cbn [importData]. unfold importSettings, importHistory, importMedications.
  destruct (top_truthy (doc_settings data) && typeofObject (doc_settings data));
    destruct (top_truthy (doc_history data) && isArray (doc_history data));
    destruct (top_truthy (doc_medications data) && isArray (doc_medications data));
    now repeat split.
Qed.

Lemma confirmYes_sameAlerts clk app : sameAlerts app (confirmYes clk app).
Proof.
  unfold confirmYes. destruct (confirm_onclick app) as [[medId|medId time|]|];
    cbv zeta; try destruct (renderThrows _); now repeat split.
Qed.

Lemma loadData_sameAlerts app app' : loadData app = Some app' -> sameAlerts app app'.
Proof.
  unfold loadData.
  destruct (localStorage app !! key_medications) as [[]|];
    destruct (localStorage app !! key_history) as [[]|];
    destruct (localStorage app !! key_settings) as [[]|];
    try discriminate; intros [= <-]; now repeat split.
Qed.

Lemma handleMedicationSubmit_quiet clk form app app' run :
  quiet app ->
  handleMedicationSubmit clk form app = Submitted run ->
  stateOf run = Some app' ->
  quiet app'.
Proof.
  intros (Hp & Ht & Hs). unfold handleMedicationSubmit.
  destruct (trim (form_name form) =? "")%string; [discriminate|].
  destruct (form_times form) as [n|]; [|discriminate].
  destruct (n =? 0)%Z; [discriminate|].
  destruct (negb _); [discriminate|].
  intros [= <-]. unfold addMedication, scheduleNotifications.
  cbn [notificationPermission saveData set_localStorage set_medications].
  rewrite Hp. cbn [negb].
  destruct (groupMedicationsByTime _); intros [= <-]; now repeat split.
Qed.

(** One event that does not grant the permission keeps the application
    quiet. *)
Lemma handle_quiet e app app' :
  negb (grants e) = true -> quiet app -> handle e app = Some app' -> quiet app'.
Proof.
  intros Hg H. destruct e; cbn [handle].
  - unfold reload. intros Hr. apply loadData_sameAlerts in Hr.
    apply (quiet_sameAlerts _ _ Hr). now repeat split.
  - intros [= <-]. cbn [grants] in Hg. apply negb_true_iff in Hg.
    destruct H as (_ & Ht & Hs). now repeat split.
  - destruct (handleMedicationSubmit clk form app) as [| | |r] eqn:E;
      try (now intros [= <-]).
    destruct r as [a|a|]; try discriminate; intros [= <-];
      now apply (handleMedicationSubmit_quiet clk form app _ _ H E).
  - intros [= <-]. unfold toggleMedicationStatus.
    destruct (isMedicationTakenToday clk medId time app).
    + apply (quiet_sameAlerts app); [now repeat split | exact H].
    + exact (quiet_sameAlerts _ _ (recordMedicationAction_sameAlerts _ _ _ _ _) H).
  - intros [= <-].
    exact (quiet_sameAlerts _ _ (recordMedicationAction_sameAlerts _ _ _ _ _) H).
  - intros [= <-].
    exact (quiet_sameAlerts _ _ (recordMedicationAction_sameAlerts _ _ _ _ _) H).
  - unfold resolveAllForTime. destruct (groupMedicationsByTime app) as [tg|];
      [|now intros [= <-]].
    destruct (getOwn time tg); [|destruct (inherited time)];
      intros [= <-]; trivial;
      exact (quiet_sameAlerts _ _ (forEachResolve_sameAlerts _ _ _ _) H).
  - intros [= <-]. apply (quiet_sameAlerts app); [now repeat split | exact H].
  - intros [= <-]. apply (quiet_sameAlerts app); [now repeat split | exact H].
  - intros [= <-]. exact (quiet_sameAlerts _ _ (confirmYes_sameAlerts _ _) H).
  - intros [= <-]. apply (quiet_sameAlerts app); [now repeat split | exact H].
  - intros [= <-]. exact (quiet_sameAlerts _ _ (importData_sameAlerts _ _) H).
  - intros [= <-]. apply (quiet_sameAlerts app); [now repeat split | exact H].
  - intros [= <-]. apply (quiet_sameAlerts app); [now repeat split | exact H].
  - intros [= <-]. apply (quiet_sameAlerts app); [now repeat split | exact H].
  - intros [= <-]. apply (quiet_sameAlerts app); [now repeat split | exact H].
  - unfold visibilitychange. destruct H as (Hp & Ht & Hs). rewrite Hp, andb_false_r.
    intros [= <-]. now repeat split.
  - unfold fire. destruct H as (Hp & Ht & Hs). rewrite Ht. discriminate.
Qed.

(** X2. Without the permission nothing is ever armed or shown. In every
    sequence of events in which no answer grants the notification
    permission, whatever the storage at the start, no timer is pending and
    no reminder has been shown at the end; in particular adding medications
    and resuming the page arm nothing. *)
Theorem no_permission_no_reminder (events : list Event)
    (storage : gmap string Blob) (vibrate : bool) (zone : Zone) (app : App) :
  List.forallb (fun e => negb (grants e)) events = true ->
  run events (construct storage vibrate zone) = Some app ->
  notificationPermission app = false /\ timers app = [] /\ shown app = [].
Proof.
  intros Hall Hrun.
  apply (run_invariant (fun e => negb (grants e)) quiet) with (events := events)
                                                   (app := construct storage vibrate zone).
  - intros e a a'. apply handle_quiet.
  - exact Hall.
  - now repeat split.
  - exact Hrun.
Qed.

Lemma no_permission_no_reminder_witness :
  List.forallb (fun e => negb (grants e)) firstDay = true
  /\ run firstDay (construct ∅ true utc) = Some firstDayApp
  /\ notificationPermission firstDayApp = false
  /\ timers firstDayApp = [] /\ shown firstDayApp = [].
Proof.
  assert (H : run firstDay (construct ∅ true utc) = Some firstDayApp)
    by (vm_compute; reflexivity).
  split; [reflexivity|]. split; [exact H|].
  exact (no_permission_no_reminder firstDay ∅ true utc firstDayApp eq_refl H).
Defined.

(** ** Export and import *)

Lemma renderTodaysSchedule_data localeCompare clk app app' :
  medications app' = medications app -> history app' = history app ->
  renderTodaysSchedule localeCompare clk app'
  = renderTodaysSchedule localeCompare clk app.
Proof.
  intros Hm Hh. unfold renderTodaysSchedule, groupMedicationsByTime. rewrite Hm.
  destruct (length (medications app) =? 0)%nat; trivial.
  destruct (forEachMedication (medications app) []) as [tg|]; trivial.
  destruct (length (Object_keys tg) =? 0)%nat; trivial.
  do 2 f_equal. apply List.map_ext. intros [time meds]. unfold renderBlock.
  f_equal. apply List.map_ext. intros m. unfold isMedicationTakenToday.
  now rewrite Hh.
Qed.

(** X17. Importing an export. The file that [exportData] writes, read back
    and imported into any application, replaces its medications and its
    history by the exported ones and merges the exported settings over its
    own; the schedule and what every slot reads are then those of the
    exporting application. Imported into the exporting application itself,
    it changes neither medications, history nor settings. *)
Theorem export_then_import (clk : Clock) (app target : App) :
  let imported := importData (readBack (exportData clk app)) target in
  medications imported = medications app
  /\ history imported = history app
  /\ settings imported = settings app ∪ settings target
  /\ (forall key value, settings app !! key = Some value ->
        settings imported !! key = Some value)
  /\ groupMedicationsByTime imported = groupMedicationsByTime app
  /\ (forall clk' medId time,
        isMedicationTakenToday clk' medId time imported
        = isMedicationTakenToday clk' medId time app)
  /\ (forall localeCompare clk',
        renderTodaysSchedule localeCompare clk' imported
        = renderTodaysSchedule localeCompare clk' app)
  /\ settings (importData (readBack (exportData clk app)) app) = settings app.
Proof.
  intros imported.
  assert (Hm : medications imported = medications app) by reflexivity.
  assert (Hh : history imported = history app) by reflexivity.
  assert (Hs : settings imported = settings app ∪ settings target) by reflexivity.
  split; [exact Hm|]. split; [exact Hh|]. split; [exact Hs|]. split; [|split; [|split; [|split]]].
  - intros key value Hk. rewrite Hs, lookup_union, Hk.
    now destruct (settings target !! key).
  - now apply groupMedicationsByTime_medications.
  - intros clk' medId time. unfold isMedicationTakenToday. now rewrite Hh.
  - intros lc clk'. now apply renderTodaysSchedule_data.
  - change (settings (importData (readBack (exportData clk app)) app))
      with (settings app ∪ settings app).
    apply map_eq. intros key. rewrite lookup_union.
    now destruct (settings app !! key).
Qed.

(** ** Settings and the reminders *)

(** X18. The sound and vibration switches decide how the next reminder is
    shown. After the sound switch is set, the stored settings hold the
    choice and a due timer of a well-formed time, with notifications
    permitted, shows exactly one reminder, which plays the sound exactly
    when the switch is on; after the vibration switch is set, it vibrates
    exactly when the switch is on and the host supports vibration. *)
Theorem switches_govern_the_reminder (checked : bool) (i : nat) (now : Z)
    (t : Timer) (app : App) :
  timers app !! i = Some t ->
  (due t <= now)%Z ->
  wellFormedTime (timer_time t) = true ->
  notificationPermission app = true ->
  (exists app' r,
     fire i now (soundEnabledChange checked app) = Some app'
     /\ shown app' = shown app ++ [r]
     /\ reminder_medication r = timer_medication t
     /\ reminder_time r = timer_time t
     /\ sound r = checked
     /\ localStorage (soundEnabledChange checked app) !! key_settings
        = Some (SettingsBlob (<["soundEnabled" := JBool checked]> (settings app))))
  /\ (exists app' r,
        fire i now (vibrationEnabledChange checked app) = Some app'
        /\ shown app' = shown app ++ [r]
        /\ vibration r = checked && vibrateSupported app
        /\ sound r = settingEnabled "soundEnabled" app).
Proof.
  intros Hi Hdue Hwf Hperm.
  destruct (wellFormedTime_target (timeZone app) now (timer_time t) Hwf) as (target & Ht).
  split.
  - destruct (fire_result i now t (soundEnabledChange checked app) target Hi Hdue Ht)
      as (app' & Hrun & Hshown & _).
    cbn [notificationPermission soundEnabledChange setSetting saveData
         set_localStorage set_settings shown] in Hshown.
    rewrite Hperm in Hshown.
    exists app', (reminderOf now t (soundEnabledChange checked app)).
    split; [exact Hrun|]. split; [exact Hshown|].
    split; [reflexivity|]. split; [reflexivity|]. split.
    + cbn. unfold settingEnabled. cbn. rewrite lookup_insert_eq. reflexivity.
    + cbn -[key_medications key_history key_settings]. apply lookup_insert_eq.
  - destruct (fire_result i now t (vibrationEnabledChange checked app) target Hi Hdue Ht)
      as (app' & Hrun & Hshown & _).
    cbn [notificationPermission vibrationEnabledChange setSetting saveData
         set_localStorage set_settings shown] in Hshown.
    rewrite Hperm in Hshown.
    exists app', (reminderOf now t (vibrationEnabledChange checked app)).
    split; [exact Hrun|]. split; [exact Hshown|]. split.
    + cbn. unfold settingEnabled. cbn. rewrite lookup_insert_eq. reflexivity.
    + cbn. unfold settingEnabled. cbn. rewrite lookup_insert_ne by discriminate.
      reflexivity.
Qed.

Lemma switches_govern_the_reminder_witness :
  timers armedApp !! 0%nat = Some eightTimer
  /\ (due eightTimer <= clockAt 8 0)%Z
  /\ wellFormedTime (timer_time eightTimer) = true
  /\ notificationPermission armedApp = true
  /\ (exists app' r,
        fire 0 (clockAt 8 0) (soundEnabledChange false armedApp) = Some app'
        /\ shown app' = shown armedApp ++ [r]
        /\ reminder_medication r = timer_medication eightTimer
        /\ reminder_time r = timer_time eightTimer
        /\ sound r = false
        /\ localStorage (soundEnabledChange false armedApp) !! key_settings
           = Some (SettingsBlob (<["soundEnabled" := JBool false]> (settings armedApp))))
  /\ (exists app' r,
        fire 0 (clockAt 8 0) (vibrationEnabledChange false armedApp) = Some app'
        /\ shown app' = shown armedApp ++ [r]
        /\ vibration r = false && vibrateSupported armedApp
        /\ sound r = settingEnabled "soundEnabled" armedApp).
Proof.
  split; [reflexivity|]. split; [vm_compute; discriminate|].
  split; [reflexivity|]. split; [reflexivity|].
  apply (switches_govern_the_reminder false 0 (clockAt 8 0) eightTimer armedApp).
  - reflexivity.
  - vm_compute. discriminate.
  - reflexivity.
  - reflexivity.
Defined.

Ltac class_membership :=
  repeat first [ rewrite elem_of_union | rewrite elem_of_difference
               | rewrite elem_of_singleton ];
  intuition congruence.

(** X19. The classes that [applySettings] leaves on the body: high-contrast
    exactly when that setting is on, text-large exactly when the text size
    is "large", text-extra-large exactly when it is "extra-large", never
    both, whatever classes were there before; every other class is kept,
    and applying the settings again changes nothing. After the contrast
    switch or the size selector is changed, the class follows the new
    value. *)
Theorem applySettings_classes (app : App) (classList : gset string) :
  ("high-contrast" ∈ applySettings app classList
   <-> settingEnabled "highContrast" app = true)
  /\ ("text-large" ∈ applySettings app classList <-> textSizeIs "large" app = true)
  /\ ("text-extra-large" ∈ applySettings app classList
      <-> textSizeIs "extra-large" app = true)
  /\ ~ ("text-large" ∈ applySettings app classList
        /\ "text-extra-large" ∈ applySettings app classList)
  /\ (forall class, class <> "high-contrast" -> class <> "text-large" ->
        class <> "text-extra-large" ->
        (class ∈ applySettings app classList <-> class ∈ classList))
  /\ applySettings app (applySettings app classList) = applySettings app classList
  /\ (forall checked,
        "high-contrast" ∈ applySettings (highContrastChange checked app) classList
        <-> checked = true)
  /\ (forall value,
        "text-large" ∈ applySettings (textSizeChange value app) classList
        <-> value = "large").
Proof.
  assert (Hexcl : textSizeIs "large" app = true -> textSizeIs "extra-large" app = true
                  -> False).
  { unfold textSizeIs. destruct (settings app !! "textSize") as [[]|]; try discriminate.
    rewrite !String.eqb_eq. congruence. }
  assert (Hne1 : "high-contrast" <> "text-large") by discriminate.
  assert (Hne2 : "high-contrast" <> "text-extra-large") by discriminate.
  assert (Hne3 : "text-large" <> "text-extra-large") by discriminate.
  assert (Hgen : forall a : App,
            ("high-contrast" ∈ applySettings a classList
             <-> settingEnabled "highContrast" a = true)
            /\ ("text-large" ∈ applySettings a classList <-> textSizeIs "large" a = true)).
  { intros a. unfold applySettings.
    destruct (settingEnabled "highContrast" a), (textSizeIs "large" a),
             (textSizeIs "extra-large" a);
      class_membership. }
  split; [apply Hgen|]. split; [apply Hgen|].
  split; [|split; [|split; [|split; [|split]]]].
  - unfold applySettings.
    destruct (settingEnabled "highContrast" app), (textSizeIs "large" app) eqn:El,
             (textSizeIs "extra-large" app) eqn:Ex;
      try (exfalso; now apply Hexcl);
      class_membership.
  - intros [Ha Hb]. apply Hgen in Ha. revert Hb. unfold applySettings. rewrite Ha.
    class_membership.
  - intros class H1 H2 H3. unfold applySettings.
    destruct (settingEnabled "highContrast" app), (textSizeIs "large" app),
             (textSizeIs "extra-large" app);
      class_membership.
  - apply set_eq. intros class. unfold applySettings.
    destruct (settingEnabled "highContrast" app), (textSizeIs "large" app),
             (textSizeIs "extra-large" app);
      class_membership.
  - intros checked. destruct (Hgen (highContrastChange checked app)) as [-> _].
    unfold settingEnabled, highContrastChange, setSetting. cbn.
    rewrite lookup_insert_eq. cbn. reflexivity.
  - intros value. destruct (Hgen (textSizeChange value app)) as [_ ->].
    unfold textSizeIs, textSizeChange, setSetting. cbn.
    rewrite lookup_insert_eq. apply String.eqb_eq.
Qed.

(** ** Timers keep their time of day *)

(** X23. On a host whose zone keeps its offset from a day before [now] to
    two days after it, and away from the ends of the range of dates, the
    arm step for a well-formed time sets one timer for the next instant
    after [now] at which the local clock reads that time: it is after
    [now] and at most a day away, the local clock then reads the hour and
    minute that the digits of the time name, on the local day of [now] when
    that time of day is still ahead and on the next day when it has been
    reached, and the clock reads the time at no instant in between. The two
    clock reads of the source may lie up to a minute apart. *)
Theorem arm_step_next_occurrence (now base offset : Z) (medication : Medication)
    (time : string) (app : App) :
  wellFormedTime time = true ->
  (now <= base < now + msPerMinute)%Z ->
  steady (timeZone app) offset (now - msPerDay) (now + 2 * msPerDay) ->
  (Z.abs now <= maxTime - 2 * msPerDay)%Z ->
  exists target,
    scheduleNotificationForTime now base medication time app
    = Some (set_timers
              (timers app ++
                 [{| timer_medication := medication; timer_time := time;
                     due := target |}])
              app)
    /\ (now < target <= now + 86400000)%Z
    /\ localClock (timeZone app) target = wallClock time
    /\ localDay (timeZone app) target
       = (localDay (timeZone app) now
          + (if (wallClock time <=? localClock (timeZone app) now)%Z then 1 else 0))%Z
    /\ (forall t, (now < t < target)%Z ->
          localClock (timeZone app) t <> wallClock time).
Proof.
  intros Hwf Hreads Hsteady Hrange.
  change 86400000%Z with msPerDay.
  change (localClock (timeZone app) now)
    with (TimeWithinDay (LocalTime (timeZone app) now)).
  change (localDay (timeZone app) now) with (Day (LocalTime (timeZone app) now)).
  enough (exists target,
    scheduleNotificationForTime now base medication time app
    = Some (set_timers
              (timers app ++
                 [{| timer_medication := medication; timer_time := time;
                     due := target |}])
              app)
    /\ (now < target <= now + msPerDay)%Z
    /\ TimeWithinDay (LocalTime (timeZone app) target) = wallClock time
    /\ Day (LocalTime (timeZone app) target)
       = (Day (LocalTime (timeZone app) now)
          + (if (wallClock time <=? TimeWithinDay (LocalTime (timeZone app) now))%Z
             then 1 else 0))%Z
    /\ (forall t, (now < t < target)%Z ->
          TimeWithinDay (LocalTime (timeZone app) t) <> wallClock time))
    as (target & H) by (exists target; exact H).
  pose proof (scheduleTarget_steady (timeZone app) offset now base time
                Hwf Hreads Hsteady Hrange) as Ht.
  destruct (wallClock_range time Hwf) as [Htod _].
  destruct (Hsteady now) as [Hnow _]; [unfold msPerDay; lia|].
  rewrite Hnow.
  destruct (Day_TimeWithinDay (now + offset)) as [Hsum Hr].
  set (tod := wallClock time) in *.
  set (d := Day (now + offset)) in *. set (r := TimeWithinDay (now + offset)) in *.
  set (next := (if (tod <=? r)%Z then 1 else 0)%Z) in *.
  assert (Hnext : (next = 1 /\ tod <= r)%Z \/ (next = 0 /\ r < tod)%Z)
    by (subst next; destruct (Z.leb_spec tod r); [left | right]; split; trivial).
  clearbody next.
  set (target := ((d + next) * msPerDay + tod - offset)%Z) in *.
  exists target. split; [now apply scheduleNotificationForTime_some|].
  assert (Hbounds : (now < target <= now + msPerDay)%Z)
    by (subst target; unfold msPerDay in *; lia).
  destruct (Hsteady target) as [Htarget _]; [unfold msPerDay in *; lia|].
  destruct (Day_of_sum (d + next) tod Htod) as [Hday Hwithin].
  replace (target + offset)%Z with ((d + next) * msPerDay + tod)%Z in Htarget
    by (subst target; lia).
  split; [exact Hbounds|]. rewrite Htarget.
  split; [exact Hwithin|]. split; [exact Hday|].
  intros t Hbetween Hclock.
  destruct (Hsteady t) as [Hlocal _]; [unfold msPerDay in *; lia|].
  rewrite Hlocal in Hclock.
  destruct (Day_TimeWithinDay (t + offset)) as [Hsumt _]. rewrite Hclock in Hsumt.
  subst target. unfold msPerDay in *. lia.
Qed.

Lemma arm_step_next_occurrence_witness :
  wellFormedTime "08:00" = true
  /\ (tuesdayNine <= tuesdayNine < tuesdayNine + msPerMinute)%Z
  /\ steady (timeZone newYorkArmed) (-4 * msPerHour)
       (tuesdayNine - msPerDay) (tuesdayNine + 2 * msPerDay)
  /\ (Z.abs tuesdayNine <= maxTime - 2 * msPerDay)%Z
  /\ exists target,
       scheduleNotificationForTime tuesdayNine tuesdayNine aspirin "08:00" newYorkArmed
       = Some (set_timers
                 (timers newYorkArmed ++
                    [{| timer_medication := aspirin; timer_time := "08:00";
                        due := target |}])
                 newYorkArmed)
       /\ (tuesdayNine < target <= tuesdayNine + 86400000)%Z
       /\ localClock (timeZone newYorkArmed) target = wallClock "08:00"
       /\ localDay (timeZone newYorkArmed) target
          = (localDay (timeZone newYorkArmed) tuesdayNine
             + (if (wallClock "08:00" <=? localClock (timeZone newYorkArmed) tuesdayNine)%Z
                then 1 else 0))%Z
       /\ (forall t, (tuesdayNine < t < target)%Z ->
             localClock (timeZone newYorkArmed) t <> wallClock "08:00").
Proof.
  assert (Hsteady : steady (timeZone newYorkArmed) (-4 * msPerHour)
                      (tuesdayNine - msPerDay) (tuesdayNine + 2 * msPerDay))
    by (apply steady_oneShift; vm_compute; discriminate).
  split; [reflexivity|]. split; [vm_compute; split; [discriminate | reflexivity]|].
  split; [exact Hsteady|]. split; [vm_compute; discriminate|].
  apply (arm_step_next_occurrence tuesdayNine tuesdayNine (-4 * msPerHour) aspirin
           "08:00" newYorkArmed).
  - reflexivity.
  - vm_compute. split; [discriminate | reflexivity].
  - exact Hsteady.
  - vm_compute. discriminate.
Defined.

(** X20. A timer keeps its time of day and does not drift. On a host whose
    zone keeps its offset from a day before [now] to two days after it,
    when a timer of a well-formed time that is due at an instant at which
    the local clock reads that time runs late by less than a day, the timer
    that replaces it is due exactly one day after it, and the local clock
    then reads the same time again, on the next local day. *)
Theorem timers_do_not_drift (i : nat) (now offset : Z) (t : Timer) (app : App) :
  timers app !! i = Some t ->
  wellFormedTime (timer_time t) = true ->
  localClock (timeZone app) (due t) = wallClock (timer_time t) ->
  (due t <= now < due t + 86400000)%Z ->
  steady (timeZone app) offset (now - msPerDay) (now + 2 * msPerDay) ->
  (Z.abs now <= maxTime - 2 * msPerDay)%Z ->
  exists app',
    fire i now app = Some app'
    /\ timers app' =
       delete i (timers app) ++
         [{| timer_medication := timer_medication t; timer_time := timer_time t;
             due := (due t + 86400000)%Z |}]
    /\ localClock (timeZone app) (due t + 86400000) = wallClock (timer_time t)
    /\ localDay (timeZone app) (due t + 86400000)
       = (localDay (timeZone app) (due t) + 1)%Z.
Proof.
  intros Hi Hwf Hclock Hlate Hsteady Hrange.
  change 86400000%Z with msPerDay in *.
  change (localClock (timeZone app) (due t))
    with (TimeWithinDay (LocalTime (timeZone app) (due t))) in Hclock.
  change (localClock (timeZone app) (due t + msPerDay))
    with (TimeWithinDay (LocalTime (timeZone app) (due t + msPerDay))).
  change (localDay (timeZone app) (due t + msPerDay))
    with (Day (LocalTime (timeZone app) (due t + msPerDay))).
  change (localDay (timeZone app) (due t)) with (Day (LocalTime (timeZone app) (due t))).
  assert (Hreads : (now <= now < now + msPerMinute)%Z) by (unfold msPerMinute; lia).
  pose proof (scheduleTarget_steady (timeZone app) offset now now (timer_time t)
                Hwf Hreads Hsteady Hrange) as Ht.
  destruct (wallClock_range (timer_time t) Hwf) as [Htod _].
  destruct (Hsteady (due t)) as [Hdue _]; [unfold msPerDay in *; lia|].
  destruct (Hsteady (due t + msPerDay)%Z) as [Hnext _]; [unfold msPerDay in *; lia|].
  rewrite Hdue in Hclock. rewrite Hdue, Hnext.
  destruct (Day_TimeWithinDay (due t + offset)) as [Hsum _]. rewrite Hclock in Hsum.
  destruct (Day_TimeWithinDay (now + offset)) as [Hsumn Hr].
  set (tod := wallClock (timer_time t)) in *.
  set (k := Day (due t + offset)) in *.
  set (d := Day (now + offset)) in *. set (r := TimeWithinDay (now + offset)) in *.
  assert (Htarget : scheduleTarget (timeZone app) now now (timer_time t)
                    = Some (due t + msPerDay)%Z).
  { rewrite Ht. f_equal.
    destruct (Z.leb_spec tod r); unfold msPerDay in *; lia. }
  destruct (fire_result i now t app (due t + msPerDay)%Z Hi (proj1 Hlate) Htarget)
    as (app' & Hrun & _ & Htimers & _).
  exists app'. split; [exact Hrun|]. split; [exact Htimers|].
  replace (due t + msPerDay + offset)%Z with ((k + 1) * msPerDay + tod)%Z by lia.
  destruct (Day_of_sum (k + 1) tod Htod) as [Hday Hwithin].
  split; [exact Hwithin | exact Hday].
Qed.

Lemma timers_do_not_drift_witness :
  timers newYorkArmed !! 0%nat = Some morningTimer
  /\ wellFormedTime (timer_time morningTimer) = true
  /\ localClock (timeZone newYorkArmed) (due morningTimer)
     = wallClock (timer_time morningTimer)
  /\ (due morningTimer <= tuesdayNine < due morningTimer + 86400000)%Z
  /\ steady (timeZone newYorkArmed) (-4 * msPerHour)
       (tuesdayNine - msPerDay) (tuesdayNine + 2 * msPerDay)
  /\ (Z.abs tuesdayNine <= maxTime - 2 * msPerDay)%Z
  /\ exists app',
       fire 0 tuesdayNine newYorkArmed = Some app'
       /\ timers app' =
          delete 0%nat (timers newYorkArmed) ++
            [{| timer_medication := timer_medication morningTimer;
                timer_time := timer_time morningTimer;
                due := (due morningTimer + 86400000)%Z |}]
       /\ localClock (timeZone newYorkArmed) (due morningTimer + 86400000)
          = wallClock (timer_time morningTimer)
       /\ localDay (timeZone newYorkArmed) (due morningTimer + 86400000)
          = (localDay (timeZone newYorkArmed) (due morningTimer) + 1)%Z.
Proof.
  assert (Hsteady : steady (timeZone newYorkArmed) (-4 * msPerHour)
                      (tuesdayNine - msPerDay) (tuesdayNine + 2 * msPerDay))
    by (apply steady_oneShift; vm_compute; discriminate).
  split; [reflexivity|]. split; [reflexivity|]. split; [reflexivity|].
  split; [vm_compute; split; [discriminate | reflexivity]|].
  split; [exact Hsteady|]. split; [vm_compute; discriminate|].
  apply (timers_do_not_drift 0 tuesdayNine (-4 * msPerHour) morningTimer newYorkArmed).
  - reflexivity.
  - reflexivity.
  - reflexivity.
  - vm_compute. split; [discriminate | reflexivity].
  - exact Hsteady.
  - vm_compute. discriminate.
Defined.

(** ** The generated form *)

Lemma defaultTime_wellFormed i : wellFormedTime (defaultTime i) = true.
Proof.
  unfold defaultTime.
  destruct i as [|[|[|[|i]]]]; try reflexivity.
  cbn [nth defaultTimes]. now destruct i.
Qed.

Lemma defaultTime_beyond i : (4 <= i)%nat -> defaultTime i = "08:00".
Proof.
  intros H. unfold defaultTime. apply nth_overflow. cbn. lia.
Qed.

Lemma enteredTimes_generated formName formDosage count : forall start total,
  (1 <= start)%nat -> (start + count = S total)%nat ->
  flat_map
    (fun i =>
       match form_time (generatedForm formName formDosage total) i with
       | Some value => if (value =? "")%string then [] else [value]
       | None => []
       end)
    (seq start count)
  = List.map defaultTime (seq (start - 1) count).
Proof.
  induction count as [|count IH]; intros start total Hs Ht; cbn [seq flat_map List.map].
  - reflexivity.
  - rewrite (IH (S start) total) by lia.
    replace (S start - 1)%nat with (S (start - 1)) by lia.
    cbn [form_time generatedForm].
    replace (1 <=? start)%nat with true by (symmetry; apply Nat.leb_le; lia).
    replace (start <=? total)%nat with true by (symmetry; apply Nat.leb_le; lia).
    cbn [andb].
    destruct (String.eqb_spec (defaultTime (start - 1)) "") as [E|_]; [|reflexivity].
    pose proof (defaultTime_wellFormed (start - 1)) as Hwf. rewrite E in Hwf.
    discriminate.
Qed.

(** X21. The form that [generateTimeSlots] prepares can be submitted as it
    is. For every count of at least one and a name that is not blank, on a
    store without inherited times, the submission completes and stores a
    medication whose times are the defaults of the inputs in ascending
    order, all well-formed; from the fifth input on the default is 08:00
    again, so that for more than four times the medication lists 08:00 more
    than once. *)
Theorem generated_form_is_accepted (clk : Clock) (formName formDosage : string)
    (count : nat) (app : App) :
  blank formName = false ->
  (1 <= count)%nat ->
  plainTimes (medications app) = true ->
  exists app' m,
    handleMedicationSubmit clk (generatedForm formName formDosage count) app
    = Submitted (Completed app')
    /\ medications app' = medications app ++ [m]
    /\ times m = sortBy String.compare (List.map defaultTime (seq 0 count))
    /\ (forall time, In time (times m) -> wellFormedTime time = true)
    /\ ((5 <= count)%nat -> (2 <= count_occ string_dec (times m) "08:00")%nat).
Proof.
  intros Hname Hcount Hplain.
  assert (Hentered : enteredTimes (generatedForm formName formDosage count)
                       (Z.of_nat count)
                     = List.map defaultTime (seq 0 count)).
  { unfold enteredTimes. rewrite Nat2Z.id.
    now rewrite (enteredTimes_generated formName formDosage count 1 count) by lia. }
  set (ts := sortBy String.compare (List.map defaultTime (seq 0 count))).
  assert (Hperm : Permutation ts (List.map defaultTime (seq 0 count)))
    by apply sortBy_perm.
  assert (Hwf : forall time, In time ts -> wellFormedTime time = true).
  { intros time Hin. apply (Permutation_in _ Hperm) in Hin.
    apply in_map_iff in Hin. destruct Hin as (i & <- & _).
    apply defaultTime_wellFormed. }
  unfold handleMedicationSubmit. cbn [form_name form_times form_dosage generatedForm].
  destruct (String.eqb_spec (trim formName) "") as [E|_].
  { apply trim_blank in E. congruence. }
  destruct (Z.eqb_spec (Z.of_nat count) 0) as [E|_]; [lia|].
  change {| form_name := formName; form_dosage := formDosage;
            form_times := Some (Z.of_nat count);
            form_time := fun i =>
              if (1 <=? i)%nat && (i <=? count)%nat
              then Some (defaultTime (i - 1)) else None |}
    with (generatedForm formName formDosage count).
  rewrite Hentered. fold ts.
  rewrite List.length_map, List.length_seq, Z.eqb_refl. cbn [negb].
  unfold addMedication.
  set (data := {| data_name := formName; data_dosage := formDosage;
                  data_timesPerDay := Z.of_nat count; data_times := ts |}).
  set (m := newMedication clk data).
  set (app1 := saveData (set_medications (medications app ++ [m]) app)).
  assert (Hplain1 : noInheritedTime (medications app1)).
  { intros x t Hx Ht. change (medications app1) with (medications app ++ [m]) in Hx.
    apply in_app_or in Hx. destruct Hx as [Hx | [<- | []]].
    - now apply (plainTimes_noInheritedTime _ Hplain x).
    - apply wellFormedTime_plain. now apply Hwf. }
  destruct (groupMedicationsByTime_spec app1 Hplain1) as (tg & Hg & _).
  rewrite Hg.
  assert (Hsched : exists app2,
            scheduleNotifications (now_ms clk) m app1 = Some app2
            /\ medications app2 = medications app1).
  { unfold scheduleNotifications. destruct (negb (notificationPermission app1)).
    - now exists app1.
    - destruct (forEachSchedule_spec (now_ms clk) m (times m) app1 Hwf)
        as (new & Hrun & _).
      rewrite Hrun. eexists. split; reflexivity. }
  destruct Hsched as (app2 & -> & Hm2).
  exists (showScreen "main-menu" app2), m.
  split; [reflexivity|]. split; [exact Hm2|]. split; [reflexivity|].
  split; [exact Hwf|].
  intros Hfive. change (times m) with ts.
  rewrite (Permutation_count_occ string_dec) in Hperm. rewrite Hperm.
  assert (Hseq : seq 0 count = [0; 1; 2; 3; 4]%nat ++ seq 5 (count - 5)).
  { replace count with (5 + (count - 5))%nat at 1 by lia.
    now rewrite List.seq_app. }
  rewrite Hseq, List.map_app, count_occ_app.
  cbn [List.map count_occ]. 
  destruct (string_dec (defaultTime 0) "08:00") as [_|E]; [|now elim E].
  destruct (string_dec (defaultTime 4) "08:00") as [_|E]; [|now elim E].
  repeat match goal with |- context [string_dec ?a ?b] => destruct (string_dec a b) end;
    lia.
Qed.

Lemma generated_form_is_accepted_witness :
  blank " Aspirin " = false
  /\ (1 <= 5)%nat
  /\ plainTimes (medications aspirinStore) = true
  /\ exists app' m,
       handleMedicationSubmit nine (generatedForm " Aspirin " "81mg" 5) aspirinStore
       = Submitted (Completed app')
       /\ medications app' = medications aspirinStore ++ [m]
       /\ times m = sortBy String.compare (List.map defaultTime (seq 0 5))
       /\ (forall time, In time (times m) -> wellFormedTime time = true)
       /\ ((5 <= 5)%nat -> (2 <= count_occ string_dec (times m) "08:00")%nat).
Proof.
  split; [reflexivity|]. split; [lia|]. split; [reflexivity|].
  apply (generated_form_is_accepted nine " Aspirin " "81mg" 5 aspirinStore);
    [reflexivity | lia | reflexivity].
Defined.

(** ** Importing twice *)

Lemma spread_again (a b : gmap string JSValue) :
  spread (spread a b) b = spread a b.
Proof.
  unfold spread. apply map_eq. intros key.
  rewrite !lookup_union. now destruct (b !! key), (a !! key).
Qed.

Lemma setItem_again (ls : gmap string Blob) (k1 k2 k3 : string) (b1 b2 b3 : Blob) :
  <[k3 := b3]> (<[k2 := b2]> (<[k1 := b1]>
    (<[k3 := b3]> (<[k2 := b2]> (<[k1 := b1]> ls)))))
  = <[k3 := b3]> (<[k2 := b2]> (<[k1 := b1]> ls)).
Proof.
  apply map_eq. intros key.
  destruct (decide (k3 = key)) as [->|N3]; [now rewrite !lookup_insert_eq|].
  rewrite !(lookup_insert_ne _ k3) by exact N3.
  destruct (decide (k2 = key)) as [->|N2]; [now rewrite !lookup_insert_eq|].
  rewrite !(lookup_insert_ne _ k2) by exact N2.
  destruct (decide (k1 = key)) as [->|N1]; [now rewrite !lookup_insert_eq|].
  rewrite !(lookup_insert_ne _ k1) by exact N1.
  rewrite !(lookup_insert_ne _ k3) by exact N3.
  rewrite !(lookup_insert_ne _ k2) by exact N2.
  now rewrite !(lookup_insert_ne _ k1) by exact N1.
Qed.

Lemma App_fields (a b : App) :
  medications a = medications b ->
  history a = history b ->
  settings a = settings b ->
  currentScreen a = currentScreen b ->
  notificationPermission a = notificationPermission b ->
  vibrateSupported a = vibrateSupported b ->
  timeZone a = timeZone b ->
  localStorage a = localStorage b ->
  timers a = timers b ->
  shown a = shown b ->
  confirm_onclick a = confirm_onclick b ->
  confirm_open a = confirm_open b ->
  a = b.
Proof.
  destruct a, b. cbn. intros. now subst.
Qed.

Lemma importMedications_medications data app :
  medications (importMedications data app)
  = if top_truthy (doc_medications data) && isArray (doc_medications data)
    then elements (doc_medications data) else medications app.
Proof.
  unfold importMedications. now destruct (_ && _).
Qed.

Lemma importHistory_history data app :
  history (importHistory data app)
  = if top_truthy (doc_history data) && isArray (doc_history data)
    then elements (doc_history data) else history app.
Proof.
  unfold importHistory. now destruct (_ && _).
Qed.

Lemma importSettings_settings data app :
  settings (importSettings data app)
  = if top_truthy (doc_settings data) && typeofObject (doc_settings data)
    then spread (settings app) (ownProperties (doc_settings data))
    else settings app.
Proof.
  unfold importSettings. now destruct (_ && _).
Qed.

Lemma importData_value data app :
  let app' := importData (ParsedValue data) app in
  medications app' = medications (importMedications data app)
  /\ history app' = history (importHistory data app)
  /\ settings app' = settings (importSettings data app)
  /\ localStorage app'
     = <[key_settings := SettingsBlob (settings (importSettings data app))]>
         (<[key_history := HistoryBlob (history (importHistory data app))]>
            (<[key_medications
               := MedicationsBlob (medications (importMedications data app))]>
               (localStorage app)))
  /\ currentScreen app' = currentScreen app
  /\ notificationPermission app' = notificationPermission app
  /\ vibrateSupported app' = vibrateSupported app
  /\ timeZone app' = timeZone app
  /\ timers app' = timers app
  /\ shown app' = shown app
  /\ confirm_onclick app' = confirm_onclick app
  /\ confirm_open app' = confirm_open app.
Proof.
  cbv zeta. unfold importData, importSettings, importHistory, importMedications.
  destruct (top_truthy (doc_medications data) && isArray (doc_medications data));
    destruct (top_truthy (doc_history data) && isArray (doc_history data));
    destruct (top_truthy (doc_settings data) && typeofObject (doc_settings data));
    repeat split; reflexivity.
Qed.

(** X22. Importing the same file a second time changes nothing: whatever
    [JSON.parse] made of the file and whatever the state was, the state
    after two imports is the state after one, storage included. *)
Theorem importData_again (parsed : Parsed) (app : App) :
  importData parsed (importData parsed app) = importData parsed app.
Proof.
  destruct parsed as [| |data]; [reflexivity | reflexivity |].
  set (once := importData (ParsedValue data) app).
  destruct (importData_value data app)
    as (Hm & Hh & Hs & Hl & Hc & Hn & Hv & Hz & Ht & Hsh & Hco & Hcop).
  destruct (importData_value data once)
    as (Hm' & Hh' & Hs' & Hl' & Hc' & Hn' & Hv' & Hz' & Ht' & Hsh' & Hco' & Hcop').
  fold once in Hm, Hh, Hs, Hl.
  assert (Em : medications (importMedications data once) = medications once).
  { rewrite (importMedications_medications data once), Hm,
      importMedications_medications.
    now destruct (_ && _). }
  assert (Eh : history (importHistory data once) = history once).
  { rewrite (importHistory_history data once), Hh, importHistory_history.
    now destruct (_ && _). }
  assert (Es : settings (importSettings data once) = settings once).
  { rewrite (importSettings_settings data once), Hs, importSettings_settings.
    destruct (_ && _); [apply spread_again | reflexivity]. }
  apply App_fields; try congruence.
  rewrite Hl', Em, Eh, Es, Hl, <- Hm, <- Hh, <- Hs. apply setItem_again.
Qed.

(** ** The confirm dialog *)

Lemma renderThrows_spec localeCompare clk app :
  renderThrows app = true <-> renderTodaysSchedule localeCompare clk app = None.
Proof.
  unfold renderThrows, renderTodaysSchedule.
  destruct (length (medications app) =? 0)%nat; cbn [negb andb];
    [split; discriminate|].
  destruct (groupMedicationsByTime app) as [tg|]; [|tauto].
  destruct (length (Object_keys tg) =? 0)%nat; split; discriminate.
Qed.

Lemma renderThrows_inherited app : renderThrows app = true <-> someInheritedTime app.
Proof.
  unfold renderThrows. split.
  - intros H. apply andb_true_iff in H. destruct H as [_ H].
    destruct (groupMedicationsByTime app) eqn:Hg; [discriminate|].
    destruct (plainTimes (medications app)) eqn:E.
    + apply plainTimes_noInheritedTime in E.
      destruct (groupMedicationsByTime_spec app E) as (tg & Hrun & _). congruence.
    + now apply plainTimes_false.
  - intros Hbad. rewrite (groupMedicationsByTime_throws app Hbad).
    destruct Hbad as (m & _ & Hm & _).
    destruct (medications app); [destruct Hm | reflexivity].
Qed.

Lemma onConfirm_dialog clk cb app :
  confirm_open (onConfirm clk cb app) = confirm_open app.
Proof. now destruct cb. Qed.

(** X24. The confirm dialog closes only when the confirmed action has
    rendered. With the dialog open, a click on "yes" does what the closure
    does to the store, the log and the storage in every case, and leaves the
    dialog open exactly when the render that ends the closure throws, which
    is exactly when a dose time of the store it leaves names an inherited
    property; after a confirmed clear-all the dialog is always closed. *)
Theorem confirm_dialog_closes
    (localeCompare : string -> string -> comparison)
    (clk : Clock) (cb : Callback) (app : App) :
  confirm_onclick app = Some cb ->
  confirm_open app = true ->
  (confirm_open (confirmYes clk app) = true <->
   renderTodaysSchedule localeCompare clk (confirmYes clk app) = None)
  /\ (confirm_open (confirmYes clk app) = true <-> someInheritedTime (confirmYes clk app))
  /\ (cb = ClearConfirmed -> confirm_open (confirmYes clk app) = false)
  /\ medications (confirmYes clk app) = medications (onConfirm clk cb app)
  /\ history (confirmYes clk app) = history (onConfirm clk cb app)
  /\ localStorage (confirmYes clk app) = localStorage (onConfirm clk cb app).
Proof.
  intros Hcb Hopen.
  destruct (confirmYes_fields clk cb app Hcb) as (Hm & Hh & _ & Hl & _).
  assert (Hthrows : renderThrows (confirmYes clk app)
                    = renderThrows (onConfirm clk cb app))
    by (unfold renderThrows, groupMedicationsByTime; now rewrite Hm).
  assert (Hdialog : confirm_open (confirmYes clk app)
                    = renderThrows (onConfirm clk cb app)).
  { unfold confirmYes. rewrite Hcb. cbv zeta.
    destruct (renderThrows (onConfirm clk cb app)); [|reflexivity].
    now rewrite onConfirm_dialog. }
  split; [rewrite Hdialog, <- Hthrows; apply renderThrows_spec|].
  split; [rewrite Hdialog, <- Hthrows; apply renderThrows_inherited|].
  split; [intros ->; rewrite Hdialog; reflexivity|].
  auto.
Qed.

(** Aspirin is deleted from a store that also holds a medication with the
    dose time "constructor": the deletion is done and the dialog is still
    open. *)
Example dialog_stays_open :
  medications (confirmYes nine (deleteMedication (med_id aspirin) inheritedStore)) = [inheritedDose]
  /\ confirm_open (confirmYes nine (deleteMedication (med_id aspirin) inheritedStore)) = true.
Proof. split; reflexivity. Qed.

Lemma confirm_dialog_closes_witness :
  confirm_onclick (deleteMedication (med_id aspirin) inheritedStore)
  = Some (DeleteConfirmed (med_id aspirin))
  /\ confirm_open (deleteMedication (med_id aspirin) inheritedStore) = true
  /\ (confirm_open (confirmYes nine (deleteMedication (med_id aspirin) inheritedStore)) = true
      <-> renderTodaysSchedule String.compare nine
            (confirmYes nine (deleteMedication (med_id aspirin) inheritedStore)) = None)
  /\ (confirm_open (confirmYes nine (deleteMedication (med_id aspirin) inheritedStore)) = true
      <-> someInheritedTime (confirmYes nine (deleteMedication (med_id aspirin) inheritedStore)))
  /\ (DeleteConfirmed (med_id aspirin) = ClearConfirmed ->
      confirm_open (confirmYes nine (deleteMedication (med_id aspirin) inheritedStore)) = false)
  /\ medications (confirmYes nine (deleteMedication (med_id aspirin) inheritedStore))
     = medications (onConfirm nine (DeleteConfirmed (med_id aspirin))
                      (deleteMedication (med_id aspirin) inheritedStore))
  /\ history (confirmYes nine (deleteMedication (med_id aspirin) inheritedStore))
     = history (onConfirm nine (DeleteConfirmed (med_id aspirin))
                  (deleteMedication (med_id aspirin) inheritedStore))
  /\ localStorage (confirmYes nine (deleteMedication (med_id aspirin) inheritedStore))
     = localStorage (onConfirm nine (DeleteConfirmed (med_id aspirin))
                       (deleteMedication (med_id aspirin) inheritedStore)).
Proof.
  split; [reflexivity|]. split; [reflexivity|].
  apply (confirm_dialog_closes String.compare nine (DeleteConfirmed (med_id aspirin))
           (deleteMedication (med_id aspirin) inheritedStore));
    reflexivity.
Defined.
